(** * VideoCharts Web: a shallow embedding of the animation and recording core

    The development follows the JavaScript modules of the repository:
    - [Binary64]       (the rounding of double-precision arithmetic),
    - [ConfigManager]  (ConfigManager.getResolution),
    - [DataLoader]     (validateData, loadFromFile, loadFromURL),
    - [VideoRecorder]  (detectMimeType, start, stop and the chunk handler),
    - [Animator]       (createHorizontalBarChartTimeline, redrawChart and
                        the frame sampling done in the timeline callback),
    - [ConfigStore]    (the configuration object of ConfigManager: update,
                        getValue, setValue, reset, importJSON),
    - [DebugLogger]    (log, captureFrame, startSession, clear,
                        downloadFrame and the totals of getSummary),
    - [App]            (the progress display and the live log view of the
                        application).

    Conventions.
    - JavaScript numbers that stand for times, durations and opacities are
      modelled as exact rationals [Q]; the literals 0.2, 0.4 and 0.15 are the
      fractions 2/10, 4/10 and 15/100.  Counters and sizes are integers [Z].
      Where a result depends on the rounding of double-precision arithmetic
      (the quotient the frame sampler floors, the sum and the average of
      [getStats]), a rational stands for the double nearest to it and every
      operation is rounded with [Binary64.round].
    - Exceptions are explicit: a method returns the new object state together
      with an outcome, because a JavaScript method that throws half-way keeps
      the assignments it already made.
    - The host facilities (MediaRecorder, FileReader, fetch, JSON.parse, the
      GSAP timeline) are modelled at their interface: what the repository
      code passes to them and what it reads back. *)

From Stdlib Require Import ZArith QArith Qround Qminmax String Ascii List Lia Lqa.
From Stdlib Require Import DecimalString Sorted.
From stdpp Require Import base gmap strings list.

(* ===================================================================== *)
(** ** Double-precision numbers                                           *)
(* ===================================================================== *)

Module Binary64.

Local Open Scope Z_scope.

(** A real number rounded to binary64: a double of that value, or a
    magnitude beyond the largest double, which rounds to Infinity or to
    -Infinity. *)
Inductive Rounded :=
| InRange (q : Q)
| AboveRange
| BelowRange.

(** [n / d] rounded to the nearest integer, ties to the even one, for
    [0 <= n] and [0 < d]. *)
Definition nearestInteger (n d : Z) : Z :=
  let q := n / d in
  let r := n mod d in
  match 2 * r ?= d with
  | Lt => q
  | Gt => q + 1
  | Eq => if Z.even q then q else q + 1
  end.

(** Whether [2 ^ e <= a / d], for [0 < a] and [0 < d]. *)
Definition reaches (a d e : Z) : bool :=
  if 0 <=? e then d * 2 ^ e <=? a else d <=? a * 2 ^ (- e).

(** Round to nearest, ties to even, with 53 significant bits, the least
    exponent -1074 of the subnormal doubles and overflow from 2^1024 on.
    For [2 ^ e <= |x| < 2 ^ (e + 1)] the doubles around [x] are the
    multiples of [2 ^ k], where [k] is [e - 52] and at least -1074. *)
Definition round (x : Q) : Rounded :=
  let n := Qnum x in
  let d := Z.pos (Qden x) in
  if n =? 0 then InRange 0
  else
    let a := Z.abs n in
    let e0 := Z.log2 a - Z.log2 d in
    let e := if reaches a d e0 then e0 else e0 - 1 in
    let k := Z.max (e - 52) (-1074) in
    let m := if 0 <=? k then nearestInteger a (d * 2 ^ k)
             else nearestInteger (a * 2 ^ (- k)) d in
    if (0 <=? k) && (2 ^ 1024 <=? m * 2 ^ k)
    then (if n <? 0 then BelowRange else AboveRange)
    else
      let s := if n <? 0 then - m else m in
      InRange (Qred (if 0 <=? k then inject_Z (s * 2 ^ k)
                     else Qmake s (Z.to_pos (2 ^ (- k))))).


(** 2^-1075, half the least positive double: the error of rounding among
    the subnormal doubles is at most this much. *)
Definition halfLeastDouble : Q := 1 # Z.to_pos (2 ^ 1075).

End Binary64.

(* ===================================================================== *)
(** ** ConfigManager                                                      *)
(* ===================================================================== *)

Module ConfigManager.

Record Dimensions := { width : Z; height : Z }.

(** The object literal of [getResolution]: its own properties. *)
Definition resolutions : gmap string Dimensions :=
  <["480p" := {| width := 854; height := 480 |}]>
  (<["720p" := {| width := 1280; height := 720 |}]>
  (<["1080p" := {| width := 1920; height := 1080 |}]> ∅)).

(** An object literal inherits from Object.prototype, and the bracket
    access [resolutions[resolution]] walks the prototype chain.  These are
    the property names every plain object answers to. *)
Definition ObjectPrototype : gset string :=
  list_to_set
    [ "constructor"; "hasOwnProperty"; "isPrototypeOf";
      "propertyIsEnumerable"; "toLocaleString"; "toString"; "valueOf";
      "__proto__"; "__defineGetter__"; "__defineSetter__";
      "__lookupGetter__"; "__lookupSetter__" ].

(** The pair stored under ['1080p']. *)
Definition pair1080 : Dimensions := {| width := 1920; height := 1080 |}.

(** What a property read on [resolutions] evaluates to; [None] is
    [undefined]. *)
Inductive PropertyValue :=
| OwnPair (d : Dimensions)
| InheritedMember (name : string).

Definition getProperty (o : gmap string Dimensions) (key : string)
  : option PropertyValue :=
  match o !! key with
  | Some d => Some (OwnPair d)
  | None =>
      if bool_decide (key ∈ ObjectPrototype)
      then Some (InheritedMember key)
      else None
  end.

(** [a || b]: every [PropertyValue] is an object or a function, hence
    truthy; only [undefined] falls through to [b]. *)
Definition orElse (a b : option PropertyValue) : option PropertyValue :=
  match a with
  | Some v => Some v
  | None => b
  end.

(** [return resolutions[resolution] || resolutions['1080p'];] *)
Definition getResolution (resolution : string) : option PropertyValue :=
  orElse (getProperty resolutions resolution)
         (getProperty resolutions "1080p").

(** Reading [.width] and [.height] off the returned value, as
    [generateVideo] does; an inherited member has neither. *)
Definition widthOf (v : PropertyValue) : option Z :=
  match v with
  | OwnPair d => Some (width d)
  | InheritedMember _ => None
  end.

Definition heightOf (v : PropertyValue) : option Z :=
  match v with
  | OwnPair d => Some (height d)
  | InheritedMember _ => None
  end.

End ConfigManager.

(* ===================================================================== *)
(** ** Animator                                                           *)
(* ===================================================================== *)

Module Animator.

Local Open Scope Q_scope.

(** *** The GSAP timeline, at the interface the Animator uses *)

(** GSAP eases: ['none'] is linear, ['power2.out'] is the cubic ease-out,
    ['power3.out'] the quartic one. *)
Inductive Ease := EaseNone | Power2Out | Power3Out.

Definition applyEase (e : Ease) (p : Q) : Q :=
  match e with
  | EaseNone => p
  | Power2Out => 1 - (1 - p) * (1 - p) * (1 - p)
  | Power3Out => 1 - (1 - p) * (1 - p) * (1 - p) * (1 - p)
  end.

(** The objects the tweens animate. *)
Inductive Target :=
| TitleElement
| BarState (index : nat)
| LabelsState
| EmptyObject.

(** What a tween's [onUpdate] passes as first argument of [redrawChart]:
    the title tween passes [titleElement], the bar and label tweens pass
    [titleElement.opacity]; the hold tween has no callback. *)
Inductive RedrawCall :=
| PassTitleElement
| PassTitleOpacity.

Record Tween := {
  target : Target;
  endValue : Q;
  tweenDuration : Q;
  ease : Ease;
  onUpdate : option RedrawCall;
  startTime : Q
}.

Definition Timeline := list Tween.

Definition endTime (tw : Tween) : Q := startTime tw + tweenDuration tw.

(** [timeline.duration()]: the latest end of a child. *)
Definition timelineDuration (tl : Timeline) : Q :=
  fold_left (fun acc tw => Qmax acc (endTime tw)) tl 0.

(** [timeline.to(target, vars, position)]: with a numeric position the
    tween is placed at that absolute time, without one it is appended at
    the current end of the timeline. *)
Definition to (tl : Timeline) (tg : Target) (v d : Q) (e : Ease)
           (cb : option RedrawCall) (position : option Q) : Timeline :=
  tl ++ [ {| target := tg; endValue := v; tweenDuration := d; ease := e;
             onUpdate := cb;
             startTime := match position with
                          | Some t => t
                          | None => timelineDuration tl
                          end |} ].

(** The value of a tweened property at local progress [p], from 0. *)
Definition tweenValue (tw : Tween) (p : Q) : Q :=
  endValue tw * applyEase (ease tw) p.

(** *** Strings *)

Definition toUpperCaseChar (c : ascii) : ascii :=
  let n := nat_of_ascii c in
  if ((97 <=? n) && (n <=? 122))%nat then ascii_of_nat (n - 32) else c.

(** [String.prototype.toUpperCase] on ASCII titles. *)
Fixpoint toUpperCase (s : string) : string :=
  match s with
  | EmptyString => EmptyString
  | String c rest => String (toUpperCaseChar c) (toUpperCase rest)
  end.

(** *** createHorizontalBarChartTimeline *)

(** A bar element of the chart metadata. *)
Record BarElement := { base : Q; x : Q; y : Q; barHeight : Q }.

Definition staggerStep : Q := 15 # 100.

(** [bars.forEach((bar, index) => ...)] of step 2, from [index] on. *)
Fixpoint addBarTweens (bars : list BarElement) (index : nat)
         (titleDuration perBar : Q) (tl : Timeline) : Timeline :=
  match bars with
  | [] => tl
  | _ :: rest =>
      let delay := inject_Z (Z.of_nat index) * staggerStep in
      addBarTweens rest (S index) titleDuration perBar
        (to tl (BarState index) 1 perBar Power3Out
            (Some PassTitleOpacity) (Some (titleDuration + delay)))
  end.

(** The timeline built for an Animator whose renderer holds a chart with
    the given bars (without a chart the method throws before adding any
    tween): title, staggered bars, labels, hold. *)
Definition createHorizontalBarChartTimeline
           (duration : Q) (useTypewriter : bool) (title : string)
           (bars : list BarElement) : Timeline :=
  let titleDuration := duration * (2 # 10) in
  let barsDuration := duration * (4 # 10) in
  let labelsDuration := duration * (2 # 10) in
  let holdDuration := duration * (2 # 10) in
  let titleText := toUpperCase title in
  let tl1 :=
    if useTypewriter
    then to [] TitleElement (inject_Z (Z.of_nat (String.length titleText)))
            titleDuration EaseNone (Some PassTitleElement) None
    else to [] TitleElement 1 titleDuration Power2Out
            (Some PassTitleElement) None in
  let tl2 :=
    addBarTweens bars 0 titleDuration
      (barsDuration / inject_Z (Z.of_nat (length bars))) tl1 in
  let tl3 :=
    to tl2 LabelsState 1 labelsDuration Power2Out (Some PassTitleOpacity)
       (Some (titleDuration + barsDuration)) in
  to tl3 EmptyObject 0 holdDuration EaseNone None None.

Definition isBarTween (i : nat) (tw : Tween) : bool :=
  match target tw with
  | BarState j => Nat.eqb i j
  | _ => false
  end.

(** The growth tween of bar [i] in a timeline. *)
Definition barTween (tl : Timeline) (i : nat) : option Tween :=
  find (isBarTween i) tl.

Definition titlePhaseEnd (duration : Q) : Q := duration * (2 # 10).
Definition barsPhaseDuration (duration : Q) : Q := duration * (4 # 10).

(** The growth tween step 2 builds for bar [index]. *)
Definition growthTween (titleDuration perBar : Q) (index : nat) : Tween :=
  {| target := BarState index; endValue := 1; tweenDuration := perBar;
     ease := Power3Out; onUpdate := Some PassTitleOpacity;
     startTime := titleDuration
                  + inject_Z (Z.of_nat index) * staggerStep |}.

(** A chart of [n] bars; the geometry plays no role in the timeline. *)
Definition sampleBars (n : nat) : list BarElement :=
  repeat {| base := 0; x := 100; y := 0; barHeight := 20 |} n.

(** The title tween of a timeline. *)
Definition titleTween (tl : Timeline) : option Tween :=
  find (fun tw => match target tw with TitleElement => true | _ => false end)
       tl.

(** *** redrawChart *)

(** The value [redrawChart] receives as its first argument. *)
Inductive TitleArgument :=
| CharsVisibleObject (charsVisible : Q)
| OpacityObject (opacity : Q)
| NumberValue (v : Q)
| UndefinedValue.

(** What a tween callback passes when the tweened title property is [v]:
    [titleElement] is [{ charsVisible }] in typewriter mode and
    [{ opacity }] otherwise, so [titleElement.opacity] is [undefined] in
    typewriter mode and a number otherwise. *)
Definition titleArgument (useTypewriter : bool) (call : RedrawCall) (v : Q)
  : TitleArgument :=
  match call, useTypewriter with
  | PassTitleElement, true => CharsVisibleObject v
  | PassTitleElement, false => OpacityObject v
  | PassTitleOpacity, true => UndefinedValue
  | PassTitleOpacity, false => NumberValue v
  end.

(** The title as handed to [fillText]; [globalAlpha] is [None] when the
    branch taken does not assign it. *)
Record TitleDraw := { displayTitle : string; globalAlpha : option Q }.

(** [x || 0] on a number. *)
Definition orZero (x : Q) : Q := if Qeq_bool x 0 then 0 else x.

(** Lines 196-207: the title to draw.  Reading a property of [undefined]
    throws a TypeError, which is the result [None]; reading a missing
    property of an object or of a number gives [undefined]. *)
Definition drawTitle (useTypewriter : bool) (fullTitle : string)
           (titleElement : TitleArgument) : option TitleDraw :=
  let fade (opacity : option Q) :=
    Some {| displayTitle := fullTitle;
            globalAlpha := Some match opacity with
                                | Some o => orZero o
                                | None => 0
                                end |} in
  match titleElement with
  | UndefinedValue => None
  | CharsVisibleObject c =>
      if useTypewriter
      then
        let chars := Qfloor c in
        Some {| displayTitle :=
                  String.substring 0 (Z.to_nat chars) fullTitle;
                globalAlpha := None |}
      else fade None
  | OpacityObject o => fade (Some o)
  | NumberValue _ => fade None
  end.

(** One row of the chart: Chart.js keeps the label, the value and the bar
    element of a data point at the same index. *)
Record ChartRow := { bar : BarElement; label : string; value : Q }.

Inductive DrawOp :=
| FillRect (rx ry rw rh : Q)
| FillTitle (t : TitleDraw) (tx ty : Q)
| FillLabel (text : string) (tx ty : Q)
| FillValueLabel (v : Q) (tx ty : Q) (alpha : Q).

(** How a redraw ends: it returns, having drawn [ops] in this order, or it
    throws a TypeError, and what it had drawn until then, [drawn], stays on
    the canvas. *)
Inductive Outcome :=
| Returned (ops : list DrawOp)
| TypeError (drawn : list DrawOp).

(** The drawing operations a redraw has carried out, however it ends. *)
Definition drawnBy (r : Outcome) : list DrawOp :=
  match r with
  | Returned ops => ops
  | TypeError drawn => drawn
  end.

(** The [bars.forEach] of lines 217-250, from [index] on.  The first
    statement of an iteration reads [barsState[index].scaleX]: where the
    bar state has no entry it throws, before anything of that row is
    drawn and after the rows before it have been. *)
Fixpoint drawBars (rows : list ChartRow) (index : nat)
         (barsState : list Q) (labelsOpacity : Q)
  : Outcome :=
  match rows with
  | [] => Returned []
  | r :: rest =>
      match barsState !! index with
      | None => TypeError []
      | Some scaleX =>
          let barX := base (bar r) in
          let barWidth := (x (bar r) - base (bar r)) * scaleX in
          let barY := y (bar r) - barHeight (bar r) / 2 in
          let row :=
            [ FillRect barX barY barWidth (barHeight (bar r));
              FillLabel (label r) (barX - 20) (y (bar r));
              FillValueLabel (value r) (barX + barWidth + 10)
                (y (bar r)) labelsOpacity ] in
          match drawBars rest (S index) barsState labelsOpacity with
          | TypeError drawn => TypeError (row ++ drawn)
          | Returned ops => Returned (row ++ ops)
          end
      end
  end.

(** Lines 178-251.  The background is filled (lines 186-187) before the
    title argument is read (lines 199 and 205), and the title is drawn
    (line 209) before the rows are. *)
Definition redrawChart (useTypewriter : bool) (title : string)
           (canvasWidth canvasHeight : Q) (rows : list ChartRow)
           (titleElement : TitleArgument) (barsState : list Q)
           (labelsOpacity : Q) : Outcome :=
  let background := FillRect 0 0 canvasWidth canvasHeight in
  let fullTitle := toUpperCase title in
  match drawTitle useTypewriter fullTitle titleElement with
  | None => TypeError [background]
  | Some t =>
      match drawBars rows 0 barsState labelsOpacity with
      | TypeError drawn =>
          TypeError (background
                     :: FillTitle t (canvasWidth / 2) 30
                     :: drawn)
      | Returned ops =>
          Returned (background
                    :: FillTitle t (canvasWidth / 2) 30
                    :: ops)
      end
  end.

(** The title some redraw shows, if it gets as far as drawing one. *)
Definition shownTitle (r : Outcome) : option string :=
  match drawnBy r with
  | _ :: FillTitle t _ _ :: _ => Some (displayTitle t)
  | _ => None
  end.

(** The [barsState] array before any bar tween has run. *)
Definition initialBarsState (rows : list ChartRow) : list Q :=
  map (fun _ => 0) rows.

(** [Math.round]. *)
Definition mathRound (q : Q) : Z := Qfloor (q + (1 # 2)).

(** The prefix the specification describes for typewriter mode: the first
    [round (titleReveal * titleLength)] characters of the upper-cased
    title. *)
Definition specTypewriterPrefix (title : string) (titleReveal : Q) : string :=
  let fullTitle := toUpperCase title in
  String.substring 0
    (Z.to_nat (mathRound (titleReveal
                          * inject_Z (Z.of_nat (String.length fullTitle)))))
    fullTitle.

(** *** The timeline's onUpdate callback: progress and frame sampling *)

Inductive Effect :=
| ProgressCallback (percent : Q)
| CaptureCurrentFrame (name : string) (number : Z).

(** The template literal [`frame-${this.frameCounter}`]: the decimal
    digits of the counter, as JavaScript prints the integers below 10^21. *)
Definition frameName (n : Z) : string :=
  ("frame-" ++ NilZero.string_of_int (Z.to_int n))%string.

(** The counter value Infinity, which [Math.floor] gives for a quotient
    beyond the doubles.  It is kept as 2^1024: above the floor of every
    double, other than 1 and no multiple of 10, so that it compares and
    samples as Infinity does ([Infinity % 10] is NaN). *)
Definition infinityCount : Z := (2 ^ 1024)%Z.

(** Lines 52-55: [Math.floor(currentTime / frameInterval)] for the frame
    interval [1 / 30], every operation rounded to double precision;
    [currentTime] stands for the double [timeline.time()] returns.  The
    result is [None] for -Infinity, which is above no counter. *)
Definition expectedFrame (currentTime : Q) : option Z :=
  let fps : Q := 30 in
  match Binary64.round (1 / fps), Binary64.round currentTime with
  | Binary64.InRange frameInterval, Binary64.InRange time =>
      match Binary64.round (time / frameInterval) with
      | Binary64.InRange quotient => Some (Qfloor quotient)
      | Binary64.AboveRange => Some infinityCount
      | Binary64.BelowRange => None
      end
  | Binary64.InRange _, Binary64.AboveRange => Some infinityCount
  | _, _ => None
  end.

(** Lines 50-66, with the debug logger attached and [isEnabled()] giving
    [enabled]; returns the frame counter and the capture it triggers. *)
Definition sampleFrame (enabled : bool) (currentTime : Q) (frameCounter : Z)
  : Z * option Effect :=
  if enabled then
    match expectedFrame currentTime with
    | Some expectedFrame =>
        if (expectedFrame >? frameCounter)%Z then
          let frameCounter := expectedFrame in
          let captureEvery := 10%Z in
          if ((frameCounter =? 1) || (Z.rem frameCounter captureEvery =? 0))%Z
          then (frameCounter,
                Some (CaptureCurrentFrame (frameName frameCounter)
                        frameCounter))
          else (frameCounter, None)
        else (frameCounter, None)
    | None => (frameCounter, None)
    end
  else (frameCounter, None).

(** Line 57, [expectedFrame > this.frameCounter]: the tick has reached a
    frame of the sampler after the one counted last. *)
Definition reachedNewFrame (currentTime : Q) (frameCounter : Z) : Prop :=
  exists frame,
    expectedFrame currentTime = Some frame /\ (frameCounter < frame)%Z.




(** The counter values that call for a capture: 1 and the multiples
    of 10. *)
Definition captureValue (counter : Z) : Prop :=
  counter = 1%Z \/ Z.rem counter 10 = 0%Z.


(** A run of ticks at the given timeline times, from a reset counter. *)
Fixpoint runTicks (enabled : bool) (times : list Q) (frameCounter : Z)
  : list (Z * option Effect) :=
  match times with
  | [] => []
  | t :: rest =>
      let step := sampleFrame enabled t frameCounter in
      step :: runTicks enabled rest (fst step)
  end.

(** The frame numbers captured along a run, in order. *)
Definition capturedNumbers (steps : list (Z * option Effect)) : list Z :=
  flat_map (fun step => match snd step with
                        | Some (CaptureCurrentFrame _ n) => [n]
                        | _ => []
                        end) steps.

(** The global alpha some redraw draws its title with; the inner [None]
    means the redraw left it untouched. *)
Definition shownTitleAlpha (r : Outcome) : option (option Q) :=
  match drawnBy r with
  | _ :: FillTitle t _ _ :: _ => Some (globalAlpha t)
  | _ => None
  end.

(** The tweens that follow the title tween in step order. *)
Definition labelsTween (duration : Q) : Tween :=
  {| target := LabelsState; endValue := 1;
     tweenDuration := duration * (2 # 10); ease := Power2Out;
     onUpdate := Some PassTitleOpacity;
     startTime := duration * (2 # 10) + duration * (4 # 10) |}.

(** The chart of the two rows A = 10 and B = 20. *)
Definition sampleRows : list ChartRow :=
  [ {| bar := {| base := 100; x := 300; y := 150; barHeight := 40 |};
       label := "A"; value := 10 |};
    {| bar := {| base := 100; x := 500; y := 250; barHeight := 40 |};
       label := "B"; value := 20 |} ].

End Animator.

(* ===================================================================== *)
(** ** DataLoader                                                         *)
(* ===================================================================== *)

Module DataLoader.

(** JavaScript numbers as the validator sees them. *)
Inductive JSNumber :=
| Finite (q : Q)
| PosInfinity
| NegInfinity
| NaN.

#[local] Set Warnings "-register-all".

(** JavaScript values; an object is the list of its own properties. *)
Inductive JSValue :=
| VUndefined
| VNull
| VBool (b : bool)
| VNumber (n : JSNumber)
| VString (s : string)
| VArray (elems : list JSValue)
| VObject (props : list (string * JSValue)).

(** ToBoolean, as used by [!v]. *)
Definition truthy (v : JSValue) : bool :=
  match v with
  | VUndefined | VNull => false
  | VBool b => b
  | VNumber (Finite q) => negb (Qeq_bool q 0)
  | VNumber NaN => false
  | VNumber _ => true
  | VString s => negb (String.eqb s "")
  | VArray _ | VObject _ => true
  end.

(** [typeof v === 'object'] *)
Definition typeofObject (v : JSValue) : bool :=
  match v with
  | VNull | VArray _ | VObject _ => true
  | _ => false
  end.

Fixpoint lookupProperty (key : string) (props : list (string * JSValue))
  : JSValue :=
  match props with
  | [] => VUndefined
  | (k, v) :: rest =>
      if String.eqb k key then v else lookupProperty key rest
  end.

(** [data.key] for the keys [countries] and [gdp], which no prototype
    defines: an own property of an object, [undefined] otherwise. *)
Definition getField (key : string) (data : JSValue) : JSValue :=
  match data with
  | VObject props => lookupProperty key props
  | _ => VUndefined
  end.

(** [Array.isArray] together with the elements. *)
Definition asArray (v : JSValue) : option (list JSValue) :=
  match v with
  | VArray elems => Some elems
  | _ => None
  end.

(** The filter predicate [typeof val !== 'number' || isNaN(val)]. *)
Definition invalidValue (val : JSValue) : bool :=
  match val with
  | VNumber NaN => true
  | VNumber _ => false
  | _ => true
  end.

(** The six [throw] statements of [validateData], in order. *)
Inductive ValidationError :=
| NotAnObject
| CountriesRequired
| GdpRequired
| LengthMismatch
| NoElements
| InvalidGdpValues.

(** [validateData]; [None] when it returns without throwing. *)
Definition validateData (data : JSValue) : option ValidationError :=
  if negb (truthy data) || negb (typeofObject data) then Some NotAnObject
  else
    let countries := getField "countries" data in
    match (if truthy countries then asArray countries else None) with
    | None => Some CountriesRequired
    | Some cs =>
        let gdp := getField "gdp" data in
        match (if truthy gdp then asArray gdp else None) with
        | None => Some GdpRequired
        | Some gs =>
            if negb (length cs =? length gs)%nat then Some LengthMismatch
            else if (length cs =? 0)%nat then Some NoElements
            else
              let invalidValues := List.filter invalidValue gs in
              if (0 <? length invalidValues)%nat then Some InvalidGdpValues
              else None
        end
    end.

(** A finite number. *)
Definition isFiniteNumber (v : JSValue) : bool :=
  match v with
  | VNumber (Finite _) => true
  | _ => false
  end.

(** A value of type number other than NaN: what the filter lets through. *)
Definition isNumberNotNaN (v : JSValue) : Prop :=
  exists n, v = VNumber n /\ n <> NaN.

(** The conditions under which [validateData] returns normally. *)
Definition wellFormed (d : JSValue) : Prop :=
  exists props cs gs,
    d = VObject props /\
    lookupProperty "countries" props = VArray cs /\
    lookupProperty "gdp" props = VArray gs /\
    length cs = length gs /\
    (1 <= length cs)%nat /\
    Forall isNumberNotNaN gs.

(** The loader object. *)
Record Loader := { data : option JSValue; fileName : option string }.

Definition new : Loader := {| data := None; fileName := None |}.

(** A [File] with what the [FileReader] delivers for it: the text, or
    [None] when the reader fires [onerror]. *)
Record File := { name : string; readAsText : option string }.

(** What [fetch(url)] leads to: a network failure, or a response with its
    [ok] flag, its status and the outcome of [response.json()]. *)
Inductive FetchResult :=
| NetworkFailure
| Response (ok : bool) (status : Z) (json : option JSValue).

Inductive Cause :=
| SyntaxError
| Invalid (e : ValidationError)
| HttpError (status : Z)
| FetchFailed.

(** The errors the two loaders reject with. *)
Inductive LoadError :=
| FileParsingError (c : Cause)
| FileReadError
| DataLoadingError (c : Cause).

Inductive Settled :=
| Resolved (d : JSValue)
| Rejected (e : LoadError).

(** [url.split('/').pop()] *)
Fixpoint lastSegment (current : string) (url : string) : string :=
  match url with
  | EmptyString => current
  | String c rest =>
      if Ascii.eqb c "/" then lastSegment EmptyString rest
      else lastSegment (current ++ String c EmptyString)%string rest
  end.

Section Host.

Variable JSON_parse : string -> option JSValue.
Variable fetch : string -> FetchResult.

Definition loadFromFile (this : Loader) (file : File) : Loader * Settled :=
  match readAsText file with
  | None => (this, Rejected FileReadError)
  | Some content =>
      match JSON_parse content with
      | None => (this, Rejected (FileParsingError SyntaxError))
      | Some d =>
          match validateData d with
          | Some e => (this, Rejected (FileParsingError (Invalid e)))
          | None =>
              ({| data := Some d; fileName := Some (name file) |},
               Resolved d)
          end
      end
  end.

Definition loadFromURL (this : Loader) (url : string) : Loader * Settled :=
  match fetch url with
  | NetworkFailure => (this, Rejected (DataLoadingError FetchFailed))
  | Response ok status json =>
      if negb ok
      then (this, Rejected (DataLoadingError (HttpError status)))
      else
        match json with
        | None => (this, Rejected (DataLoadingError SyntaxError))
        | Some d =>
            match validateData d with
            | Some e => (this, Rejected (DataLoadingError (Invalid e)))
            | None =>
                ({| data := Some d;
                    fileName := Some (lastSegment EmptyString url) |},
                 Resolved d)
            end
        end
  end.

(** An input of [loadFromFile] that fails parsing or validation. *)
Definition fileFails (file : File) : Prop :=
  exists content,
    readAsText file = Some content /\
    (JSON_parse content = None \/
     exists d e, JSON_parse content = Some d /\ validateData d = Some e).

(** An input of [loadFromURL] that fails parsing or validation. *)
Definition urlFails (url : string) : Prop :=
  exists status,
    fetch url = Response true status None \/
    exists d e,
      fetch url = Response true status (Some d) /\
      validateData d = Some e.

End Host.

(** *** The accessors, [clear], [loadExample] and [getStats] *)

Definition getData (this : Loader) : option JSValue := data this.

Definition getFileName (this : Loader) : option string := fileName this.

Definition clear (this : Loader) : Loader :=
  {| data := None; fileName := None |}.

Definition loadExample (fetch : string -> FetchResult) (this : Loader)
  : Loader * Settled :=
  loadFromURL fetch this "assets/examples/video-data.json".

(** Whether a string contains a slash. *)
Fixpoint hasSlash (s : string) : bool :=
  match s with
  | EmptyString => false
  | String c rest => Ascii.eqb c "/" || hasSlash rest
  end.

(** The double a number stands for: a finite value is a double-precision
    number, the nearest to the rational that denotes it, or an infinity
    when that lies beyond the largest double (as [JSON.parse] reads 1e999).
    A rational that is the value of a double stands for that double. *)
Definition toDouble (n : JSNumber) : JSNumber :=
  match n with
  | Finite q =>
      match Binary64.round q with
      | Binary64.InRange d => Finite d
      | Binary64.AboveRange => PosInfinity
      | Binary64.BelowRange => NegInfinity
      end
  | other => other
  end.

(** A number whose double is finite. *)
Definition isFiniteDouble (v : JSValue) : bool :=
  match v with
  | VNumber n =>
      match toDouble n with
      | Finite _ => true
      | _ => false
      end
  | _ => false
  end.

(** Number arithmetic, with the infinities and NaN: [a + b], the sum of two
    doubles rounded to the nearest double. *)
Definition jsAdd (a b : JSNumber) : JSNumber :=
  match toDouble a, toDouble b with
  | NaN, _ | _, NaN => NaN
  | Finite p, Finite q => toDouble (Finite (p + q))
  | PosInfinity, NegInfinity | NegInfinity, PosInfinity => NaN
  | PosInfinity, _ | _, PosInfinity => PosInfinity
  | NegInfinity, _ | _, NegInfinity => NegInfinity
  end.

(** [Math.max] of two numbers. *)
Definition jsMax2 (a b : JSNumber) : JSNumber :=
  match a, b with
  | NaN, _ | _, NaN => NaN
  | PosInfinity, _ | _, PosInfinity => PosInfinity
  | NegInfinity, c | c, NegInfinity => c
  | Finite p, Finite q => Finite (if Qle_bool p q then q else p)
  end.

(** [Math.min] of two numbers. *)
Definition jsMin2 (a b : JSNumber) : JSNumber :=
  match a, b with
  | NaN, _ | _, NaN => NaN
  | NegInfinity, _ | _, NegInfinity => NegInfinity
  | PosInfinity, c | c, PosInfinity => c
  | Finite p, Finite q => Finite (if Qle_bool p q then p else q)
  end.

(** [Math.max(...values)] and [Math.min(...values)]; without arguments
    they are -Infinity and Infinity. *)
Definition mathMax (values : list JSNumber) : JSNumber :=
  fold_left jsMax2 values NegInfinity.

Definition mathMin (values : list JSNumber) : JSNumber :=
  fold_left jsMin2 values PosInfinity.

(** [values.reduce((a, b) => a + b, 0)] *)
Definition sumOf (values : list JSNumber) : JSNumber :=
  fold_left jsAdd values (Finite 0).

(** [total / values.length], the divisor being a length: the quotient of
    two doubles rounded to the nearest double. *)
Definition divideByLength (total : JSNumber) (n : nat) : JSNumber :=
  match toDouble total with
  | NaN => NaN
  | PosInfinity => PosInfinity
  | NegInfinity => NegInfinity
  | Finite q =>
      match n with
      | O => match Qcompare q 0 with
             | Eq => NaN
             | Gt => PosInfinity
             | Lt => NegInfinity
             end
      | S _ => toDouble (Finite (q / inject_Z (Z.of_nat n)))
      end
  end.

Definition asNumber (v : JSValue) : option JSNumber :=
  match v with
  | VNumber n => Some n
  | _ => None
  end.

(** The elements of an array of numbers. *)
Fixpoint numbersOf (values : list JSValue) : option (list JSNumber) :=
  match values with
  | [] => Some []
  | v :: rest =>
      match asNumber v, numbersOf rest with
      | Some n, Some ns => Some (n :: ns)
      | _, _ => None
      end
  end.

Record Stats := {
  rowCount : nat;
  maxValue : JSNumber;
  minValue : JSNumber;
  avgValue : JSNumber
}.

(** What [getStats()] gives: [null] without data, the statistics for data
    made of a [countries] array and a [gdp] array of numbers.  For stored
    data of any other shape the method throws or coerces; the loaders never
    store such data, and this model does not follow it there. *)
Inductive StatsResult :=
| StatsNull
| StatsValue (s : Stats)
| StatsOfOtherData.

Definition getStats (this : Loader) : StatsResult :=
  match data this with
  | None => StatsNull
  | Some d =>
      if negb (truthy d) then StatsNull
      else
        match getField "countries" d, getField "gdp" d with
        | VArray cs, VArray gs =>
            match numbersOf gs with
            | Some values =>
                StatsValue
                  {| rowCount := length cs;
                     maxValue := mathMax values;
                     minValue := mathMin values;
                     avgValue :=
                       divideByLength (sumOf values) (length gs) |}
            | None => StatsOfOtherData
            end
        | _, _ => StatsOfOtherData
        end
  end.

(** The order on numbers other than NaN. *)
Definition jsLe (a b : JSNumber) : Prop :=
  match a, b with
  | NaN, _ | _, NaN => False
  | NegInfinity, _ | _, PosInfinity => True
  | Finite p, Finite q => (p <= q)%Q
  | _, _ => False
  end.

(** Sample data: the rows A = 10 and B = 20. *)
Definition sampleData : JSValue :=
  VObject [ ("countries", VArray [VString "A"; VString "B"]);
            ("gdp", VArray [VNumber (Finite 10); VNumber (Finite 20)]) ].

(** Three rows of value 0.1. *)
Definition tenthsData : JSValue :=
  VObject [ ("countries", VArray [VString "A"; VString "B"; VString "C"]);
            ("gdp", VArray [VNumber (Finite (1 # 10));
                            VNumber (Finite (1 # 10));
                            VNumber (Finite (1 # 10))]) ].

End DataLoader.

(* ===================================================================== *)
(** ** ConfigManager: the stored configuration                            *)
(* ===================================================================== *)

Module ConfigStore.

Import DataLoader.

(** [getDefaultConfig()]; the configuration object is the map of its own
    properties, and like every object literal it inherits from
    Object.prototype. *)
Definition getDefaultConfig : gmap string JSValue :=
  <["title" := VString "GDP BY COUNTRY (IN $)"]>
  (<["barColor" := VString "#000000"]>
  (<["bgColor" := VString "#FFFFFF"]>
  (<["fontSize" := VNumber (Finite 24)]>
  (<["fontFamily" := VString "xkcd Script"]>
  (<["videoDuration" := VNumber (Finite 5)]>
  (<["resolution" := VString "1080p"]>
  (<["fps" := VNumber (Finite 30)]> ∅))))))).

(** The decimal name of an index. *)
Definition indexKey (i : nat) : string :=
  NilZero.string_of_uint (Nat.to_uint i).

Fixpoint indexedFrom (i : nat) (elems : list JSValue)
  : list (string * JSValue) :=
  match elems with
  | [] => []
  | e :: rest => (indexKey i, e) :: indexedFrom (S i) rest
  end.

Fixpoint charsFrom (i : nat) (s : string) : list (string * JSValue) :=
  match s with
  | EmptyString => []
  | String c rest =>
      (indexKey i, VString (String c EmptyString)) :: charsFrom (S i) rest
  end.

(** The own enumerable properties a spread [...v] copies: those of an
    object, the elements of an array and the characters of a string under
    their indices, nothing for the other values. *)
Definition spreadEntries (v : JSValue) : list (string * JSValue) :=
  match v with
  | VObject props => props
  | VArray elems => indexedFrom 0 elems
  | VString s => charsFrom 0 s
  | _ => []
  end.

(** The own property [key] of a property list. *)
Fixpoint findProperty (key : string) (props : list (string * JSValue))
  : option JSValue :=
  match props with
  | [] => None
  | (k, v) :: rest =>
      if String.eqb k key then Some v else findProperty key rest
  end.

(** The object a spread of [v] builds. *)
Definition spreadMap (v : JSValue) : gmap string JSValue :=
  list_to_map (spreadEntries v).

(** [update(updates)]: [{ ...this.config, ...updates }]. *)
Definition update (updates : JSValue) (config : gmap string JSValue)
  : gmap string JSValue :=
  spreadMap updates ∪ config.

(** [get()]: a copy of the configuration. *)
Definition get (config : gmap string JSValue) : gmap string JSValue :=
  config.

(** What a property read gives. *)
Inductive PropertyRead :=
| OwnValue (v : JSValue)
| InheritedMember (name : string)
| Undefined.

(** [getValue(key)]: [this.config[key]], through the prototype chain. *)
Definition getValue (key : string) (config : gmap string JSValue)
  : PropertyRead :=
  match config !! key with
  | Some v => OwnValue v
  | None =>
      if bool_decide (key ∈ ConfigManager.ObjectPrototype)
      then InheritedMember key
      else Undefined
  end.

(** [setValue(key, value)]: [this.config[key] = value].  The assignment
    creates or overwrites an own property, except for the key __proto__
    when the object has no own property of that name: the assignment then
    reaches the inherited accessor, which this model does not follow
    ([None]). *)
Definition setValue (key : string) (value : JSValue)
           (config : gmap string JSValue) : option (gmap string JSValue) :=
  if String.eqb key "__proto__"
     && match config !! key with Some _ => false | None => true end
  then None
  else Some (<[key := value]> config).

(** [reset()] *)
Definition reset (config : gmap string JSValue) : gmap string JSValue :=
  getDefaultConfig.

(** [importJSON(json)]: the new configuration, and whether the method
    threw 'Invalid JSON configuration'. *)
Definition importJSON (JSON_parse : string -> option JSValue)
           (json : string) (config : gmap string JSValue)
  : gmap string JSValue * bool :=
  match JSON_parse json with
  | Some imported => (spreadMap imported ∪ getDefaultConfig, false)
  | None => (config, true)
  end.

End ConfigStore.

(* ===================================================================== *)
(** ** VideoRecorder                                                      *)
(* ===================================================================== *)

Module VideoRecorder.

(** A blob: its bytes and its media type. *)
Record Blob := { bytes : list Byte.byte; type : string }.

Definition size (b : Blob) : Z := Z.of_nat (length (bytes b)).

(** [new Blob(parts, { type })]: the parts one after the other. *)
Definition newBlob (parts : list Blob) (t : string) : Blob :=
  {| bytes := concat (map bytes parts); type := t |}.

(** A [dataavailable] event; [event.data] may be missing. *)
Record DataEvent := { eventData : option Blob }.

(** The host's MediaRecorder: which types [isTypeSupported] reports, and
    for which [mimeType] option the constructor succeeds instead of
    throwing NotSupportedError. *)
Record Host := {
  isTypeSupported : string -> bool;
  constructs : string -> bool
}.

(** A host that follows the MediaStream Recording specification: the
    constructor accepts the empty type (the host picks its default) and
    exactly the types it reports as supported. *)
Definition standardHost (supported : string -> bool) : Host :=
  {| isTypeSupported := supported;
     constructs := fun t => String.eqb t "" || supported t |}.

Record Options := { fps : Z; videoBitsPerSecond : Z }.

Definition defaultOptions : Options :=
  {| fps := 30; videoBitsPerSecond := 5000000 |}.

Record MediaRecorder := {
  recorderMimeType : string;
  recorderBitsPerSecond : Z;
  timeslice : Z
}.

Record MediaStream := { frameRate : Z; tracksStopped : bool }.

(** The fields of a [VideoRecorder] instance. *)
Record Recorder := {
  options : Options;
  mediaRecorder : option MediaRecorder;
  chunks : list Blob;
  stream : option MediaStream;
  isRecording : bool;
  videoBlob : option Blob;
  mimeType : string
}.

Inductive Error :=
| RecordingAlreadyInProgress
| NoRecordingInProgress
| NotSupportedError
| EncoderError.

Inductive Settled (A : Type) :=
| Fulfilled (a : A)
| Rejected (e : Error).
Arguments Fulfilled {A} a.
Arguments Rejected {A} e.

Definition preferredTypes : list string :=
  [ "video/webm;codecs=vp9"; "video/webm;codecs=vp8"; "video/webm";
    "video/mp4" ].

(** [detectMimeType]: the first supported type, or the empty string. *)
Definition detectMimeType (host : Host) : string :=
  match find (isTypeSupported host) preferredTypes with
  | Some t => t
  | None => ""
  end.

(** The constructor. *)
Definition new (host : Host) (opts : Options) : Recorder :=
  {| options := opts;
     mediaRecorder := None;
     chunks := [];
     stream := None;
     isRecording := false;
     videoBlob := None;
     mimeType := detectMimeType host |}.

(** [start()] *)
Definition start (host : Host) (this : Recorder) : Recorder * Settled unit :=
  if isRecording this then (this, Rejected RecordingAlreadyInProgress)
  else
    let captured :=
      {| frameRate := fps (options this); tracksStopped := false |} in
    if constructs host (mimeType this) then
      ({| options := options this;
          mediaRecorder :=
            Some {| recorderMimeType := mimeType this;
                    recorderBitsPerSecond :=
                      videoBitsPerSecond (options this);
                    timeslice := 100 |};
          chunks := [];
          stream := Some captured;
          isRecording := true;
          videoBlob := None;
          mimeType := mimeType this |},
       Fulfilled tt)
    else
      ({| options := options this;
          mediaRecorder := mediaRecorder this;
          chunks := [];
          stream := Some captured;
          isRecording := false;
          videoBlob := None;
          mimeType := mimeType this |},
       Rejected NotSupportedError).

(** The [ondataavailable] handler installed by [start()]. *)
Definition ondataavailable (event : DataEvent) (this : Recorder) : Recorder :=
  match eventData event with
  | Some d =>
      if (size d >? 0)%Z then
        {| options := options this;
           mediaRecorder := mediaRecorder this;
           chunks := chunks this ++ [d];
           stream := stream this;
           isRecording := isRecording this;
           videoBlob := videoBlob this;
           mimeType := mimeType this |}
      else this
  | None => this
  end.

(** The events the host delivers, in delivery order. *)
Definition deliver (events : list DataEvent) (this : Recorder) : Recorder :=
  fold_left (fun r ev => ondataavailable ev r) events this.

(** How the encoder ends after [mediaRecorder.stop()]: it delivers its
    last data and fires [stop], or it fires [error]. *)
Inductive Finalization :=
| Finalized (lastEvents : list DataEvent)
| Failed.

Definition stopTracks (s : option MediaStream) : option MediaStream :=
  match s with
  | Some st => Some {| frameRate := frameRate st; tracksStopped := true |}
  | None => None
  end.

(** [this.mimeType || 'video/webm'] *)
Definition blobType (m : string) : string :=
  if String.eqb m "" then "video/webm" else m.

(** [stop()], with the promise followed to its settlement. *)
Definition stop (this : Recorder) (fin : Finalization)
  : Recorder * Settled Blob :=
  if negb (isRecording this)
     || match mediaRecorder this with None => true | Some _ => false end
  then (this, Rejected NoRecordingInProgress)
  else
    match fin with
    | Finalized lastEvents =>
        let this1 := deliver lastEvents this in
        let blob := newBlob (chunks this1) (blobType (mimeType this1)) in
        ({| options := options this1;
            mediaRecorder := mediaRecorder this1;
            chunks := chunks this1;
            stream := stopTracks (stream this1);
            isRecording := false;
            videoBlob := Some blob;
            mimeType := mimeType this1 |},
         Fulfilled blob)
    | Failed =>
        ({| options := options this;
            mediaRecorder := mediaRecorder this;
            chunks := chunks this;
            stream := stream this;
            isRecording := false;
            videoBlob := videoBlob this;
            mimeType := mimeType this |},
         Rejected EncoderError)
    end.

(** The data of the events that [ondataavailable] keeps. *)
Definition keptData (events : list DataEvent) : list Blob :=
  flat_map (fun ev => match eventData ev with
                      | Some d => if (size d >? 0)%Z then [d] else []
                      | None => []
                      end) events.

Definition totalSize (parts : list Blob) : Z :=
  fold_right (fun b acc => (size b + acc)%Z) 0%Z parts.

(** Sample data: a four-byte chunk, an empty chunk, a host that supports
    every type and a host that supports none. *)
Definition sampleChunk : Blob :=
  {| bytes := [Byte.x1a; Byte.x45; Byte.xdf; Byte.xa3];
     type := "video/webm" |}.

Definition emptyChunk : Blob := {| bytes := []; type := "video/webm" |}.

Definition fullHost : Host := standardHost (fun _ => true).

Definition bareHost : Host := standardHost (fun _ => false).

(** A host whose encoder only does mp4. *)
Definition mp4Host : Host := standardHost (String.eqb "video/mp4").

(** *** The accessors, [download] and [cleanup] *)

(** [getVideoBlob()]; [None] is [null]. *)
Definition getVideoBlob (this : Recorder) : option Blob := videoBlob this.

(** [isRecordingActive()] *)
Definition isRecordingActive (this : Recorder) : bool := isRecording this.

(** An object URL made by [URL.createObjectURL] for a blob. *)
Inductive ObjectURL := ObjectURLFor (b : Blob).

(** [getVideoURL()]; [None] is [null]. *)
Definition getVideoURL (this : Recorder) : option ObjectURL :=
  match videoBlob this with
  | None => None
  | Some b => Some (ObjectURLFor b)
  end.

(** [String.prototype.includes] *)
Fixpoint includes (s pattern : string) : bool :=
  String.prefix pattern s
  || match s with
     | EmptyString => false
     | String _ rest => includes rest pattern
     end.

(** [String.prototype.endsWith]: some tail of [s] is [suffix]. *)
Fixpoint endsWith (s suffix : string) : bool :=
  String.eqb s suffix
  || match s with
     | EmptyString => false
     | String _ rest => endsWith rest suffix
     end.

(** The extension [download] derives from the recorder's type. *)
Definition extensionFor (m : string) : string :=
  if includes m "mp4" then "mp4" else "webm".

(** The [fullFilename] of [download]. *)
Definition fullFilename (m filename : string) : string :=
  let extension := extensionFor m in
  if endsWith filename ("." ++ extension)
  then filename
  else (filename ++ "." ++ extension)%string.

(** What [download(filename)] does: it throws when there is no artifact,
    otherwise it offers the artifact under [fullFilename]. *)
Inductive Download :=
| NoVideoToDownload
| Downloaded (name : string) (b : Blob).

Definition download (this : Recorder) (filename : string) : Download :=
  match videoBlob this with
  | None => NoVideoToDownload
  | Some b => Downloaded (fullFilename (mimeType this) filename) b
  end.

(** [cleanup()]: the artifact is kept on purpose. *)
Definition cleanup (this : Recorder) : Recorder :=
  {| options := options this;
     mediaRecorder := None;
     chunks := [];
     stream := None;
     isRecording := false;
     videoBlob := videoBlob this;
     mimeType := mimeType this |}.

(** The data of all events, kept or not. *)
Definition allData (events : list DataEvent) : list Blob :=
  flat_map (fun ev => match eventData ev with
                      | Some d => [d]
                      | None => []
                      end) events.

End VideoRecorder.

(* ===================================================================== *)
(** ** DebugLogger                                                        *)
(* ===================================================================== *)

Module DebugLogger.

Import DataLoader.

(** One entry of [this.logs]. *)
Record LogEntry := {
  timestamp : string;
  elapsed : string;
  level : string;
  message : string;
  logData : option JSValue
}.

Record Canvas := { canvasWidth : Z; canvasHeight : Z }.

(** One entry of [this.frames]. *)
Record Frame := {
  number : Z;
  name : string;
  frameTimestamp : string;
  frameElapsed : string;
  blob : VideoRecorder.Blob;
  size : Z;
  dimensions : Z * Z
}.

(** The fields of a logger; [metadata] is the list of the assignments
    [this.metadata[key] = value] made since it was last emptied. *)
Record Logger := {
  enabled : bool;
  sessionId : string;
  logs : list LogEntry;
  frames : list Frame;
  config : option JSValue;
  data : option JSValue;
  startTime : option Q;
  metadata : list (string * JSValue)
}.

(** One reading of the host clocks: [performance.now()] and
    [new Date().toISOString()]. *)
Record Clock := { now : Q; iso : string }.

(** What the raster encoding of the canvas comes to: a blob, or a failure
    with the message of the error that is caught (a [null] blob makes
    [blob.size] throw). *)
Inductive Encoded :=
| EncodedBlob (b : VideoRecorder.Blob)
| EncodeFailed (errorMessage : string).

(** The decimal text of an integer. *)
Definition decimal (n : Z) : string := NilZero.string_of_int (Z.to_int n).

Fixpoint zeros (n : nat) : string :=
  match n with
  | O => EmptyString
  | S k => String "0" (zeros k)
  end.

(** [String(n).padStart(4, '0')] *)
Definition padStart4 (n : Z) : string :=
  (zeros (4 - String.length (decimal n)) ++ decimal n)%string.

Definition isEnabled (this : Logger) : bool := enabled this.

Definition disable (this : Logger) : Logger :=
  {| enabled := false; sessionId := sessionId this; logs := logs this;
     frames := frames this; config := config this; data := data this;
     startTime := startTime this; metadata := metadata this |}.

Section Host.

(** [Number.prototype.toFixed(2)] and the copy made by
    [JSON.parse(JSON.stringify(data))]. *)
Variable toFixed2 : Q -> string.
Variable jsonClone : JSValue -> JSValue.

(** [this.startTime ? (now - this.startTime).toFixed(2) : fallback] *)
Definition elapsedSince (start : option Q) (now : Q) (fallback : string)
  : string :=
  match start with
  | Some t => if Qeq_bool t 0 then fallback else toFixed2 (now - t)
  | None => fallback
  end.

(** [log(level, message, data)] *)
Definition log (lvl msg : string) (d : option JSValue) (clock : Clock)
           (this : Logger) : Logger :=
  if negb (enabled this) then this
  else
    let entry :=
      {| timestamp := iso clock;
         elapsed :=
           (elapsedSince (startTime this) (now clock) "0.00" ++ "ms")%string;
         level := lvl;
         message := msg;
         logData := match d with
                    | Some v => if truthy v then Some (jsonClone v) else None
                    | None => None
                    end |} in
    {| enabled := enabled this; sessionId := sessionId this;
       logs := logs this ++ [entry];
       frames := frames this; config := config this; data := data this;
       startTime := startTime this; metadata := metadata this |}.

(** [enable()] *)
Definition enable (clock : Clock) (this : Logger) : Logger :=
  log "DEBUG" "Debug mode enabled" None clock
    {| enabled := true; sessionId := sessionId this; logs := logs this;
       frames := frames this; config := config this; data := data this;
       startTime := startTime this; metadata := metadata this |}.

(** [startSession()]; [newId] is what [generateSessionId()] returns. *)
Definition startSession (newId : string) (startClock logClock : Clock)
           (this : Logger) : Logger :=
  log "SESSION" ("Started session: " ++ newId) None logClock
    {| enabled := enabled this; sessionId := newId; logs := [];
       frames := []; config := config this; data := data this;
       startTime := Some (now startClock); metadata := metadata this |}.

(** [captureFrame(canvas, name, frameNumber)], followed to the point where
    the encoding has settled. *)
Definition captureFrame (canvas : Canvas) (frameName : string)
           (frameNumber : Z) (encoded : Encoded)
           (frameClock logClock : Clock) (this : Logger) : Logger :=
  if negb (enabled this) then this
  else
    match encoded with
    | EncodedBlob b =>
        let frame :=
          {| number := frameNumber;
             name := frameName;
             frameTimestamp := iso frameClock;
             frameElapsed :=
               elapsedSince (startTime this) (now frameClock) "0";
             blob := b;
             size := VideoRecorder.size b;
             dimensions := (canvasWidth canvas, canvasHeight canvas) |} in
        log "RENDER"
          ("Captured frame #" ++ decimal frameNumber ++ ": " ++ frameName)
          (Some (VObject
                   [ ("size",
                      VString (toFixed2 (inject_Z (VideoRecorder.size b)
                                         / 1024) ++ " KB"));
                     ("dimensions",
                      VString (decimal (canvasWidth canvas) ++ "x"
                               ++ decimal (canvasHeight canvas))) ]))
          logClock
          {| enabled := enabled this; sessionId := sessionId this;
             logs := logs this; frames := frames this ++ [frame];
             config := config this; data := data this;
             startTime := startTime this; metadata := metadata this |}
    | EncodeFailed errorMessage =>
        log "ERROR" ("Failed to capture frame #" ++ decimal frameNumber)
          (Some (VObject [ ("error", VString errorMessage) ]))
          logClock this
    end.

(** [clear()] *)
Definition clear (clock : Clock) (this : Logger) : Logger :=
  log "DEBUG" "Debug data cleared" None clock
    {| enabled := enabled this; sessionId := sessionId this; logs := [];
       frames := []; config := None; data := None; startTime := None;
       metadata := [] |}.

(** One capture request with what the host makes of it. *)
Record Capture := {
  onCanvas : Canvas;
  asName : string;
  asNumber : Z;
  outcome : Encoded;
  frameClock : Clock;
  logClock : Clock
}.

(** Capture requests settling one after the other. *)
Definition captureAll (requests : list Capture) (this : Logger) : Logger :=
  fold_left (fun l c =>
               captureFrame (onCanvas c) (asName c) (asNumber c) (outcome c)
                 (frameClock c) (logClock c) l)
            requests this.

(** [downloadFrame(frameNumber)]: the logger afterwards, and the blob and
    file name handed to [downloadBlob], if any. *)
Definition downloadFrame (frameNumber : Z) (clock : Clock) (this : Logger)
  : Logger * option (VideoRecorder.Blob * string) :=
  match find (fun f => (number f =? frameNumber)%Z) (frames this) with
  | None =>
      (log "WARN" ("Frame #" ++ decimal frameNumber ++ " not found") None
         clock this,
       None)
  | Some f =>
      (this,
       Some (blob f,
             (sessionId this ++ "-frame-" ++ padStart4 frameNumber
              ++ ".png")%string))
  end.

End Host.

(** [getLogs()] and [getFrames()]: copies of the two lists. *)
Definition getLogs (this : Logger) : list LogEntry := logs this.
Definition getFrames (this : Logger) : list Frame := frames this.

(** The counts and the total frame size of [getSummary()]. *)
Definition totalLogs (this : Logger) : nat := length (logs this).
Definition totalFrames (this : Logger) : nat := length (frames this).
Definition totalFrameSize (this : Logger) : Z :=
  fold_left (fun sum f => (sum + size f)%Z) (frames this) 0%Z.

(** The blobs of the requests that were encoded, in request order. *)
Definition encodedBlobs (requests : list Capture)
  : list (Z * VideoRecorder.Blob) :=
  flat_map (fun c => match outcome c with
                     | EncodedBlob b => [(asNumber c, b)]
                     | EncodeFailed _ => []
                     end) requests.

(** A logger as [new DebugLogger(enabled)] makes it. *)
Definition new (isOn : bool) (id : string) : Logger :=
  {| enabled := isOn; sessionId := id; logs := []; frames := [];
     config := None; data := None; startTime := None; metadata := [] |}.

(** A sample request, clock and canvas for concrete runs. *)
Definition sampleClock : Clock :=
  {| now := 1500; iso := "2026-01-01T00:00:01.500Z" |}.

Definition sampleCanvas : Canvas :=
  {| canvasWidth := 854; canvasHeight := 480 |}.

Definition sampleCapture (n : Z) (e : Encoded) : Capture :=
  {| onCanvas := sampleCanvas; asName := "frame"; asNumber := n;
     outcome := e; frameClock := sampleClock; logClock := sampleClock |}.

End DebugLogger.

(* ===================================================================== *)
(** ** The application: progress display and live log view               *)
(* ===================================================================== *)

Module App.

Local Open Scope Q_scope.





(** [logs.slice(-50)] of [updateLiveLogs]. *)
Definition recentLogs (logs : list DebugLogger.LogEntry)
  : list DebugLogger.LogEntry :=
  drop (length logs - 50) logs.

End App.

(* ===================================================================== *)
(** * Properties                                                          *)
(* ===================================================================== *)

(** ** ConfigManager.getResolution *)

Section GetResolution.

Import ConfigManager.

Lemma getResolution_480p :
  getResolution "480p" = Some (OwnPair {| width := 854; height := 480 |}).
Proof. reflexivity. Qed.

Lemma getResolution_720p :
  getResolution "720p" = Some (OwnPair {| width := 1280; height := 720 |}).
Proof. reflexivity. Qed.

Lemma getResolution_1080p : getResolution "1080p" = Some (OwnPair pair1080).
Proof. reflexivity. Qed.

Lemma resolutions_other (key : string) :
  key ≠ "480p" → key ≠ "720p" → key ≠ "1080p" →
  resolutions !! key = None.
Proof.
  intros H1 H2 H3. unfold resolutions.
  rewrite !lookup_insert_ne by congruence.
  apply lookup_empty.
Qed.

(** Away from the three own keys and from the inherited names the
    fallback is taken. *)
Lemma getResolution_fallback (key : string) :
  key ≠ "480p" → key ≠ "720p" → key ≠ "1080p" →
  key ∉ ObjectPrototype →
  getResolution key = Some (OwnPair pair1080).
Proof.
  intros H1 H2 H3 Hproto. unfold getResolution, getProperty at 1.
  rewrite resolutions_other by assumption.
  rewrite bool_decide_eq_false_2 by assumption.
  reflexivity.
Qed.

(** An inherited name is answered by the prototype, so the fallback is
    never reached for it. *)
Lemma getResolution_inherited (key : string) :
  key ∈ ObjectPrototype →
  getResolution key = Some (InheritedMember key).
Proof.
  intros Hin. unfold getResolution, getProperty at 1.
  rewrite resolutions_other.
  - rewrite bool_decide_eq_true_2 by assumption. reflexivity.
  - intros ->. revert Hin. vm_compute. intros H. discriminate H.
  - intros ->. revert Hin. vm_compute. intros H. discriminate H.
  - intros ->. revert Hin. vm_compute. intros H. discriminate H.
Qed.

(** The function never returns [undefined]. *)
Lemma getResolution_defined (key : string) :
  ∃ v, getResolution key = Some v.
Proof.
  unfold getResolution.
  destruct (getProperty resolutions key) as [v|]; simpl; eauto.
Qed.

End GetResolution.

  (** C10 (as the code behaves): for the input string "constructor", which
      is none of '480p', '720p', '1080p', [getResolution] does not return the
      1080p pair: the bracket access finds the member inherited from
      Object.prototype, which is truthy, so the fallback is skipped and the
      caller reads neither a width nor a height from the result. *)
Theorem getResolution_constructor_is_not_1080p :
  ∃ v, ConfigManager.getResolution "constructor" = Some v
       ∧ v = ConfigManager.InheritedMember "constructor"
       ∧ v ≠ ConfigManager.OwnPair ConfigManager.pair1080
       ∧ ConfigManager.widthOf v = None
       ∧ ConfigManager.heightOf v = None.
Proof.
  eexists. split; [reflexivity|].
  repeat split; try reflexivity. discriminate.
Qed.

(** ** Animator: the timeline *)

Section TimelineShape.

Import Animator.
Local Open Scope Q_scope.

Lemma find_app_Some {A} (f : A → bool) (l1 l2 : list A) (a : A) :
  find f l1 = Some a → find f (l1 ++ l2) = Some a.
Proof.
  induction l1 as [|h t IH]; simpl; [discriminate|].
  destruct (f h); auto.
Qed.

Lemma find_app_None {A} (f : A → bool) (l1 l2 : list A) :
  find f l1 = None → find f (l1 ++ l2) = find f l2.
Proof.
  induction l1 as [|h t IH]; simpl; [reflexivity|].
  destruct (f h); [discriminate|auto].
Qed.

(** The loop appends one growth tween per bar, in index order. *)
Lemma addBarTweens_app (bars : list BarElement) (k : nat) (td pb : Q)
      (tl : Timeline) :
  addBarTweens bars k td pb tl
  = tl ++ map (growthTween td pb) (seq k (length bars)).
Proof.
  revert k tl. induction bars as [|b rest IH]; intros k tl; simpl.
  - symmetry. apply app_nil_r.
  - rewrite IH. unfold to. rewrite <- app_assoc. reflexivity.
Qed.

Lemma find_growthTween (td pb : Q) (n k i : nat) :
  (k ≤ i < k + n)%nat →
  find (isBarTween i) (map (growthTween td pb) (seq k n))
  = Some (growthTween td pb i).
Proof.
  revert k. induction n as [|n IH]; intros k Hi; [lia|].
  simpl. unfold isBarTween at 1. simpl.
  destruct (Nat.eqb_spec i k) as [->|Hne]; [reflexivity|].
  apply IH. lia.
Qed.

(** Bar [i] of a chart of [length bars] bars has exactly the growth tween
    of step 2 in the timeline. *)
Lemma barTween_created (duration : Q) (useTypewriter : bool) (title : string)
      (bars : list BarElement) (i : nat) :
  (i < length bars)%nat →
  barTween (createHorizontalBarChartTimeline duration useTypewriter title bars) i
  = Some (growthTween (titlePhaseEnd duration)
            (barsPhaseDuration duration / inject_Z (Z.of_nat (length bars)))
            i).
Proof.
  intros Hi. unfold createHorizontalBarChartTimeline, barTween.
  rewrite addBarTweens_app. unfold to at 1 2.
  rewrite <- !app_assoc.
  rewrite find_app_None.
  - apply find_app_Some, find_growthTween. lia.
  - destruct useTypewriter; reflexivity.
Qed.

End TimelineShape.

Section Stagger.

Import Animator.
Local Open Scope Q_scope.

Lemma inject_nat_le (i j : nat) :
  (i ≤ j)%nat → inject_Z (Z.of_nat i) <= inject_Z (Z.of_nat j).
Proof. intros H. rewrite <- Zle_Qle. lia. Qed.

Lemma inject_nat_S (i : nat) :
  inject_Z (Z.of_nat (S i)) == inject_Z (Z.of_nat i) + 1.
Proof.
  rewrite Nat2Z.inj_succ. unfold Z.succ. rewrite inject_Z_plus. reflexivity.
Qed.

(** Where the last bar's growth ends, against the end of the bars phase:
    it fits exactly when there is a single bar or the per-bar share of the
    phase is at least the fixed stagger step. *)
Lemma last_bar_fits_iff (duration : Q) (n : nat) :
  (1 ≤ n)%nat →
  let perBar := barsPhaseDuration duration / inject_Z (Z.of_nat n) in
  endTime (growthTween (titlePhaseEnd duration) perBar (n - 1))
  <= titlePhaseEnd duration + barsPhaseDuration duration
  ↔ n = 1%nat ∨ staggerStep <= perBar.
Proof.
  intros Hn perBar. unfold endTime. simpl.
  assert (HN : 0 < inject_Z (Z.of_nat n)).
  { change 0 with (inject_Z 0). rewrite <- Zlt_Qlt. lia. }
  assert (Hpb : inject_Z (Z.of_nat n) * perBar == barsPhaseDuration duration).
  { unfold perBar. apply Qmult_div_r. lra. }
  clearbody perBar.
  destruct (Nat.eq_dec n 1%nat) as [->|Hne].
  - split; [auto|]. intros _.
    change (inject_Z (Z.of_nat 1)) with 1 in Hpb.
    change (inject_Z (Z.of_nat (1 - 1))) with 0. lra.
  - assert (HM : inject_Z (Z.of_nat (n - 1)) == inject_Z (Z.of_nat n) - 1).
    { replace n with (S (n - 1)) at 2 by lia. rewrite inject_nat_S. lra. }
    assert (HMpos : 0 < inject_Z (Z.of_nat (n - 1))).
    { change 0 with (inject_Z 0). rewrite <- Zlt_Qlt. lia. }
    rewrite <- Hpb.
    set (N := inject_Z (Z.of_nat n)) in *.
    set (M := inject_Z (Z.of_nat (n - 1))) in *.
    split.
    + intros H. right.
      apply (Qmult_le_l _ _ M HMpos). nra.
    + intros [H|H]; [lia|].
      apply (Qmult_le_l _ _ M HMpos) in H. nra.
Qed.

End Stagger.

Section StaggerClaims.

Import Animator.
Local Open Scope Q_scope.

(** Bar [i] begins its growth at [titlePhaseEnd + i * staggerStep], for
    every duration and every chart. *)
Lemma bar_growth_start (duration : Q) (useTypewriter : bool)
      (title : string) (bars : list BarElement) (i : nat) :
  (i < length bars)%nat →
  ∃ tw,
    barTween
      (createHorizontalBarChartTimeline duration useTypewriter title bars) i
    = Some tw
    ∧ startTime tw
      = titlePhaseEnd duration + inject_Z (Z.of_nat i) * staggerStep
    ∧ tweenDuration tw
      = barsPhaseDuration duration / inject_Z (Z.of_nat (length bars)).
Proof.
  intros Hi. eexists. split; [apply barTween_created; exact Hi|].
  split; reflexivity.
Qed.

(** With two or more bars whose share of the bars phase is shorter than
    the stagger step, the last bar is still growing when the bars phase
    ends. *)
Lemma last_bar_overrun (duration : Q) (useTypewriter : bool)
      (title : string) (bars : list BarElement) :
  (2 ≤ length bars)%nat →
  barsPhaseDuration duration / inject_Z (Z.of_nat (length bars))
  < staggerStep →
  ∃ tw,
    barTween
      (createHorizontalBarChartTimeline duration useTypewriter title bars)
      (length bars - 1)
    = Some tw
    ∧ titlePhaseEnd duration + barsPhaseDuration duration < endTime tw.
Proof.
  intros Hn Hshort. eexists. split; [apply barTween_created; lia|].
  apply Qnot_le_lt. intros Hfit.
  apply last_bar_fits_iff in Hfit; [|lia].
  destruct Hfit as [H1|Hge]; [lia|].
  apply (Qlt_not_le _ _ Hshort Hge).
Qed.

End StaggerClaims.

(** C1 (as the code behaves): for 10 bars and a duration of 3 seconds, bar 9
    begins its growth at [titlePhaseEnd + 9 * 0.15], as claimed, but it
    finishes at 2.07 s, after [titlePhaseEnd + barsPhaseDuration] = 1.8 s
    = 0.6 * 3 s: the stagger step is the constant 0.15 s and is not chosen
    from the duration and the bar count. *)
Theorem last_bar_finishes_after_bars_phase :
  ∃ tw,
    Animator.barTween
      (Animator.createHorizontalBarChartTimeline
         3 false "GDP by country" (Animator.sampleBars 10)) 9
    = Some tw
    ∧ (Animator.startTime tw
       == Animator.titlePhaseEnd 3 + 9 * Animator.staggerStep)%Q
    ∧ (Animator.endTime tw == 207 # 100)%Q
    ∧ (Animator.titlePhaseEnd 3 + Animator.barsPhaseDuration 3
       == (6 # 10) * 3)%Q
    ∧ ((6 # 10) * 3 < Animator.endTime tw)%Q
    ∧ ¬ (Animator.endTime tw
         <= Animator.titlePhaseEnd 3 + Animator.barsPhaseDuration 3)%Q.
Proof.
  eexists. split; [vm_compute; reflexivity|].
  repeat split; try reflexivity.
  apply Qlt_not_le. reflexivity.
Qed.

(** C8: for every bar count n >= 2 and adjacent indices i, i+1 < n, the
    growth tween of bar i+1 starts no earlier than the growth tween of
    bar i. *)
Theorem stagger_monotone (duration : Q) (useTypewriter : bool)
        (title : string) (bars : list Animator.BarElement) (i : nat) :
  2 ≤ length bars →
  S i < length bars →
  ∃ a b,
    Animator.barTween
      (Animator.createHorizontalBarChartTimeline
         duration useTypewriter title bars) i = Some a
    ∧ Animator.barTween
        (Animator.createHorizontalBarChartTimeline
           duration useTypewriter title bars) (S i) = Some b
    ∧ (Animator.startTime a <= Animator.startTime b)%Q.
Proof.
  intros _ Hi. do 2 eexists.
  split; [apply barTween_created; lia|].
  split; [apply barTween_created; exact Hi|].
  simpl. pose proof (inject_nat_S i) as HS.
  unfold Animator.staggerStep. lra.
Qed.

Lemma stagger_monotone_witness :
  2 ≤ length (Animator.sampleBars 3)
  ∧ 1 < length (Animator.sampleBars 3)
  ∧ ∃ a b,
      Animator.barTween
        (Animator.createHorizontalBarChartTimeline
           5 false "GDP by country" (Animator.sampleBars 3)) 0 = Some a
      ∧ Animator.barTween
          (Animator.createHorizontalBarChartTimeline
             5 false "GDP by country" (Animator.sampleBars 3)) 1 = Some b
      ∧ (Animator.startTime a <= Animator.startTime b)%Q.
Proof.
  split; [simpl; lia|]. split; [simpl; lia|].
  apply (stagger_monotone 5 false "GDP by country" (Animator.sampleBars 3) 0);
    simpl; lia.
Defined.

(** ** Animator: the title in typewriter mode *)

Section Typewriter.

Import Animator.
Local Open Scope Q_scope.

Lemma drawBars_returns (rows : list ChartRow) (index : nat)
      (barsState : list Q) (labelsOpacity : Q) :
  (index + length rows ≤ length barsState)%nat →
  ∃ ops, drawBars rows index barsState labelsOpacity = Returned ops.
Proof.
  revert index. induction rows as [|r rest IH]; intros index Hlen; simpl.
  - eauto.
  - simpl in Hlen.
    destruct (lookup_lt_is_Some_2 barsState index) as [sx Hsx]; [lia|].
    rewrite Hsx.
    destruct (IH (S index)) as [ops Hops]; [lia|].
    rewrite Hops. eauto.
Qed.

Lemma titleTween_typewriter (duration : Q) (title : string)
      (bars : list BarElement) :
  titleTween (createHorizontalBarChartTimeline duration true title bars)
  = Some {| target := TitleElement;
            endValue :=
              inject_Z (Z.of_nat (String.length (toUpperCase title)));
            tweenDuration := duration * (2 # 10);
            ease := EaseNone;
            onUpdate := Some PassTitleElement;
            startTime := 0 |}.
Proof.
  unfold createHorizontalBarChartTimeline, titleTween.
  rewrite addBarTweens_app. reflexivity.
Qed.

(** What a typewriter redraw shows for a given [charsVisible]. *)
Lemma shownTitle_typewriter (title : string) (cw ch : Q)
      (rows : list ChartRow) (c : Q) (barsState : list Q) (lo : Q) :
  (length rows ≤ length barsState)%nat →
  shownTitle (redrawChart true title cw ch rows (CharsVisibleObject c)
                barsState lo)
  = Some (String.substring 0 (Z.to_nat (Qfloor c)) (toUpperCase title)).
Proof.
  intros Hlen. unfold redrawChart. simpl.
  destruct (drawBars_returns rows 0 barsState lo) as [ops Hops];
    [simpl; lia|].
  rewrite Hops. reflexivity.
Qed.

(** In typewriter mode the redraws issued by the bar and label tweens
    receive [undefined]: they fill the background and throw before the
    title or a row is drawn. *)
Lemma typewriter_later_redraws_throw (title : string) (cw ch : Q)
      (rows : list ChartRow) (v : Q) (barsState : list Q) (lo : Q) :
  redrawChart true title cw ch rows (titleArgument true PassTitleOpacity v)
    barsState lo
  = TypeError [FillRect 0 0 cw ch].
Proof. reflexivity. Qed.

End Typewriter.

(** C3 (counterexample): with the title "abcdefghij" at title-reveal
    progress 3/50, the tweened [charsVisible] is 0.6; the redraw shows the
    empty prefix, whereas the first [round (0.6)] = 1 characters are "A". *)
Lemma typewriter_prefix_not_rounded :
  ∃ tw,
    Animator.titleTween
      (Animator.createHorizontalBarChartTimeline 5 true "abcdefghij" [])
    = Some tw
    ∧ (Animator.tweenValue tw (3 # 50) == 6 # 10)%Q
    ∧ Animator.shownTitle
        (Animator.redrawChart true "abcdefghij" 854 480 []
           (Animator.titleArgument true Animator.PassTitleElement
              (Animator.tweenValue tw (3 # 50)))
           [] 0)
      = Some ""
    ∧ Animator.specTypewriterPrefix "abcdefghij" (3 # 50) = "A"
    ∧ Animator.shownTitle
        (Animator.redrawChart true "abcdefghij" 854 480 []
           (Animator.titleArgument true Animator.PassTitleElement
              (Animator.tweenValue tw (3 # 50)))
           [] 0)
      ≠ Some (Animator.specTypewriterPrefix "abcdefghij" (3 # 50)).
Proof.
  eexists. split; [reflexivity|].
  split; [reflexivity|]. split; [reflexivity|]. split; [reflexivity|].
  vm_compute. discriminate.
Qed.

(** C3 (amended): in typewriter mode, every redraw issued by the title
    tween at title-reveal progress [titleReveal] in [0,1] shows exactly the
    first [floor (titleReveal * titleLength)] characters of the upper-cased
    title. *)
Theorem typewriter_prefix_floor (duration : Q) (title : string)
        (cw ch : Q) (rows : list Animator.ChartRow) (labelsOpacity : Q)
        (titleReveal : Q) :
  (0 <= titleReveal)%Q →
  (titleReveal <= 1)%Q →
  ∃ tw call,
    Animator.titleTween
      (Animator.createHorizontalBarChartTimeline
         duration true title (map Animator.bar rows))
    = Some tw
    ∧ Animator.onUpdate tw = Some call
    ∧ Animator.shownTitle
        (Animator.redrawChart true title cw ch rows
           (Animator.titleArgument true call
              (Animator.tweenValue tw titleReveal))
           (Animator.initialBarsState rows) labelsOpacity)
      = Some (String.substring 0
                (Z.to_nat
                   (Qfloor
                      (titleReveal
                       * inject_Z
                           (Z.of_nat
                              (String.length (Animator.toUpperCase title))))))
                (Animator.toUpperCase title)).
Proof.
  intros _ _. do 2 eexists.
  split; [apply titleTween_typewriter|].
  split; [reflexivity|].
  cbn [Animator.titleArgument].
  rewrite shownTitle_typewriter.
  - unfold Animator.tweenValue. cbn [Animator.endValue Animator.ease
                                     Animator.applyEase].
    rewrite (Qfloor_comp _ _ (Qmult_comm _ _)). reflexivity.
  - unfold Animator.initialBarsState. rewrite length_map. lia.
Qed.

Lemma typewriter_prefix_floor_witness :
  (0 <= 1 # 2)%Q ∧ (1 # 2 <= 1)%Q
  ∧ ∃ tw call,
      Animator.titleTween
        (Animator.createHorizontalBarChartTimeline
           5 true "gdp" (map Animator.bar []))
      = Some tw
      ∧ Animator.onUpdate tw = Some call
      ∧ Animator.shownTitle
          (Animator.redrawChart true "gdp" 854 480 []
             (Animator.titleArgument true call
                (Animator.tweenValue tw (1 # 2)))
             (Animator.initialBarsState []) 1)
        = Some (String.substring 0
                  (Z.to_nat
                     (Qfloor
                        ((1 # 2)
                         * inject_Z
                             (Z.of_nat
                                (String.length (Animator.toUpperCase "gdp"))))))
                  (Animator.toUpperCase "gdp")).
Proof.
  split; [vm_compute; discriminate|]. split; [vm_compute; discriminate|].
  apply (typewriter_prefix_floor 5 "gdp" 854 480 [] 1 (1 # 2));
    vm_compute; discriminate.
Defined.

(** ** Double-precision rounding *)

Section Rounding.

Local Open Scope Z_scope.




Local Open Scope Q_scope.









(** Some doubles: 0.1 and 1/30; the ties 2^53 + 1 and 2^53 + 3, which go to
    the even neighbours 2^53 and 2^53 + 4; 2^1024, beyond the range; half
    the least positive double, a tie that goes to 0. *)
Lemma round_examples :
  Binary64.round (1 # 10)
  = Binary64.InRange (3602879701896397 # 36028797018963968)
  ∧ Binary64.round (1 / 30)
    = Binary64.InRange (4803839602528529 # 144115188075855872)
  ∧ Binary64.round 9007199254740993
    = Binary64.InRange 9007199254740992
  ∧ Binary64.round 9007199254740995
    = Binary64.InRange 9007199254740996
  ∧ Binary64.round (inject_Z (2 ^ 1024)) = Binary64.AboveRange
  ∧ Binary64.round (- inject_Z (2 ^ 1024)) = Binary64.BelowRange
  ∧ Binary64.round Binary64.halfLeastDouble = Binary64.InRange 0.
Proof. repeat split; vm_compute; reflexivity. Qed.

End Rounding.

(** ** Animator: frame sampling *)

Section FrameSampling.

Import Animator.
Local Open Scope Q_scope.

(** The three ways a tick of the enabled sampler can go. *)
Lemma sampleFrame_cases (currentTime : Q) (frameCounter : Z) :
  (∃ c, expectedFrame currentTime = Some c ∧ (frameCounter < c)%Z
        ∧ captureValue c
        ∧ sampleFrame true currentTime frameCounter
          = (c, Some (CaptureCurrentFrame (frameName c) c)))
  ∨ (∃ c, expectedFrame currentTime = Some c ∧ (frameCounter < c)%Z
          ∧ ¬ captureValue c
          ∧ sampleFrame true currentTime frameCounter = (c, None))
  ∨ (¬ reachedNewFrame currentTime frameCounter
     ∧ sampleFrame true currentTime frameCounter = (frameCounter, None)).
Proof.
  unfold sampleFrame, captureValue, reachedNewFrame.
  destruct (expectedFrame currentTime) as [c|].
  - destruct (c >? frameCounter)%Z eqn:Hgt.
    + assert (Hlt : (frameCounter < c)%Z) by (apply Z.gtb_lt; exact Hgt).
      destruct ((c =? 1) || (Z.rem c 10 =? 0))%Z eqn:Hcap.
      * left. exists c. apply orb_true_iff in Hcap.
        rewrite !Z.eqb_eq in Hcap. tauto.
      * right; left. exists c. apply orb_false_iff in Hcap.
        rewrite !Z.eqb_neq in Hcap. tauto.
    + right; right. split; [|reflexivity].
      intros (frame & Hframe & Hlt). injection Hframe as <-.
      apply Z.gtb_lt in Hlt. congruence.
  - right; right. split; [|reflexivity].
    intros (frame & Hframe & _). discriminate Hframe.
Qed.







(** A disabled logger samples nothing and leaves the counter alone. *)
Lemma sampleFrame_disabled (currentTime : Q) (frameCounter : Z) :
  sampleFrame false currentTime frameCounter = (frameCounter, None).
Proof. reflexivity. Qed.

(** Along a run of ticks every capture carries a counter value that is 1
    or a multiple of 10, and the name built from it. *)
Lemma runTicks_captures (times : list Q) (frameCounter : Z) :
  Forall (fun step =>
            match snd step with
            | Some c =>
                c = CaptureCurrentFrame (frameName (fst step)) (fst step)
                ∧ captureValue (fst step)
            | None => True
            end)
         (runTicks true times frameCounter).
Proof.
  revert frameCounter.
  induction times as [|t rest IH]; intros frameCounter; cbn [runTicks].
  - constructor.
  - constructor; [|apply IH].
    destruct (sampleFrame_cases t frameCounter)
      as [(c & _ & _ & Hv & ->)|[(c & _ & _ & _ & ->)|(_ & ->)]];
      simpl; auto.
Qed.

End FrameSampling.



(** ** DataLoader *)

Section Validation.

Import DataLoader.

Lemma invalidValue_false_iff (v : JSValue) :
  invalidValue v = false ↔ isNumberNotNaN v.
Proof.
  unfold isNumberNotNaN. split.
  - destruct v as [| | |n| | |]; try discriminate.
    destruct n; try discriminate; intros _; eexists; split;
      try reflexivity; discriminate.
  - intros (n & -> & Hn). destruct n; try reflexivity. congruence.
Qed.

Lemma no_invalid_iff (gs : list JSValue) :
  (0 <? length (List.filter invalidValue gs))%nat = false
  ↔ Forall isNumberNotNaN gs.
Proof.
  induction gs as [|g rest IH]; simpl.
  - split; [constructor|reflexivity].
  - destruct (invalidValue g) eqn:Hg; simpl.
    + split; [discriminate|].
      intros H. inversion H as [|? ? Hh Ht]; subst.
      apply invalidValue_false_iff in Hh. congruence.
    + rewrite IH. split.
      * intros H. constructor; [apply invalidValue_false_iff|]; assumption.
      * intros H. inversion H; assumption.
Qed.

Lemma truthy_asArray (v : JSValue) (l : list JSValue) :
  (if truthy v then asArray v else None) = Some l ↔ v = VArray l.
Proof.
  split.
  - destruct v; simpl; try discriminate;
      repeat match goal with
             | |- context [if ?b then _ else _] => destruct b
             | n : JSNumber |- _ => destruct n
             end; simpl; try discriminate; congruence.
  - intros ->. reflexivity.
Qed.

(** [validateData] returns normally exactly on well-formed inputs. *)
Lemma validateData_None_iff (d : JSValue) :
  validateData d = None ↔ wellFormed d.
Proof.
  unfold wellFormed. split.
  - unfold validateData.
    destruct (negb (truthy d) || negb (typeofObject d)) eqn:Hobj;
      [discriminate|].
    destruct (if truthy (getField "countries" d)
              then asArray (getField "countries" d) else None)
      as [cs|] eqn:Hcs; [|discriminate].
    destruct (if truthy (getField "gdp" d)
              then asArray (getField "gdp" d) else None)
      as [gs|] eqn:Hgs; [|discriminate].
    apply truthy_asArray in Hcs. apply truthy_asArray in Hgs.
    destruct (length cs =? length gs)%nat eqn:Hlen; [|discriminate].
    destruct (length cs =? 0)%nat eqn:Hz; [discriminate|].
    simpl.
    destruct (0 <? length (List.filter invalidValue gs))%nat eqn:Hf;
      [discriminate|].
    intros _. apply Nat.eqb_eq in Hlen. apply Nat.eqb_neq in Hz.
    apply no_invalid_iff in Hf.
    destruct d as [| | | | | |props]; simpl in Hcs; try discriminate.
    exists props, cs, gs. simpl in Hgs. repeat split; auto. lia.
  - intros (props & cs & gs & -> & Hcs & Hgs & Hlen & Hpos & Hall).
    unfold validateData. simpl. rewrite Hcs, Hgs. simpl.
    apply Nat.eqb_eq in Hlen. rewrite Hlen. simpl.
    destruct (length cs =? 0)%nat eqn:Hz.
    + apply Nat.eqb_eq in Hz. lia.
    + apply no_invalid_iff in Hall. rewrite Hall. reflexivity.
Qed.

End Validation.

(** C4 (counterexample): the input { countries: ["Italy"], gdp: [Infinity] }
    has a value array containing a non-finite number, and [validateData]
    reports no error for it. *)
Lemma validateData_accepts_infinity :
  ∃ gs,
    DataLoader.getField "gdp"
      (DataLoader.VObject
         [("countries"%string,
           DataLoader.VArray [DataLoader.VString "Italy"]);
          ("gdp"%string,
           DataLoader.VArray [DataLoader.VNumber DataLoader.PosInfinity])])
    = DataLoader.VArray gs
    ∧ In (DataLoader.VNumber DataLoader.PosInfinity) gs
    ∧ DataLoader.isFiniteNumber (DataLoader.VNumber DataLoader.PosInfinity)
      = false
    ∧ DataLoader.validateData
        (DataLoader.VObject
           [("countries"%string,
             DataLoader.VArray [DataLoader.VString "Italy"]);
            ("gdp"%string,
             DataLoader.VArray [DataLoader.VNumber DataLoader.PosInfinity])])
      = None.
Proof.
  eexists. split; [reflexivity|].
  split; [left; reflexivity|]. split; reflexivity.
Qed.

(** C4 (amended): the validation accepts an input only if it is an object
    whose label and value arrays have equal length, with at least one row,
    and whose values are all numbers other than NaN (and it accepts every
    such input); in particular, for every input whose value array contains
    NaN or a value that is not a number, [validateData] reports an error. *)
Theorem validateData_accepts_numbers_not_NaN (d : DataLoader.JSValue) :
  (DataLoader.validateData d = None ↔ DataLoader.wellFormed d)
  ∧ ∀ gs v,
      DataLoader.getField "gdp" d = DataLoader.VArray gs →
      In v gs →
      ¬ DataLoader.isNumberNotNaN v →
      ∃ e, DataLoader.validateData d = Some e.
Proof.
  split; [apply validateData_None_iff|].
  intros gs v Hgs Hin Hbad.
  destruct (DataLoader.validateData d) as [e|] eqn:Hv; [eauto|].
  exfalso. apply validateData_None_iff in Hv.
  destruct Hv as (props & cs' & gs' & -> & _ & Hg & _ & _ & Hall).
  simpl in Hgs. rewrite Hg in Hgs. injection Hgs as ->.
  apply Hbad. rewrite List.Forall_forall in Hall. apply Hall, Hin.
Qed.

Section Loading.

Import DataLoader.

Variable JSON_parse : string → option JSValue.
Variable fetch : string → FetchResult.

Lemma loadFromFile_failure (this : Loader) (file : File) :
  fileFails JSON_parse file →
  ∃ e, loadFromFile JSON_parse this file = (this, Rejected e).
Proof.
  intros (content & Hread & [Hparse|(d & e & Hparse & Hval)]);
    unfold loadFromFile; rewrite Hread, Hparse.
  - eauto.
  - rewrite Hval. eauto.
Qed.

Lemma loadFromURL_failure (this : Loader) (url : string) :
  urlFails fetch url →
  ∃ e, loadFromURL fetch this url = (this, Rejected e).
Proof.
  intros (status & [Hf|(d & e & Hf & Hval)]);
    unfold loadFromURL; rewrite Hf; simpl.
  - eauto.
  - rewrite Hval. eauto.
Qed.

(** The store is written exactly when the promise resolves. *)
Lemma loadFromFile_settles (this : Loader) (file : File) :
  (∃ e, loadFromFile JSON_parse this file = (this, Rejected e))
  ∨ (∃ d, loadFromFile JSON_parse this file
          = ({| data := Some d; fileName := Some (name file) |},
             Resolved d)
          ∧ validateData d = None).
Proof.
  unfold loadFromFile.
  destruct (readAsText file) as [content|]; [|eauto].
  destruct (JSON_parse content) as [d|]; [|eauto].
  destruct (validateData d) eqn:Hv; eauto.
Qed.

Lemma loadFromURL_settles (this : Loader) (url : string) :
  (∃ e, loadFromURL fetch this url = (this, Rejected e))
  ∨ (∃ d, loadFromURL fetch this url
          = ({| data := Some d;
                fileName := Some (lastSegment EmptyString url) |},
             Resolved d)
          ∧ validateData d = None).
Proof.
  unfold loadFromURL.
  destruct (fetch url) as [|ok status json]; [eauto|].
  destruct ok; simpl; [|eauto].
  destruct json as [d|]; [|eauto].
  destruct (validateData d) eqn:Hv; eauto.
Qed.

End Loading.

(** C9: for every stored state [(data, fileName)] and every input that
    fails parsing or validation, [loadFromFile] and [loadFromURL] reject
    with an error and leave the stored data and file name unchanged. *)
Theorem load_failure_is_atomic
        (JSON_parse : string → option DataLoader.JSValue)
        (fetch : string → DataLoader.FetchResult)
        (this : DataLoader.Loader) :
  (∀ file,
      DataLoader.fileFails JSON_parse file →
      ∃ e, DataLoader.loadFromFile JSON_parse this file
           = (this, DataLoader.Rejected e))
  ∧ (∀ url,
        DataLoader.urlFails fetch url →
        ∃ e, DataLoader.loadFromURL fetch this url
             = (this, DataLoader.Rejected e)).
Proof.
  split.
  - intros file. apply loadFromFile_failure.
  - intros url. apply loadFromURL_failure.
Qed.

(** ** VideoRecorder *)

Section RecorderLemmas.

Import VideoRecorder.
Local Open Scope Z_scope.

Lemma size_nonneg (b : Blob) : 0 ≤ size b.
Proof. unfold size. lia. Qed.

Lemma totalSize_nonneg (parts : list Blob) : 0 ≤ totalSize parts.
Proof.
  induction parts as [|b rest IH]; simpl; [lia|].
  pose proof (size_nonneg b). lia.
Qed.

Lemma totalSize_app (l1 l2 : list Blob) :
  totalSize (l1 ++ l2) = totalSize l1 + totalSize l2.
Proof. induction l1 as [|b rest IH]; simpl; lia. Qed.

(** The artifact is as long as its parts together. *)
Lemma size_newBlob (parts : list Blob) (t : string) :
  size (newBlob parts t) = totalSize parts.
Proof.
  unfold size, newBlob. simpl.
  induction parts as [|b rest IH]; simpl; [reflexivity|].
  rewrite length_app, Nat2Z.inj_add, IH. reflexivity.
Qed.

Lemma keptData_app (l1 l2 : list DataEvent) :
  keptData (l1 ++ l2) = keptData l1 ++ keptData l2.
Proof. unfold keptData. apply flat_map_app. Qed.

(** Only the chunk list changes when events are delivered. *)
Lemma deliver_fields (events : list DataEvent) (this : Recorder) :
  chunks (deliver events this) = chunks this ++ keptData events
  ∧ isRecording (deliver events this) = isRecording this
  ∧ mediaRecorder (deliver events this) = mediaRecorder this
  ∧ mimeType (deliver events this) = mimeType this
  ∧ options (deliver events this) = options this
  ∧ stream (deliver events this) = stream this
  ∧ videoBlob (deliver events this) = videoBlob this.
Proof.
  revert this. induction events as [|ev rest IH]; intros this.
  - simpl. rewrite app_nil_r. repeat split; reflexivity.
  - change (deliver (ev :: rest) this)
      with (deliver rest (ondataavailable ev this)).
    destruct (IH (ondataavailable ev this))
      as (Hc & Hr & Hm & Ht & Ho & Hs & Hv).
    rewrite Hc, Hr, Hm, Ht, Ho, Hs, Hv.
    unfold ondataavailable. simpl.
    destruct (eventData ev) as [d|]; simpl.
    + destruct (size d >? 0); simpl.
      * rewrite <- app_assoc. repeat split; reflexivity.
      * repeat split; reflexivity.
    + repeat split; reflexivity.
Qed.

(** Some chunk is kept exactly when some event carries data. *)
Lemma totalSize_keptData_pos (events : list DataEvent) :
  0 < totalSize (keptData events)
  ↔ ∃ ev d, In ev events ∧ eventData ev = Some d ∧ 0 < size d.
Proof.
  induction events as [|ev rest IH].
  - simpl. split; [lia|]. intros (ev & d & [] & _).
  - change (ev :: rest) with ([ev] ++ rest) at 1.
    rewrite keptData_app, totalSize_app. split.
    + intros Hpos.
      destruct (eventData ev) as [d|] eqn:Hd.
      * destruct (size d >? 0) eqn:Hs.
        -- exists ev, d. split; [left; reflexivity|]. split; [exact Hd|].
           apply Z.gtb_lt in Hs. lia.
        -- unfold keptData in Hpos at 1. simpl in Hpos.
           rewrite Hd, Hs in Hpos. simpl in Hpos.
           apply IH in Hpos. destruct Hpos as (ev' & d' & Hin & H').
           exists ev', d'. split; [right; exact Hin|exact H'].
      * unfold keptData in Hpos at 1. simpl in Hpos.
        rewrite Hd in Hpos. simpl in Hpos.
        apply IH in Hpos. destruct Hpos as (ev' & d' & Hin & H').
        exists ev', d'. split; [right; exact Hin|exact H'].
    + intros (ev' & d & [<-|Hin] & Hd & Hs).
      * unfold keptData at 1. simpl. rewrite Hd.
        assert (Hgt : (size d >? 0) = true) by (apply Z.gtb_lt; lia).
        rewrite Hgt. simpl.
        pose proof (totalSize_nonneg (keptData rest)). lia.
      * assert (0 < totalSize (keptData rest)) by (apply IH; eauto).
        pose proof (totalSize_nonneg (keptData [ev])). lia.
Qed.

(** What a successful [start()] leaves behind. *)
Lemma start_fulfilled (host : Host) (this this1 : Recorder) :
  start host this = (this1, Fulfilled tt) →
  isRecording this = false
  ∧ constructs host (mimeType this) = true
  ∧ isRecording this1 = true
  ∧ mediaRecorder this1 ≠ None
  ∧ chunks this1 = []
  ∧ videoBlob this1 = None
  ∧ mimeType this1 = mimeType this.
Proof.
  unfold start.
  destruct (isRecording this); [discriminate|].
  destruct (constructs host (mimeType this)); [|discriminate].
  intros H. injection H as <-. simpl. repeat split; auto.
Qed.

(** [start()] goes through on any recorder that is not recording, if the
    host constructs an encoder for its type. *)
Lemma start_not_recording (host : Host) (this : Recorder) :
  isRecording this = false →
  constructs host (mimeType this) = true →
  ∃ this1,
    start host this = (this1, Fulfilled tt)
    ∧ isRecording this1 = true
    ∧ chunks this1 = []
    ∧ videoBlob this1 = None
    ∧ mimeType this1 = mimeType this.
Proof.
  intros Hr Hc. unfold start. rewrite Hr, Hc.
  eexists. split; [reflexivity|]. simpl. repeat split.
Qed.

Lemma start_while_recording (host : Host) (this : Recorder) :
  isRecording this = true →
  start host this = (this, Rejected RecordingAlreadyInProgress).
Proof. intros H. unfold start. rewrite H. reflexivity. Qed.

Lemma stop_not_recording (this : Recorder) (fin : Finalization) :
  isRecording this = false ∨ mediaRecorder this = None →
  stop this fin = (this, Rejected NoRecordingInProgress).
Proof.
  intros [H|H]; unfold stop; rewrite H; simpl; [reflexivity|].
  rewrite orb_true_r. reflexivity.
Qed.

(** [stop()] on a recording instance whose encoder finalizes. *)
Lemma stop_recording (this : Recorder) (lastEvents : list DataEvent) :
  isRecording this = true →
  mediaRecorder this ≠ None →
  ∃ this2 blob,
    stop this (Finalized lastEvents) = (this2, Fulfilled blob)
    ∧ blob = newBlob (chunks this ++ keptData lastEvents)
               (blobType (mimeType this))
    ∧ videoBlob this2 = Some blob
    ∧ isRecording this2 = false
    ∧ mimeType this2 = mimeType this.
Proof.
  intros Hr Hm. unfold stop. rewrite Hr.
  destruct (mediaRecorder this) as [mr|] eqn:Hmr; [|congruence]. simpl.
  destruct (deliver_fields lastEvents this) as (Hc & _ & _ & Ht & _).
  rewrite Hc, Ht. do 2 eexists. split; [reflexivity|].
  simpl. repeat split.
Qed.

(** A full cycle: [start()], the events delivered while recording, then
    [stop()] with the events of the finalization. *)
Lemma cycle_artifact (host : Host) (this this1 : Recorder)
      (events lastEvents : list DataEvent) :
  start host this = (this1, Fulfilled tt) →
  ∃ this2 blob,
    stop (deliver events this1) (Finalized lastEvents)
    = (this2, Fulfilled blob)
    ∧ videoBlob this2 = Some blob
    ∧ isRecording this2 = false
    ∧ mimeType this2 = mimeType this
    ∧ type blob = blobType (mimeType this)
    ∧ size blob = totalSize (keptData (events ++ lastEvents)).
Proof.
  intros Hstart.
  destruct (start_fulfilled _ _ _ Hstart)
    as (_ & _ & Hr1 & Hm1 & Hc1 & _ & Ht1).
  destruct (deliver_fields events this1) as (Hc & Hr & Hm & Ht & _).
  destruct (stop_recording (deliver events this1) lastEvents)
    as (this2 & blob & Hstop & Hblob & Hv & Hr2 & Ht2).
  { rewrite Hr. exact Hr1. }
  { rewrite Hm. exact Hm1. }
  exists this2, blob. split; [exact Hstop|].
  split; [exact Hv|]. split; [exact Hr2|].
  split; [congruence|].
  subst blob. split.
  - simpl. congruence.
  - rewrite size_newBlob, Hc, Hc1, keptData_app. reflexivity.
Qed.

End RecorderLemmas.

Section RecorderCodec.

Import VideoRecorder.

Lemma detectMimeType_none (host : Host) :
  (∀ t, In t preferredTypes → isTypeSupported host t = false) →
  detectMimeType host = "".
Proof.
  intros Hnone. unfold detectMimeType, preferredTypes. simpl.
  rewrite !Hnone by (unfold preferredTypes; simpl; tauto).
  reflexivity.
Qed.

(** The type that wins is supported, and every type before it in the
    preference list is not. *)
Lemma detectMimeType_first (host : Host) (t : string) :
  detectMimeType host = t →
  t ≠ "" →
  isTypeSupported host t = true
  ∧ ∃ before after,
      preferredTypes = before ++ t :: after
      ∧ Forall (fun u => isTypeSupported host u = false) before.
Proof.
  unfold detectMimeType, preferredTypes. simpl.
  destruct (isTypeSupported host "video/webm;codecs=vp9") eqn:H1.
  { intros <- _. split; [exact H1|]. exists []. eexists. split; [reflexivity|].
    constructor. }
  destruct (isTypeSupported host "video/webm;codecs=vp8") eqn:H2.
  { intros <- _. split; [exact H2|]. eexists [_]. eexists.
    split; [reflexivity|]. repeat constructor. exact H1. }
  destruct (isTypeSupported host "video/webm") eqn:H3.
  { intros <- _. split; [exact H3|]. eexists [_; _]. eexists.
    split; [reflexivity|]. repeat constructor; assumption. }
  destruct (isTypeSupported host "video/mp4") eqn:H4.
  { intros <- _. split; [exact H4|]. eexists [_; _; _]. eexists.
    split; [reflexivity|]. repeat constructor; assumption. }
  intros <- Hne. congruence.
Qed.

(** When the host refuses the recorder's type, [start()] fails before
    the instance is marked as recording. *)
Lemma start_host_refuses (host : Host) (this : Recorder) :
  isRecording this = false →
  constructs host (mimeType this) = false →
  ∃ this1,
    start host this = (this1, Rejected NotSupportedError)
    ∧ isRecording this1 = false.
Proof.
  intros Hr Hc. unfold start. rewrite Hr, Hc.
  eexists. split; reflexivity.
Qed.

End RecorderCodec.

(** C2 (counterexample): a recorder on a host that supports every type is
    started, receives one chunk and is stopped; the next [start()] on the
    same instance is fulfilled and the instance is recording again. *)
Lemma stopped_recorder_restarts :
  ∃ r1 r2 blob r3,
    VideoRecorder.start VideoRecorder.fullHost
      (VideoRecorder.new VideoRecorder.fullHost VideoRecorder.defaultOptions)
    = (r1, VideoRecorder.Fulfilled tt)
    ∧ VideoRecorder.stop
        (VideoRecorder.deliver
           [ {| VideoRecorder.eventData := Some VideoRecorder.sampleChunk |} ]
           r1)
        (VideoRecorder.Finalized [])
      = (r2, VideoRecorder.Fulfilled blob)
    ∧ VideoRecorder.start VideoRecorder.fullHost r2
      = (r3, VideoRecorder.Fulfilled tt)
    ∧ VideoRecorder.isRecording r3 = true.
Proof. do 4 eexists. repeat split; reflexivity. Qed.

(** C2 (amended): after a successful start()/stop() cycle has brought a
    VideoRecorder to the Stopped state, a subsequent call to start() on the
    same instance does not fail: it discards the previous chunks and
    artifact and the instance is recording again. *)
Theorem stopped_recorder_start_succeeds
        (host : VideoRecorder.Host) (this this1 this2 : VideoRecorder.Recorder)
        (events lastEvents : list VideoRecorder.DataEvent)
        (blob : VideoRecorder.Blob) :
  VideoRecorder.start host this = (this1, VideoRecorder.Fulfilled tt) →
  VideoRecorder.stop (VideoRecorder.deliver events this1)
    (VideoRecorder.Finalized lastEvents)
  = (this2, VideoRecorder.Fulfilled blob) →
  ∃ this3,
    VideoRecorder.start host this2 = (this3, VideoRecorder.Fulfilled tt)
    ∧ VideoRecorder.isRecording this3 = true
    ∧ VideoRecorder.chunks this3 = []
    ∧ VideoRecorder.videoBlob this3 = None.
Proof.
  intros Hstart Hstop.
  destruct (start_fulfilled _ _ _ Hstart) as (_ & Hc & _).
  destruct (cycle_artifact host this this1 events lastEvents Hstart)
    as (r2 & b & Hstop' & _ & Hr2 & Ht2 & _).
  rewrite Hstop' in Hstop. injection Hstop as <- <-.
  destruct (start_not_recording host r2 Hr2) as (r3 & H3 & Hr3 & Hc3 & Hv3 & _).
  { rewrite Ht2. exact Hc. }
  exists r3. auto.
Qed.

Lemma stopped_recorder_start_succeeds_witness :
  let r0 :=
    VideoRecorder.new VideoRecorder.fullHost VideoRecorder.defaultOptions in
  let r1 := fst (VideoRecorder.start VideoRecorder.fullHost r0) in
  let r2 :=
    fst (VideoRecorder.stop (VideoRecorder.deliver [] r1)
           (VideoRecorder.Finalized
              [ {| VideoRecorder.eventData :=
                     Some VideoRecorder.sampleChunk |} ])) in
  VideoRecorder.start VideoRecorder.fullHost r0
  = (r1, VideoRecorder.Fulfilled tt)
  ∧ ∃ this3,
      VideoRecorder.start VideoRecorder.fullHost r2
      = (this3, VideoRecorder.Fulfilled tt)
      ∧ VideoRecorder.isRecording this3 = true
      ∧ VideoRecorder.chunks this3 = []
      ∧ VideoRecorder.videoBlob this3 = None.
Proof.
  intros r0 r1 r2. split; [reflexivity|].
  apply (stopped_recorder_start_succeeds VideoRecorder.fullHost r0 r1 r2 []
           [ {| VideoRecorder.eventData := Some VideoRecorder.sampleChunk |} ]
           (VideoRecorder.newBlob [VideoRecorder.sampleChunk] "video/webm;codecs=vp9"));
    reflexivity.
Defined.

(** C5 (counterexample): on a host that supports none of the four preferred
    types, [start()] on a new recorder is fulfilled and the instance is
    recording: no error is surfaced. *)
Lemma start_without_supported_codec_proceeds :
  (∀ t, In t VideoRecorder.preferredTypes →
        VideoRecorder.isTypeSupported VideoRecorder.bareHost t = false)
  ∧ ∃ r1,
      VideoRecorder.start VideoRecorder.bareHost
        (VideoRecorder.new VideoRecorder.bareHost VideoRecorder.defaultOptions)
      = (r1, VideoRecorder.Fulfilled tt)
      ∧ VideoRecorder.isRecording r1 = true.
Proof.
  split; [reflexivity|].
  eexists. split; reflexivity.
Qed.

(** C5 (amended): when no codec from the preference-ordered list (vp9 webm,
    vp8 webm, plain webm, mp4) is supported by the host environment,
    [detectMimeType] falls back to the empty type and no error is raised:
    on a host whose encoder accepts the empty type, [start()] on a new
    recorder proceeds to recording with the host's default encoder, and the
    artifact of the following [stop()] is tagged video/webm. *)
Theorem no_supported_codec_falls_back
        (host : VideoRecorder.Host) (opts : VideoRecorder.Options) :
  (∀ t, In t VideoRecorder.preferredTypes →
        VideoRecorder.isTypeSupported host t = false) →
  VideoRecorder.constructs host "" = true →
  VideoRecorder.detectMimeType host = ""
  ∧ ∃ r1,
      VideoRecorder.start host (VideoRecorder.new host opts)
      = (r1, VideoRecorder.Fulfilled tt)
      ∧ VideoRecorder.isRecording r1 = true
      ∧ ∀ events lastEvents,
          ∃ r2 blob,
            VideoRecorder.stop (VideoRecorder.deliver events r1)
              (VideoRecorder.Finalized lastEvents)
            = (r2, VideoRecorder.Fulfilled blob)
            ∧ VideoRecorder.type blob = "video/webm".
Proof.
  intros Hnone Hdefault.
  pose proof (detectMimeType_none host Hnone) as Hd.
  split; [exact Hd|].
  destruct (start_not_recording host (VideoRecorder.new host opts))
    as (r1 & Hstart & Hr1 & _).
  { reflexivity. }
  { simpl. rewrite Hd. exact Hdefault. }
  exists r1. split; [exact Hstart|]. split; [exact Hr1|].
  intros events lastEvents.
  destruct (cycle_artifact host _ r1 events lastEvents Hstart)
    as (r2 & blob & Hstop & _ & _ & _ & Htype & _).
  exists r2, blob. split; [exact Hstop|].
  rewrite Htype. simpl. rewrite Hd. reflexivity.
Qed.

Lemma no_supported_codec_falls_back_witness :
  (∀ t, In t VideoRecorder.preferredTypes →
        VideoRecorder.isTypeSupported VideoRecorder.bareHost t = false)
  ∧ VideoRecorder.constructs VideoRecorder.bareHost "" = true
  ∧ VideoRecorder.detectMimeType VideoRecorder.bareHost = ""
  ∧ ∃ r1,
      VideoRecorder.start VideoRecorder.bareHost
        (VideoRecorder.new VideoRecorder.bareHost VideoRecorder.defaultOptions)
      = (r1, VideoRecorder.Fulfilled tt)
      ∧ VideoRecorder.isRecording r1 = true
      ∧ ∀ events lastEvents,
          ∃ r2 blob,
            VideoRecorder.stop (VideoRecorder.deliver events r1)
              (VideoRecorder.Finalized lastEvents)
            = (r2, VideoRecorder.Fulfilled blob)
            ∧ VideoRecorder.type blob = "video/webm".
Proof.
  split; [reflexivity|]. split; [reflexivity|].
  apply (no_supported_codec_falls_back VideoRecorder.bareHost
           VideoRecorder.defaultOptions); reflexivity.
Defined.

(** C6 (counterexample): a recorder is started and stopped while the only
    event the encoder delivers carries an empty blob; both calls succeed and
    the artifact has byte length 0. *)
Lemma cycle_without_data_gives_empty_artifact :
  ∃ r1 r2 blob,
    VideoRecorder.start VideoRecorder.fullHost
      (VideoRecorder.new VideoRecorder.fullHost VideoRecorder.defaultOptions)
    = (r1, VideoRecorder.Fulfilled tt)
    ∧ VideoRecorder.stop (VideoRecorder.deliver [] r1)
        (VideoRecorder.Finalized
           [ {| VideoRecorder.eventData := Some VideoRecorder.emptyChunk |} ])
      = (r2, VideoRecorder.Fulfilled blob)
    ∧ VideoRecorder.size blob = 0%Z
    ∧ ¬ (0 < VideoRecorder.size blob)%Z.
Proof.
  do 3 eexists. split; [reflexivity|]. split; [reflexivity|].
  split; [reflexivity|]. vm_compute. discriminate.
Qed.

(** C6 (amended): [stop()] called when no recording is in progress
    (including before any [start()]) fails with a state error; a second
    [start()] called while a recording is in progress fails with a state
    error; and a successful [start()] followed by [stop()] yields an
    artifact whose byte length is the total size of the non-empty chunks the
    encoder delivered, which is greater than 0 exactly when at least one
    non-empty chunk was delivered. *)
Theorem recorder_state_errors_and_artifact (host : VideoRecorder.Host) :
  (∀ this fin,
      VideoRecorder.isRecording this = false
      ∨ VideoRecorder.mediaRecorder this = None →
      VideoRecorder.stop this fin
      = (this, VideoRecorder.Rejected VideoRecorder.NoRecordingInProgress))
  ∧ (∀ opts fin,
        VideoRecorder.stop (VideoRecorder.new host opts) fin
        = (VideoRecorder.new host opts,
           VideoRecorder.Rejected VideoRecorder.NoRecordingInProgress))
  ∧ (∀ this,
        VideoRecorder.isRecording this = true →
        VideoRecorder.start host this
        = (this,
           VideoRecorder.Rejected VideoRecorder.RecordingAlreadyInProgress))
  ∧ (∀ this this1,
        VideoRecorder.start host this = (this1, VideoRecorder.Fulfilled tt) →
        VideoRecorder.start host this1
        = (this1,
           VideoRecorder.Rejected VideoRecorder.RecordingAlreadyInProgress))
  ∧ (∀ this this1 events lastEvents,
        VideoRecorder.start host this = (this1, VideoRecorder.Fulfilled tt) →
        ∃ this2 blob,
          VideoRecorder.stop (VideoRecorder.deliver events this1)
            (VideoRecorder.Finalized lastEvents)
          = (this2, VideoRecorder.Fulfilled blob)
          ∧ VideoRecorder.videoBlob this2 = Some blob
          ∧ VideoRecorder.size blob
            = VideoRecorder.totalSize
                (VideoRecorder.keptData (events ++ lastEvents))
          ∧ ((0 < VideoRecorder.size blob)%Z
             ↔ ∃ ev d,
                 In ev (events ++ lastEvents)
                 ∧ VideoRecorder.eventData ev = Some d
                 ∧ (0 < VideoRecorder.size d)%Z)).
Proof.
  split; [intros this fin; apply stop_not_recording|].
  split; [intros opts fin; apply stop_not_recording; left; reflexivity|].
  split; [intros this; apply start_while_recording|].
  split.
  - intros this this1 Hstart. apply start_while_recording.
    apply (start_fulfilled _ _ _ Hstart).
  - intros this this1 events lastEvents Hstart.
    destruct (cycle_artifact host this this1 events lastEvents Hstart)
      as (this2 & blob & Hstop & Hv & _ & _ & _ & Hsize).
    exists this2, blob. split; [exact Hstop|]. split; [exact Hv|].
    split; [exact Hsize|].
    rewrite Hsize. apply totalSize_keptData_pos.
Qed.

(** ** Concrete runs of the statements above *)


(** C4 at { countries: ["Italy"], gdp: [NaN] }: rejected. *)
Lemma validateData_accepts_numbers_not_NaN_witness :
  ∃ e,
    DataLoader.validateData
      (DataLoader.VObject
         [("countries"%string,
           DataLoader.VArray [DataLoader.VString "Italy"]);
          ("gdp"%string,
           DataLoader.VArray [DataLoader.VNumber DataLoader.NaN])])
    = Some e.
Proof.
  refine (proj2 (validateData_accepts_numbers_not_NaN _)
            [DataLoader.VNumber DataLoader.NaN]
            (DataLoader.VNumber DataLoader.NaN) _ _ _).
  - reflexivity.
  - left. reflexivity.
  - intros (n & Hn & Hne). injection Hn as <-. apply Hne. reflexivity.
Defined.

(** C9 with a loader that holds old.json: a file whose content parses to an
    object without rows, and a URL whose body is an array, are both
    rejected and the loader still holds old.json. *)
Lemma load_failure_is_atomic_witness :
  let parsed :=
    DataLoader.VObject
      [("countries"%string, DataLoader.VArray []);
       ("gdp"%string, DataLoader.VArray [])] in
  let this :=
    {| DataLoader.data := Some (DataLoader.VObject []);
       DataLoader.fileName := Some "old.json"%string |} in
  (∃ e,
      DataLoader.loadFromFile (fun _ => Some parsed) this
        {| DataLoader.name := "rows.json";
           DataLoader.readAsText := Some "{}"%string |}
      = (this, DataLoader.Rejected e))
  ∧ (∃ e,
        DataLoader.loadFromURL
          (fun _ => DataLoader.Response true 200 (Some (DataLoader.VArray [])))
          this "assets/examples/video-data.json"
        = (this, DataLoader.Rejected e)).
Proof.
  intros parsed this.
  destruct (load_failure_is_atomic
              (fun _ => Some parsed)
              (fun _ => DataLoader.Response true 200
                          (Some (DataLoader.VArray [])))
              this) as [Hfile Hurl].
  split.
  - apply Hfile. exists "{}"%string. split; [reflexivity|].
    right. exists parsed, DataLoader.NoElements. split; reflexivity.
  - apply Hurl. exists 200%Z. right.
    exists (DataLoader.VArray []), DataLoader.CountriesRequired.
    split; reflexivity.
Defined.

(** C6 on a host that supports every type: [stop()] on a new recorder and a
    second [start()] are rejected, and a cycle in which one four-byte chunk
    is delivered yields an artifact of four bytes. *)
Lemma recorder_state_errors_and_artifact_witness :
  let r0 :=
    VideoRecorder.new VideoRecorder.fullHost VideoRecorder.defaultOptions in
  let r1 := fst (VideoRecorder.start VideoRecorder.fullHost r0) in
  VideoRecorder.stop r0 (VideoRecorder.Finalized [])
  = (r0, VideoRecorder.Rejected VideoRecorder.NoRecordingInProgress)
  ∧ VideoRecorder.start VideoRecorder.fullHost r1
    = (r1, VideoRecorder.Rejected VideoRecorder.RecordingAlreadyInProgress)
  ∧ ∃ this2 blob,
      VideoRecorder.stop
        (VideoRecorder.deliver
           [ {| VideoRecorder.eventData := Some VideoRecorder.sampleChunk |} ]
           r1)
        (VideoRecorder.Finalized [])
      = (this2, VideoRecorder.Fulfilled blob)
      ∧ VideoRecorder.size blob = 4%Z.
Proof.
  intros r0 r1.
  destruct (recorder_state_errors_and_artifact VideoRecorder.fullHost)
    as (_ & Hnew & _ & Htwice & Hcycle).
  split; [apply Hnew|].
  split; [apply (Htwice r0 r1); reflexivity|].
  destruct (Hcycle r0 r1
              [ {| VideoRecorder.eventData := Some VideoRecorder.sampleChunk |} ]
              [] eq_refl)
    as (this2 & blob & Hstop & _ & Hsize & _).
  exists this2, blob. split; [exact Hstop|].
  rewrite Hsize. reflexivity.
Defined.

(** ** VideoRecorder: codec choice, artifact and download *)

Section RecorderArtifacts.

Import VideoRecorder.

Lemma endsWith_refl (s : string) : endsWith s s = true.
Proof. destruct s; simpl; rewrite ?String.eqb_refl, ?Ascii.eqb_refl; auto. Qed.

Lemma endsWith_app (a b : string) : endsWith (a ++ b) b = true.
Proof.
  induction a as [|c a IH]; simpl.
  - apply endsWith_refl.
  - change (endsWith (String c (a ++ b)) b)
      with (String.eqb (String c (a ++ b)) b || endsWith (a ++ b) b).
    rewrite IH. apply orb_true_r.
Qed.

Lemma prefix_app (a b : string) : String.prefix a (a ++ b) = true.
Proof.
  induction a as [|c a IH]; simpl; [destruct b; reflexivity|].
  destruct (ascii_dec c c); [exact IH|congruence].
Qed.

Lemma string_app_nil_r (s : string) : (s ++ "")%string = s.
Proof.
  induction s as [|c s IH]; [reflexivity|].
  change (String c (s ++ "") = String c s). rewrite IH. reflexivity.
Qed.

Lemma string_app_assoc (a b c : string) :
  (a ++ (b ++ c))%string = ((a ++ b) ++ c)%string.
Proof.
  induction a as [|x a IH]; [reflexivity|].
  change (String x (a ++ (b ++ c)) = String x ((a ++ b) ++ c)).
  rewrite IH. reflexivity.
Qed.

Lemma string_length_app (a b : string) :
  String.length (a ++ b) = (String.length a + String.length b)%nat.
Proof.
  induction a as [|c a IH]; [reflexivity|].
  change (S (String.length (a ++ b))
          = S (String.length a + String.length b)).
  rewrite IH. reflexivity.
Qed.

Lemma fullFilename_ends (m filename : string) :
  endsWith (fullFilename m filename) ("." ++ extensionFor m) = true.
Proof.
  unfold fullFilename.
  destruct (endsWith filename ("." ++ extensionFor m)) eqn:H; [exact H|].
  apply endsWith_app.
Qed.

(** Dropping the empty chunks loses no byte. *)
Lemma keptData_bytes (events : list DataEvent) :
  concat (map bytes (keptData events)) = concat (map bytes (allData events)).
Proof.
  induction events as [|ev rest IH]; [reflexivity|].
  unfold keptData, allData in *. simpl.
  rewrite !map_app, !concat_app, IH. f_equal.
  destruct (eventData ev) as [d|]; [|reflexivity].
  destruct (size d >? 0)%Z eqn:Hs; [reflexivity|].
  simpl. rewrite app_nil_r.
  unfold size in Hs. destruct (bytes d); [reflexivity|].
  simpl in Hs. discriminate Hs.
Qed.

End RecorderArtifacts.

(** X1: when the host supports at least one of the preferred types,
    [detectMimeType] returns a supported type of the list, and every type
    placed before it in the list is unsupported. *)
Theorem detectMimeType_first_supported
        (host : VideoRecorder.Host) (t : string) :
  In t VideoRecorder.preferredTypes →
  VideoRecorder.isTypeSupported host t = true →
  VideoRecorder.isTypeSupported host (VideoRecorder.detectMimeType host)
  = true
  ∧ ∃ before after,
      VideoRecorder.preferredTypes
      = before ++ VideoRecorder.detectMimeType host :: after
      ∧ Forall (fun u => VideoRecorder.isTypeSupported host u = false) before.
Proof.
  intros Hin Hsup.
  apply detectMimeType_first; [reflexivity|].
  intros Hempty.
  unfold VideoRecorder.detectMimeType in Hempty.
  destruct (find (VideoRecorder.isTypeSupported host)
              VideoRecorder.preferredTypes) as [u|] eqn:Hfind.
  - apply find_some in Hfind. destruct Hfind as [Hu _]. subst u.
    simpl in Hu. intuition discriminate.
  - apply (find_none _ _ Hfind) in Hin. congruence.
Qed.

Lemma detectMimeType_first_supported_witness :
  In "video/mp4"%string VideoRecorder.preferredTypes
  ∧ VideoRecorder.isTypeSupported VideoRecorder.mp4Host "video/mp4" = true
  ∧ VideoRecorder.detectMimeType VideoRecorder.mp4Host = "video/mp4"%string
  ∧ VideoRecorder.isTypeSupported VideoRecorder.mp4Host
      (VideoRecorder.detectMimeType VideoRecorder.mp4Host) = true
  ∧ ∃ before after,
      VideoRecorder.preferredTypes
      = before ++ VideoRecorder.detectMimeType VideoRecorder.mp4Host :: after
      ∧ Forall (fun u =>
                  VideoRecorder.isTypeSupported VideoRecorder.mp4Host u
                  = false) before.
Proof.
  split; [simpl; tauto|]. split; [reflexivity|]. split; [reflexivity|].
  apply (detectMimeType_first_supported VideoRecorder.mp4Host "video/mp4");
    [simpl; tauto|reflexivity].
Defined.

(** X2: the artifact of a start()/stop() cycle consists of the bytes of all
    data the encoder delivered, while recording and during finalization, in
    delivery order; skipping the empty chunks loses nothing. *)
Theorem artifact_bytes_in_delivery_order
        (host : VideoRecorder.Host) (this this1 : VideoRecorder.Recorder)
        (events lastEvents : list VideoRecorder.DataEvent) :
  VideoRecorder.start host this = (this1, VideoRecorder.Fulfilled tt) →
  ∃ this2 blob,
    VideoRecorder.stop (VideoRecorder.deliver events this1)
      (VideoRecorder.Finalized lastEvents)
    = (this2, VideoRecorder.Fulfilled blob)
    ∧ VideoRecorder.getVideoBlob this2 = Some blob
    ∧ VideoRecorder.bytes blob
      = concat (map VideoRecorder.bytes
                  (VideoRecorder.allData (events ++ lastEvents))).
Proof.
  intros Hstart.
  destruct (start_fulfilled _ _ _ Hstart)
    as (_ & _ & Hr1 & Hm1 & Hc1 & _ & _).
  destruct (deliver_fields events this1) as (Hc & Hr & Hm & _).
  destruct (stop_recording (VideoRecorder.deliver events this1) lastEvents)
    as (this2 & blob & Hstop & Hblob & Hv & _).
  { rewrite Hr. exact Hr1. }
  { rewrite Hm. exact Hm1. }
  exists this2, blob. split; [exact Hstop|]. split; [exact Hv|].
  subst blob. simpl. rewrite Hc, Hc1. simpl.
  rewrite <- keptData_app. apply keptData_bytes.
Qed.

Lemma artifact_bytes_in_delivery_order_witness :
  let r0 :=
    VideoRecorder.new VideoRecorder.fullHost VideoRecorder.defaultOptions in
  let r1 := fst (VideoRecorder.start VideoRecorder.fullHost r0) in
  VideoRecorder.start VideoRecorder.fullHost r0
  = (r1, VideoRecorder.Fulfilled tt)
  ∧ ∃ this2 blob,
      VideoRecorder.stop
        (VideoRecorder.deliver
           [ {| VideoRecorder.eventData := Some VideoRecorder.sampleChunk |};
             {| VideoRecorder.eventData := None |} ] r1)
        (VideoRecorder.Finalized
           [ {| VideoRecorder.eventData := Some VideoRecorder.emptyChunk |} ])
      = (this2, VideoRecorder.Fulfilled blob)
      ∧ VideoRecorder.getVideoBlob this2 = Some blob
      ∧ VideoRecorder.bytes blob
        = [Byte.x1a; Byte.x45; Byte.xdf; Byte.xa3].
Proof.
  intros r0 r1. split; [reflexivity|].
  apply (artifact_bytes_in_delivery_order VideoRecorder.fullHost r0 r1
           [ {| VideoRecorder.eventData := Some VideoRecorder.sampleChunk |};
             {| VideoRecorder.eventData := None |} ]
           [ {| VideoRecorder.eventData := Some VideoRecorder.emptyChunk |} ]).
  reflexivity.
Defined.

(** X3: [download] throws when there is no artifact; with an artifact it
    offers that artifact under a name that starts with the requested name
    and ends with a dot and the extension of the recorder's type, that is
    the requested name itself when it already ends so; downloading under
    the produced name does not add the extension a second time. *)
Theorem download_file_name
        (this : VideoRecorder.Recorder) (filename : string) :
  match VideoRecorder.getVideoBlob this with
  | None =>
      VideoRecorder.download this filename = VideoRecorder.NoVideoToDownload
  | Some b =>
      ∃ name,
        VideoRecorder.download this filename = VideoRecorder.Downloaded name b
        ∧ String.prefix filename name = true
        ∧ VideoRecorder.endsWith name
            ("." ++ VideoRecorder.extensionFor (VideoRecorder.mimeType this))
          = true
        ∧ (VideoRecorder.endsWith filename
             ("." ++ VideoRecorder.extensionFor (VideoRecorder.mimeType this))
           = true ↔ name = filename)
        ∧ VideoRecorder.download this name = VideoRecorder.Downloaded name b
  end.
Proof.
  unfold VideoRecorder.getVideoBlob, VideoRecorder.download.
  destruct (VideoRecorder.videoBlob this) as [b|]; [|reflexivity].
  eexists. split; [reflexivity|].
  pose proof (fullFilename_ends (VideoRecorder.mimeType this) filename) as He.
  split; [|split; [exact He|split]].
  - unfold VideoRecorder.fullFilename.
    destruct (VideoRecorder.endsWith filename _).
    + rewrite <- (string_app_nil_r filename) at 2. apply prefix_app.
    + apply prefix_app.
  - unfold VideoRecorder.fullFilename.
    destruct (VideoRecorder.endsWith filename _) eqn:H.
    + tauto.
    + split; [discriminate|]. intros Heq.
      apply (f_equal String.length) in Heq.
      rewrite !string_length_app in Heq. simpl in Heq. lia.
  - f_equal. unfold VideoRecorder.fullFilename at 1. rewrite He. reflexivity.
Qed.

(** X4: a recorder downloads its artifact as .mp4 exactly when its host
    supports none of the three webm types of the preference list but does
    support video/mp4; in every other case, including the fallback to the
    host's default type, the extension is .webm. *)
Theorem download_extension_of_new_recorder
        (host : VideoRecorder.Host) (opts : VideoRecorder.Options) :
  (VideoRecorder.extensionFor
     (VideoRecorder.mimeType (VideoRecorder.new host opts)) = "mp4"%string
   ↔ VideoRecorder.isTypeSupported host "video/webm;codecs=vp9" = false
     ∧ VideoRecorder.isTypeSupported host "video/webm;codecs=vp8" = false
     ∧ VideoRecorder.isTypeSupported host "video/webm" = false
     ∧ VideoRecorder.isTypeSupported host "video/mp4" = true)
  ∧ (VideoRecorder.extensionFor
       (VideoRecorder.mimeType (VideoRecorder.new host opts)) ≠ "mp4"%string
     → VideoRecorder.extensionFor
         (VideoRecorder.mimeType (VideoRecorder.new host opts))
       = "webm"%string).
Proof.
  unfold VideoRecorder.new, VideoRecorder.detectMimeType,
    VideoRecorder.preferredTypes.
  cbn [VideoRecorder.mimeType find].
  destruct (VideoRecorder.isTypeSupported host "video/webm;codecs=vp9");
    [split; [split; [vm_compute; discriminate|intros (H & _); discriminate H]
            |reflexivity]|].
  destruct (VideoRecorder.isTypeSupported host "video/webm;codecs=vp8");
    [split; [split; [vm_compute; discriminate
                    |intros (_ & H & _); discriminate H]
            |reflexivity]|].
  destruct (VideoRecorder.isTypeSupported host "video/webm");
    [split; [split; [vm_compute; discriminate
                    |intros (_ & _ & H & _); discriminate H]
            |reflexivity]|].
  destruct (VideoRecorder.isTypeSupported host "video/mp4").
  - split; [split; [auto|reflexivity]|]. intros H. exfalso. apply H.
    reflexivity.
  - split; [split; [vm_compute; discriminate
                   |intros (_ & _ & _ & H); discriminate H]
           |reflexivity].
Qed.

(** X5: once [start()] has succeeded there is no artifact until [stop()]
    completes, whatever the instance held before and whatever data has been
    delivered since: [getVideoBlob] and [getVideoURL] give null and
    [download] throws. *)
Theorem no_artifact_while_recording
        (host : VideoRecorder.Host) (this this1 : VideoRecorder.Recorder)
        (events : list VideoRecorder.DataEvent) (filename : string) :
  VideoRecorder.start host this = (this1, VideoRecorder.Fulfilled tt) →
  VideoRecorder.isRecordingActive (VideoRecorder.deliver events this1) = true
  ∧ VideoRecorder.getVideoBlob (VideoRecorder.deliver events this1) = None
  ∧ VideoRecorder.getVideoURL (VideoRecorder.deliver events this1) = None
  ∧ VideoRecorder.download (VideoRecorder.deliver events this1) filename
    = VideoRecorder.NoVideoToDownload.
Proof.
  intros Hstart.
  destruct (start_fulfilled _ _ _ Hstart) as (_ & _ & Hr1 & _ & _ & Hv1 & _).
  destruct (deliver_fields events this1) as (_ & Hr & _ & _ & _ & _ & Hv).
  unfold VideoRecorder.isRecordingActive, VideoRecorder.getVideoBlob,
    VideoRecorder.getVideoURL, VideoRecorder.download.
  rewrite Hr, Hv, Hr1, Hv1. repeat split.
Qed.

Lemma no_artifact_while_recording_witness :
  let r0 :=
    VideoRecorder.new VideoRecorder.fullHost VideoRecorder.defaultOptions in
  let r1 := fst (VideoRecorder.start VideoRecorder.fullHost r0) in
  let r2 :=
    fst (VideoRecorder.stop r1
           (VideoRecorder.Finalized
              [ {| VideoRecorder.eventData :=
                     Some VideoRecorder.sampleChunk |} ])) in
  let r3 := fst (VideoRecorder.start VideoRecorder.fullHost r2) in
  VideoRecorder.getVideoBlob r2 ≠ None
  ∧ VideoRecorder.start VideoRecorder.fullHost r2
    = (r3, VideoRecorder.Fulfilled tt)
  ∧ VideoRecorder.isRecordingActive (VideoRecorder.deliver [] r3) = true
  ∧ VideoRecorder.getVideoBlob (VideoRecorder.deliver [] r3) = None
  ∧ VideoRecorder.getVideoURL (VideoRecorder.deliver [] r3) = None
  ∧ VideoRecorder.download (VideoRecorder.deliver [] r3) "chart-video"
    = VideoRecorder.NoVideoToDownload.
Proof.
  intros r0 r1 r2 r3. split; [discriminate|]. split; [reflexivity|].
  apply (no_artifact_while_recording VideoRecorder.fullHost r2 r3 []
           "chart-video"). reflexivity.
Defined.

(** X6: [cleanup()] leaves the recorder idle in every state: a following
    [stop()] fails with the state error, also when a recording was in
    progress, whose chunks are dropped; the artifact is kept, so
    [download] behaves as before the cleanup; a second [cleanup()] changes
    nothing. *)
Theorem cleanup_keeps_artifact_only
        (this : VideoRecorder.Recorder) (fin : VideoRecorder.Finalization)
        (filename : string) :
  VideoRecorder.stop (VideoRecorder.cleanup this) fin
  = (VideoRecorder.cleanup this,
     VideoRecorder.Rejected VideoRecorder.NoRecordingInProgress)
  ∧ VideoRecorder.isRecordingActive (VideoRecorder.cleanup this) = false
  ∧ VideoRecorder.chunks (VideoRecorder.cleanup this) = []
  ∧ VideoRecorder.getVideoBlob (VideoRecorder.cleanup this)
    = VideoRecorder.getVideoBlob this
  ∧ VideoRecorder.download (VideoRecorder.cleanup this) filename
    = VideoRecorder.download this filename
  ∧ VideoRecorder.cleanup (VideoRecorder.cleanup this)
    = VideoRecorder.cleanup this.
Proof.
  split; [apply stop_not_recording; left; reflexivity|].
  repeat split.
Qed.

(** X7: when the encoder reports an error during [stop()], the call is
    rejected with that error and the error handler leaves the recorder not
    recording: a further [stop()] fails with the state error, and [start()]
    is accepted again. *)
Theorem encoder_failure_resets_recorder
        (host : VideoRecorder.Host) (this this1 : VideoRecorder.Recorder)
        (events : list VideoRecorder.DataEvent) :
  VideoRecorder.start host this = (this1, VideoRecorder.Fulfilled tt) →
  ∃ this2,
    VideoRecorder.stop (VideoRecorder.deliver events this1)
      VideoRecorder.Failed
    = (this2, VideoRecorder.Rejected VideoRecorder.EncoderError)
    ∧ VideoRecorder.isRecordingActive this2 = false
    ∧ (∀ fin,
          VideoRecorder.stop this2 fin
          = (this2,
             VideoRecorder.Rejected VideoRecorder.NoRecordingInProgress))
    ∧ ∃ this3,
        VideoRecorder.start host this2 = (this3, VideoRecorder.Fulfilled tt).
Proof.
  intros Hstart.
  destruct (start_fulfilled _ _ _ Hstart)
    as (_ & Hc & Hr1 & Hm1 & _ & Hv1 & Ht1).
  destruct (deliver_fields events this1) as (_ & Hr & Hm & Ht & _ & _ & Hv).
  unfold VideoRecorder.stop at 1. rewrite Hr, Hr1, Hm.
  destruct (VideoRecorder.mediaRecorder this1) as [mr|]; [|congruence].
  simpl. eexists. split; [reflexivity|].
  split; [reflexivity|].
  split; [intros fin; apply stop_not_recording; left; reflexivity|].
  destruct (start_not_recording host
              {| VideoRecorder.options :=
                   VideoRecorder.options (VideoRecorder.deliver events this1);
                 VideoRecorder.mediaRecorder := Some mr;
                 VideoRecorder.chunks :=
                   VideoRecorder.chunks (VideoRecorder.deliver events this1);
                 VideoRecorder.stream :=
                   VideoRecorder.stream (VideoRecorder.deliver events this1);
                 VideoRecorder.isRecording := false;
                 VideoRecorder.videoBlob :=
                   VideoRecorder.videoBlob
                     (VideoRecorder.deliver events this1);
                 VideoRecorder.mimeType :=
                   VideoRecorder.mimeType
                     (VideoRecorder.deliver events this1) |})
    as (this3 & H3 & _).
  { reflexivity. }
  { simpl. rewrite Ht, Ht1. exact Hc. }
  exists this3. exact H3.
Qed.

Lemma encoder_failure_resets_recorder_witness :
  let r0 :=
    VideoRecorder.new VideoRecorder.fullHost VideoRecorder.defaultOptions in
  let r1 := fst (VideoRecorder.start VideoRecorder.fullHost r0) in
  VideoRecorder.start VideoRecorder.fullHost r0
  = (r1, VideoRecorder.Fulfilled tt)
  ∧ ∃ this2,
      VideoRecorder.stop
        (VideoRecorder.deliver
           [ {| VideoRecorder.eventData := Some VideoRecorder.sampleChunk |} ]
           r1)
        VideoRecorder.Failed
      = (this2, VideoRecorder.Rejected VideoRecorder.EncoderError)
      ∧ VideoRecorder.isRecordingActive this2 = false
      ∧ (∀ fin,
            VideoRecorder.stop this2 fin
            = (this2,
               VideoRecorder.Rejected VideoRecorder.NoRecordingInProgress))
      ∧ ∃ this3,
          VideoRecorder.start VideoRecorder.fullHost this2
          = (this3, VideoRecorder.Fulfilled tt).
Proof.
  intros r0 r1. split; [reflexivity|].
  apply (encoder_failure_resets_recorder VideoRecorder.fullHost r0 r1).
  reflexivity.
Defined.

(** ** Animator: the whole timeline *)

Section TimelineDuration.

Import Animator.
Local Open Scope Q_scope.

Lemma fold_max_ge_acc (tl : Timeline) (acc : Q) :
  acc <= fold_left (fun a tw => Qmax a (endTime tw)) tl acc.
Proof.
  revert acc. induction tl as [|tw rest IH]; intros acc; simpl.
  - apply Qle_refl.
  - eapply Qle_trans; [|apply IH]. apply Q.le_max_l.
Qed.

Lemma fold_max_ge_member (tl : Timeline) (acc : Q) (tw : Tween) :
  In tw tl →
  endTime tw <= fold_left (fun a t => Qmax a (endTime t)) tl acc.
Proof.
  revert acc. induction tl as [|t rest IH]; intros acc; simpl; [tauto|].
  intros [->|Hin].
  - eapply Qle_trans; [|apply fold_max_ge_acc]. apply Q.le_max_r.
  - apply IH, Hin.
Qed.

Lemma fold_max_le (tl : Timeline) (acc bound : Q) :
  acc <= bound →
  (∀ tw, In tw tl → endTime tw <= bound) →
  fold_left (fun a t => Qmax a (endTime t)) tl acc <= bound.
Proof.
  revert acc. induction tl as [|t rest IH]; intros acc Hacc Hall; simpl.
  - exact Hacc.
  - apply IH.
    + apply Q.max_lub; [exact Hacc|]. apply Hall. left. reflexivity.
    + intros tw Hin. apply Hall. right. exact Hin.
Qed.

(** [timeline.duration()] is the latest end among the tweens. *)
Lemma timelineDuration_ge (tl : Timeline) (tw : Tween) :
  In tw tl → endTime tw <= timelineDuration tl.
Proof. apply fold_max_ge_member. Qed.

Lemma timelineDuration_le (tl : Timeline) (bound : Q) :
  0 <= bound →
  (∀ tw, In tw tl → endTime tw <= bound) →
  timelineDuration tl <= bound.
Proof. apply fold_max_le. Qed.

Lemma timelineDuration_snoc (tl : Timeline) (tw : Tween) :
  timelineDuration (tl ++ [tw]) = Qmax (timelineDuration tl) (endTime tw).
Proof. unfold timelineDuration. rewrite fold_left_app. reflexivity. Qed.

(** The tweens before the hold: the title tween, one growth tween per bar
    and the labels tween. *)
Lemma created_timeline_shape (duration : Q) (useTypewriter : bool)
      (title : string) (bars : list BarElement) :
  ∃ titleTw body,
    createHorizontalBarChartTimeline duration useTypewriter title bars
    = body ++ [ {| target := EmptyObject; endValue := 0;
                   tweenDuration := duration * (2 # 10); ease := EaseNone;
                   onUpdate := None;
                   startTime := timelineDuration body |} ]
    ∧ body
      = titleTw
        :: map (growthTween (titlePhaseEnd duration)
                  (barsPhaseDuration duration
                   / inject_Z (Z.of_nat (length bars))))
             (seq 0 (length bars))
        ++ [labelsTween duration]
    ∧ target titleTw = TitleElement
    ∧ onUpdate titleTw = Some PassTitleElement
    ∧ startTime titleTw = 0
    ∧ tweenDuration titleTw = duration * (2 # 10).
Proof.
  unfold createHorizontalBarChartTimeline.
  rewrite addBarTweens_app. unfold to.
  destruct useTypewriter; do 2 eexists;
    (split; [reflexivity|]); simpl; repeat split; reflexivity.
Qed.

End TimelineDuration.

(** X8: for a duration d >= 0, the timeline built by
    [createHorizontalBarChartTimeline] lasts exactly d seconds if and only
    if every bar's growth tween ends by 0.8 d, the end of the labels phase;
    a bar that ends later pushes the hold phase back and the timeline
    beyond d. *)
Theorem timeline_lasts_duration_iff
        (duration : Q) (useTypewriter : bool) (title : string)
        (bars : list Animator.BarElement) :
  (0 <= duration)%Q →
  (Animator.timelineDuration
     (Animator.createHorizontalBarChartTimeline
        duration useTypewriter title bars) == duration)%Q
  ↔ ∀ i tw,
      Animator.barTween
        (Animator.createHorizontalBarChartTimeline
           duration useTypewriter title bars) i = Some tw →
      (Animator.endTime tw <= (8 # 10) * duration)%Q.
Proof.
  intros Hd.
  destruct (created_timeline_shape duration useTypewriter title bars)
    as (titleTw & body & Htl & Hbody & Htt & _ & Hts & Htd).
  rewrite Htl.
  set (hold := {| Animator.target := Animator.EmptyObject |}) in *.
  rewrite timelineDuration_snoc.
  set (D := Animator.timelineDuration body) in *.
  assert (Hhold : (Animator.endTime hold == D + duration * (2 # 10))%Q)
    by reflexivity.
  assert (Hmax : (Qmax D (Animator.endTime hold)
                  == D + duration * (2 # 10))%Q).
  { rewrite Q.max_r; [exact Hhold|]. rewrite Hhold. lra. }
  rewrite Hmax.
  assert (Hlabels : ((8 # 10) * duration <= D)%Q).
  { eapply Qle_trans;
      [|apply (timelineDuration_ge body (Animator.labelsTween duration))].
    - unfold Animator.endTime. simpl. lra.
    - rewrite Hbody. right. apply in_or_app. right. left. reflexivity. }
  split.
  - intros Htotal i tw Hfind.
    apply find_some in Hfind. destruct Hfind as [Hin Hbar].
    apply in_app_or in Hin. destruct Hin as [Hin|[<-|[]]].
    + apply (timelineDuration_ge body) in Hin. fold D in Hin. lra.
    + discriminate Hbar.
  - intros Hall.
    assert (HD : (D <= (8 # 10) * duration)%Q).
    { apply timelineDuration_le; [lra|].
      intros tw Hin. rewrite Hbody in Hin.
      destruct Hin as [<-|Hin].
      - unfold Animator.endTime. rewrite Hts, Htd. lra.
      - apply in_app_or in Hin. destruct Hin as [Hin|[<-|[]]].
        + apply in_map_iff in Hin. destruct Hin as (i & <- & Hi).
          apply in_seq in Hi.
          apply (Hall i). rewrite <- Htl.
          apply barTween_created. lia.
        + unfold Animator.endTime. simpl. lra. }
    lra.
Qed.

Lemma timeline_lasts_duration_iff_witness :
  (0 <= 5)%Q
  ∧ (Animator.timelineDuration
       (Animator.createHorizontalBarChartTimeline
          5 false "GDP by country" (Animator.sampleBars 3)) == 5)%Q.
Proof.
  split; [vm_compute; discriminate|].
  apply (timeline_lasts_duration_iff 5 false "GDP by country"
           (Animator.sampleBars 3)); [vm_compute; discriminate|].
  intros i tw Hfind.
  assert (Hi : (i < 3)%nat).
  { destruct (Nat.lt_ge_cases i 3) as [H|H]; [exact H|].
    do 3 (destruct i as [|i]; [lia|]). discriminate Hfind. }
  destruct i as [|[|[|i]]]; [| | |lia];
    injection Hfind as <-; vm_compute; discriminate.
Defined.

(** X9: for a chart of n >= 1 bars, the growth of the last bar ends within
    the bars phase (by titlePhaseEnd + barsPhaseDuration) if and only if
    there is a single bar or the per-bar duration barsPhaseDuration / n is
    at least the stagger step of 0.15 s. *)
Theorem last_bar_within_bars_phase_iff
        (duration : Q) (useTypewriter : bool) (title : string)
        (bars : list Animator.BarElement) :
  1 ≤ length bars →
  ∃ last,
    Animator.barTween
      (Animator.createHorizontalBarChartTimeline
         duration useTypewriter title bars) (length bars - 1)
    = Some last
    ∧ ((Animator.endTime last
        <= Animator.titlePhaseEnd duration
           + Animator.barsPhaseDuration duration)%Q
       ↔ length bars = 1
         ∨ (Animator.staggerStep
            <= Animator.barsPhaseDuration duration
               / inject_Z (Z.of_nat (length bars)))%Q).
Proof.
  intros Hn. eexists. split; [apply barTween_created; lia|].
  apply (last_bar_fits_iff duration (length bars) Hn).
Qed.

Lemma last_bar_within_bars_phase_iff_witness :
  1 ≤ length (Animator.sampleBars 4)
  ∧ ∃ last,
      Animator.barTween
        (Animator.createHorizontalBarChartTimeline
           5 true "GDP by country" (Animator.sampleBars 4))
        (length (Animator.sampleBars 4) - 1)
      = Some last
      ∧ ((Animator.endTime last
          <= Animator.titlePhaseEnd 5 + Animator.barsPhaseDuration 5)%Q
         ↔ length (Animator.sampleBars 4) = 1
           ∨ (Animator.staggerStep
              <= Animator.barsPhaseDuration 5
                 / inject_Z (Z.of_nat (length (Animator.sampleBars 4))))%Q).
Proof.
  split; [simpl; lia|].
  apply (last_bar_within_bars_phase_iff 5 true "GDP by country"
           (Animator.sampleBars 4)).
  simpl; lia.
Defined.

Section CaptureOrder.

Import Animator.

Lemma capturedNumbers_above (times : list Q) (frameCounter : Z) :
  Forall (fun n => (frameCounter < n)%Z)
         (capturedNumbers (runTicks true times frameCounter))
  ∧ StronglySorted Z.lt (capturedNumbers (runTicks true times frameCounter)).
Proof.
  revert frameCounter.
  induction times as [|t rest IH]; intros frameCounter; cbn [runTicks].
  - split; constructor.
  - unfold capturedNumbers. cbn [flat_map]. fold capturedNumbers.
    fold (capturedNumbers
            (runTicks true rest (fst (sampleFrame true t frameCounter)))).
    destruct (sampleFrame_cases t frameCounter)
      as [(c & _ & Hlt & _ & ->)|[(c & _ & Hlt & _ & ->)|(_ & ->)]];
      cbn [fst snd].
    + destruct (IH c) as [Hall Hsorted].
      split.
      * constructor; [exact Hlt|].
        eapply List.Forall_impl; [|exact Hall].
        intros n Hn. cbv beta in Hn. lia.
      * simpl. constructor; assumption.
    + destruct (IH c) as [Hall Hsorted].
      split; [|exact Hsorted].
      eapply List.Forall_impl; [|exact Hall].
        intros n Hn. cbv beta in Hn. lia.
    + apply IH.
Qed.

End CaptureOrder.

(** X10: along any run of ticks of the enabled sampler, the captured frame
    numbers are strictly increasing and all greater than the counter the
    run started from: no frame number is captured twice, whatever the tick
    times (also when time stalls or jumps). *)
Theorem captured_frame_numbers_increase
        (times : list Q) (frameCounter : Z) :
  StronglySorted Z.lt
    (Animator.capturedNumbers (Animator.runTicks true times frameCounter))
  ∧ NoDup
      (Animator.capturedNumbers (Animator.runTicks true times frameCounter))
  ∧ Forall (fun n => (frameCounter < n)%Z)
      (Animator.capturedNumbers (Animator.runTicks true times frameCounter)).
Proof.
  destruct (capturedNumbers_above times frameCounter) as [Hall Hsorted].
  split; [exact Hsorted|]. split; [|exact Hall].
  clear Hall. induction Hsorted as [|n rest Hs IH Hn]; constructor.
  - intros Hin. apply list_elem_of_In in Hin.
    rewrite List.Forall_forall in Hn. apply Hn in Hin. lia.
  - exact IH.
Qed.

(** ** Animator: what a redraw draws *)

Section Redraw.

Import Animator.
Local Open Scope Q_scope.

Lemma drawBars_ops (rows : list ChartRow) (k : nat) (barsState : list Q)
      (lo : Q) (ops : list DrawOp) :
  drawBars rows k barsState lo = Returned ops →
  length ops = (3 * length rows)%nat
  ∧ ∀ i r s,
      rows !! i = Some r →
      barsState !! (k + i)%nat = Some s →
      ops !! (3 * i)%nat
      = Some (FillRect (base (bar r)) (y (bar r) - barHeight (bar r) / 2)
                ((x (bar r) - base (bar r)) * s) (barHeight (bar r)))
      ∧ ops !! (3 * i + 1)%nat
        = Some (FillLabel (label r) (base (bar r) - 20) (y (bar r)))
      ∧ ops !! (3 * i + 2)%nat
        = Some (FillValueLabel (value r)
                  (base (bar r) + (x (bar r) - base (bar r)) * s + 10)
                  (y (bar r)) lo).
Proof.
  revert k ops. induction rows as [|r0 rest IH]; intros k ops;
    cbn [drawBars].
  - intros H. injection H as <-. split; [reflexivity|].
    intros i r s Hr. discriminate Hr.
  - destruct (barsState !! k) as [s0|] eqn:Hs0; [|discriminate].
    destruct (drawBars rest (S k) barsState lo) as [ops'|drawn'] eqn:Hrest;
      [|discriminate].
    intros H. injection H as <-.
    destruct (IH (S k) ops' Hrest) as [Hlen Hops].
    split; [simpl; lia|].
    intros i r s Hr Hs. destruct i as [|i].
    + simpl in Hr. injection Hr as <-.
      rewrite Nat.add_0_r in Hs. rewrite Hs0 in Hs. injection Hs as <-.
      repeat split; reflexivity.
    + simpl in Hr.
      replace (k + S i)%nat with (S k + i)%nat in Hs by lia.
      destruct (Hops i r s Hr Hs) as (H1 & H2 & H3).
      assert (E : (3 * S i = S (S (S (3 * i))))%nat) by lia.
      rewrite E. set (m := (3 * i)%nat) in *.
      cbn [Nat.add]. simpl. auto.
Qed.

Lemma drawBars_throws_iff (rows : list ChartRow) (k : nat)
      (barsState : list Q) (lo : Q) :
  (∃ drawn, drawBars rows k barsState lo = TypeError drawn)
  ↔ rows ≠ [] ∧ (length barsState < k + length rows)%nat.
Proof.
  revert k. induction rows as [|r0 rest IH]; intros k; cbn [drawBars].
  - split; [intros [drawn H]; discriminate H|]. intros [H _]. congruence.
  - destruct (barsState !! k) as [s0|] eqn:Hs0.
    + apply lookup_lt_Some in Hs0.
      destruct (drawBars rest (S k) barsState lo) as [ops'|drawn'] eqn:Hrest.
      * split; [intros [drawn H]; discriminate H|]. intros [_ Hlen].
        assert (Hthrow : ∃ drawn,
                   drawBars rest (S k) barsState lo = TypeError drawn).
        { apply IH. split; [|simpl in Hlen; lia].
          intros ->. simpl in Hlen. lia. }
        destruct Hthrow as [drawn Hthrow]. congruence.
      * assert (Hthrow : ∃ drawn,
                   drawBars rest (S k) barsState lo = TypeError drawn)
          by eauto.
        apply IH in Hthrow. destruct Hthrow as [_ Hlen].
        split; [|eauto]. intros _. split; [discriminate|simpl; lia].
    + apply lookup_ge_None in Hs0.
      split; [|eauto]. intros _. split; [discriminate|simpl; lia].
Qed.

(** A row loop that throws has drawn the three operations of every row
    that comes before the first index without a bar state. *)
Lemma drawBars_thrown (rows : list ChartRow) (k : nat)
      (barsState : list Q) (lo : Q) (drawn : list DrawOp) :
  drawBars rows k barsState lo = TypeError drawn →
  length drawn = (3 * (length barsState - k))%nat.
Proof.
  revert k drawn. induction rows as [|r0 rest IH]; intros k drawn;
    cbn [drawBars].
  - discriminate.
  - destruct (barsState !! k) as [s0|] eqn:Hs0.
    + apply lookup_lt_Some in Hs0.
      destruct (drawBars rest (S k) barsState lo) as [ops'|drawn'] eqn:Hrest;
        [discriminate|].
      intros H. injection H as <-.
      cbn [length]. rewrite (IH (S k) drawn' Hrest). lia.
    + apply lookup_ge_None in Hs0.
      intros H. injection H as <-. simpl. lia.
Qed.

Lemma drawTitle_throws_iff (useTypewriter : bool) (fullTitle : string)
      (arg : TitleArgument) :
  drawTitle useTypewriter fullTitle arg = None ↔ arg = UndefinedValue.
Proof.
  destruct arg, useTypewriter; simpl; split; congruence.
Qed.

(** The callbacks of all tweens but the title tween pass
    [titleElement.opacity]. *)
Lemma later_tweens_pass_opacity (duration : Q) (useTypewriter : bool)
      (title : string) (bars : list BarElement) (tw : Tween)
      (call : RedrawCall) :
  In tw (createHorizontalBarChartTimeline duration useTypewriter title bars) →
  target tw ≠ TitleElement →
  onUpdate tw = Some call →
  call = PassTitleOpacity.
Proof.
  intros Hin Htarget Hcall.
  destruct (created_timeline_shape duration useTypewriter title bars)
    as (titleTw & body & Htl & Hbody & Htt & _).
  rewrite Htl in Hin. apply in_app_or in Hin.
  destruct Hin as [Hin|[<-|[]]]; [|discriminate Hcall].
  rewrite Hbody in Hin. destruct Hin as [<-|Hin]; [congruence|].
  apply in_app_or in Hin. destruct Hin as [Hin|[<-|[]]].
  - apply in_map_iff in Hin. destruct Hin as (i & <- & _).
    simpl in Hcall. congruence.
  - simpl in Hcall. congruence.
Qed.

End Redraw.

(** X11: every redraw issued by a tween other than the title tween (the bar
    and label tweens) receives [titleElement.opacity] instead of the title
    element.  In typewriter mode that is [undefined]: the redraw fills the
    background and then throws a TypeError, so that neither the title nor a
    row is drawn.  In fade mode it is a number, and the redraw draws the
    full title with global alpha 0 whatever opacity the title had
    reached. *)
Theorem later_redraws_lose_title
        (duration : Q) (useTypewriter : bool) (title : string) (cw ch : Q)
        (rows : list Animator.ChartRow) (tw : Animator.Tween)
        (call : Animator.RedrawCall) (titleValue : Q) (barsState : list Q)
        (labelsOpacity : Q) :
  In tw (Animator.createHorizontalBarChartTimeline
           duration useTypewriter title (map Animator.bar rows)) →
  Animator.target tw ≠ Animator.TitleElement →
  Animator.onUpdate tw = Some call →
  length rows ≤ length barsState →
  if useTypewriter
  then Animator.redrawChart true title cw ch rows
         (Animator.titleArgument true call titleValue) barsState labelsOpacity
       = Animator.TypeError [Animator.FillRect 0 0 cw ch]
  else Animator.shownTitle
         (Animator.redrawChart false title cw ch rows
            (Animator.titleArgument false call titleValue)
            barsState labelsOpacity)
       = Some (Animator.toUpperCase title)
       ∧ Animator.shownTitleAlpha
           (Animator.redrawChart false title cw ch rows
              (Animator.titleArgument false call titleValue)
              barsState labelsOpacity)
         = Some (Some 0%Q).
Proof.
  intros Hin Htarget Hcall Hlen.
  rewrite (later_tweens_pass_opacity _ _ _ _ _ _ Hin Htarget Hcall).
  destruct useTypewriter; [reflexivity|].
  unfold Animator.redrawChart. simpl.
  destruct (drawBars_returns rows 0 barsState labelsOpacity) as [ops Hops];
    [simpl; lia|].
  rewrite Hops. split; reflexivity.
Qed.

Lemma later_redraws_lose_title_witness :
  In (Animator.labelsTween 5)
     (Animator.createHorizontalBarChartTimeline
        5 false "gdp" (map Animator.bar Animator.sampleRows))
  ∧ Animator.shownTitle
      (Animator.redrawChart false "gdp" 854 480 Animator.sampleRows
         (Animator.titleArgument false Animator.PassTitleOpacity 1)
         [1%Q; 1%Q] (1 # 2))
    = Some "GDP"%string
  ∧ Animator.shownTitleAlpha
      (Animator.redrawChart false "gdp" 854 480 Animator.sampleRows
         (Animator.titleArgument false Animator.PassTitleOpacity 1)
         [1%Q; 1%Q] (1 # 2))
    = Some (Some 0%Q).
Proof.
  assert (Hin : In (Animator.labelsTween 5)
                  (Animator.createHorizontalBarChartTimeline
                     5 false "gdp" (map Animator.bar Animator.sampleRows))).
  { simpl. right. right. right. left. reflexivity. }
  split; [exact Hin|].
  apply (later_redraws_lose_title 5 false "gdp" 854 480 Animator.sampleRows
           (Animator.labelsTween 5) Animator.PassTitleOpacity 1
           [1%Q; 1%Q] (1 # 2) Hin).
  - discriminate.
  - reflexivity.
  - simpl. lia.
Defined.

(** X12: a redraw that is given a defined title argument and a bar state
    for every row draws the background over the whole canvas, the title at
    (width / 2, 30), and then for every row i, in row order, the bar from
    its base with the width (x - base) * scale_i, the row label 20 pixels
    left of the base, and the value label 10 pixels right of the bar's
    current end with the labels' opacity. *)
Theorem redraw_draws_scaled_bars
        (useTypewriter : bool) (title : string) (cw ch : Q)
        (rows : list Animator.ChartRow) (arg : Animator.TitleArgument)
        (barsState : list Q) (labelsOpacity : Q) :
  arg ≠ Animator.UndefinedValue →
  length rows ≤ length barsState →
  ∃ t ops,
    Animator.redrawChart useTypewriter title cw ch rows arg barsState
      labelsOpacity
    = Animator.Returned
        (Animator.FillRect 0 0 cw ch
         :: Animator.FillTitle t (cw / 2) 30 :: ops)
    ∧ length ops = 3 * length rows
    ∧ ∀ i r s,
        rows !! i = Some r →
        barsState !! i = Some s →
        ops !! (3 * i)
        = Some (Animator.FillRect
                  (Animator.base (Animator.bar r))
                  (Animator.y (Animator.bar r)
                   - Animator.barHeight (Animator.bar r) / 2)
                  ((Animator.x (Animator.bar r)
                    - Animator.base (Animator.bar r)) * s)
                  (Animator.barHeight (Animator.bar r)))%Q
        ∧ ops !! (3 * i + 1)
          = Some (Animator.FillLabel (Animator.label r)
                    (Animator.base (Animator.bar r) - 20)
                    (Animator.y (Animator.bar r)))%Q
        ∧ ops !! (3 * i + 2)
          = Some (Animator.FillValueLabel (Animator.value r)
                    (Animator.base (Animator.bar r)
                     + (Animator.x (Animator.bar r)
                        - Animator.base (Animator.bar r)) * s + 10)
                    (Animator.y (Animator.bar r)) labelsOpacity)%Q.
Proof.
  intros Harg Hlen. unfold Animator.redrawChart.
  destruct (Animator.drawTitle useTypewriter (Animator.toUpperCase title) arg)
    as [t|] eqn:Ht.
  2:{ apply drawTitle_throws_iff in Ht. contradiction. }
  destruct (drawBars_returns rows 0 barsState labelsOpacity) as [ops Hops];
    [simpl; lia|].
  cbv zeta. rewrite Hops. exists t, ops. split; [reflexivity|].
  destruct (drawBars_ops rows 0 barsState labelsOpacity ops Hops)
    as [Hl Hi].
  split; [exact Hl|]. intros i r s Hr Hs. apply Hi; assumption.
Qed.

Lemma redraw_draws_scaled_bars_witness :
  Animator.OpacityObject 1 ≠ Animator.UndefinedValue
  ∧ length Animator.sampleRows ≤ length [0%Q; (1 # 2)%Q]
  ∧ ∃ t ops,
      Animator.redrawChart false "gdp" 854 480 Animator.sampleRows
        (Animator.OpacityObject 1) [0%Q; (1 # 2)%Q] 0
      = Animator.Returned
          (Animator.FillRect 0 0 854 480
           :: Animator.FillTitle t (854 / 2) 30 :: ops)
      ∧ length ops = 6
      ∧ ops !! 3
        = Some (Animator.FillRect 100 (250 - 40 / 2) ((500 - 100) * (1 # 2))
                  40)%Q.
Proof.
  split; [discriminate|]. split; [simpl; lia|].
  destruct (redraw_draws_scaled_bars false "gdp" 854 480 Animator.sampleRows
              (Animator.OpacityObject 1) [0%Q; (1 # 2)%Q] 0)
    as (t & ops & Hr & Hl & Hi); [discriminate|simpl; lia|].
  exists t, ops. split; [exact Hr|]. split; [exact Hl|].
  destruct (Hi 1%nat
              {| Animator.bar :=
                   {| Animator.base := 100; Animator.x := 500;
                      Animator.y := 250; Animator.barHeight := 40 |};
                 Animator.label := "B"; Animator.value := 20 |}
              (1 # 2)%Q eq_refl eq_refl) as [H _].
  exact H.
Defined.

(** X13: a redraw throws a TypeError exactly when its title argument is
    [undefined] or the bar state has fewer entries than the chart has
    rows; otherwise it returns.  What it has drawn when it throws stays: for
    an [undefined] title argument the background alone, for a short bar
    state the background, the title and the three operations of each row
    that has a bar state. *)
Theorem redraw_throws_iff
        (useTypewriter : bool) (title : string) (cw ch : Q)
        (rows : list Animator.ChartRow) (arg : Animator.TitleArgument)
        (barsState : list Q) (labelsOpacity : Q) :
  ((∃ drawn,
      Animator.redrawChart useTypewriter title cw ch rows arg barsState
        labelsOpacity
      = Animator.TypeError drawn)
   ↔ arg = Animator.UndefinedValue ∨ length barsState < length rows)
  ∧ (arg = Animator.UndefinedValue →
     Animator.redrawChart useTypewriter title cw ch rows arg barsState
       labelsOpacity
     = Animator.TypeError [Animator.FillRect 0 0 cw ch])
  ∧ (arg ≠ Animator.UndefinedValue →
     length barsState < length rows →
     ∃ t drawn,
       Animator.redrawChart useTypewriter title cw ch rows arg barsState
         labelsOpacity
       = Animator.TypeError
           (Animator.FillRect 0 0 cw ch
            :: Animator.FillTitle t (cw / 2) 30 :: drawn)
       ∧ length drawn = 3 * length barsState).
Proof.
  unfold Animator.redrawChart. cbv zeta.
  destruct (Animator.drawTitle useTypewriter (Animator.toUpperCase title) arg)
    as [t|] eqn:Ht.
  - assert (Harg : arg ≠ Animator.UndefinedValue).
    { intros ->. destruct useTypewriter; discriminate Ht. }
    destruct (Animator.drawBars rows 0 barsState labelsOpacity)
      as [ops|drawn] eqn:Hb.
    + assert (Hno : ¬ length barsState < length rows).
      { intros H.
        assert (Hthrow : ∃ drawn,
                   Animator.drawBars rows 0 barsState labelsOpacity
                   = Animator.TypeError drawn).
        { apply drawBars_throws_iff. split; [|simpl; lia].
          intros ->. simpl in H. lia. }
        destruct Hthrow as [drawn Hthrow]. congruence. }
      split; [|split].
      * split; [intros [drawn H]; discriminate H|].
        intros [H|H]; contradiction.
      * intros H. contradiction.
      * intros _ H. contradiction.
    + pose proof (drawBars_thrown _ _ _ _ _ Hb) as Hlen.
      assert (Hshort : length barsState < length rows).
      { assert (Hthrow : ∃ drawn,
                   Animator.drawBars rows 0 barsState labelsOpacity
                   = Animator.TypeError drawn) by eauto.
        apply drawBars_throws_iff in Hthrow. simpl in Hthrow. lia. }
      split; [|split].
      * split; [auto|eauto].
      * intros H. contradiction.
      * intros _ _. exists t, drawn. split; [reflexivity|].
        rewrite Hlen. lia.
  - apply drawTitle_throws_iff in Ht. split; [|split].
    + split; [auto|eauto].
    + intros _. reflexivity.
    + intros H. contradiction.
Qed.

(** ** DataLoader: successful loads and statistics *)

Section LoadedData.

Import DataLoader.

Lemma lastSegment_split (current url : string) :
  hasSlash current = false →
  hasSlash (lastSegment current url) = false
  ∧ ∃ pre,
      (current ++ url)%string = (pre ++ lastSegment current url)%string
      ∧ (pre = EmptyString ∨ ∃ p, pre = (p ++ "/")%string)
      ∧ (hasSlash url = false → pre = EmptyString).
Proof.
  revert current. induction url as [|c rest IH]; intros current Hcur.
  - simpl. split; [exact Hcur|]. exists EmptyString.
    split; [apply string_app_nil_r|].
    split; [left; reflexivity|reflexivity].
  - cbn [lastSegment hasSlash].
    destruct (Ascii.eqb c "/") eqn:Hc.
    + apply Ascii.eqb_eq in Hc. subst c.
      destruct (IH EmptyString eq_refl) as (Hno & pre & Hsplit & Hpre & _).
      split; [exact Hno|].
      exists (current ++ "/" ++ pre)%string.
      split.
      * change (EmptyString ++ rest)%string with rest in Hsplit.
        rewrite <- !string_app_assoc. f_equal.
        change (String "/" rest
                = String "/" (pre ++ lastSegment "" rest)).
        f_equal. exact Hsplit.
      * split; [|discriminate]. right.
        destruct Hpre as [->|(p & ->)].
        -- exists current. rewrite string_app_nil_r. reflexivity.
        -- exists (current ++ "/" ++ p)%string.
           rewrite <- !string_app_assoc. reflexivity.
    + destruct (IH (current ++ String c EmptyString)%string)
        as (Hno & pre & Hsplit & Hpre & Hnone).
      { clear IH. induction current as [|a current IHc]; simpl.
        - rewrite Hc. reflexivity.
        - simpl in Hcur. apply orb_false_iff in Hcur.
          destruct Hcur as [Ha Hcur]. rewrite Ha. apply IHc, Hcur. }
      split; [exact Hno|]. exists pre. split.
      * rewrite <- Hsplit. rewrite <- string_app_assoc. reflexivity.
      * split; [exact Hpre|]. simpl. exact Hnone.
Qed.

Lemma jsLe_trans (a b c : JSNumber) : jsLe a b → jsLe b c → jsLe a c.
Proof.
  destruct a, b, c; simpl; try tauto. apply Qle_trans.
Qed.

Lemma jsLe_refl (a : JSNumber) : a ≠ NaN → jsLe a a.
Proof. destruct a; simpl; try tauto. intros _. apply Qle_refl. Qed.

Lemma jsMax2_bounds (a b : JSNumber) :
  a ≠ NaN → b ≠ NaN →
  jsMax2 a b ≠ NaN ∧ jsLe a (jsMax2 a b) ∧ jsLe b (jsMax2 a b).
Proof.
  destruct a as [p| | |], b as [q| | |]; simpl; try tauto;
    intros _ _; try (repeat split; try discriminate; try apply Qle_refl).
  all: destruct (Qle_bool p q) eqn:H; simpl;
    try apply Qle_refl; try (apply Qle_bool_iff; exact H).
  all: apply Qlt_le_weak, Qnot_le_lt; intros Hle;
    apply Qle_bool_iff in Hle; congruence.
Qed.

Lemma jsMin2_bounds (a b : JSNumber) :
  a ≠ NaN → b ≠ NaN →
  jsMin2 a b ≠ NaN ∧ jsLe (jsMin2 a b) a ∧ jsLe (jsMin2 a b) b.
Proof.
  destruct a as [p| | |], b as [q| | |]; simpl; try tauto;
    intros _ _; try (repeat split; try discriminate; try apply Qle_refl).
  all: destruct (Qle_bool p q) eqn:H; simpl;
    try apply Qle_refl; try (apply Qle_bool_iff; exact H).
  all: apply Qlt_le_weak, Qnot_le_lt; intros Hle;
    apply Qle_bool_iff in Hle; congruence.
Qed.

Lemma fold_max_bounds (values : list JSNumber) (acc : JSNumber) :
  acc ≠ NaN →
  Forall (fun v => v ≠ NaN) values →
  fold_left jsMax2 values acc ≠ NaN
  ∧ jsLe acc (fold_left jsMax2 values acc)
  ∧ Forall (fun v => jsLe v (fold_left jsMax2 values acc)) values.
Proof.
  revert acc. induction values as [|v rest IH]; intros acc Hacc Hall; simpl.
  - split; [exact Hacc|]. split; [apply jsLe_refl, Hacc|constructor].
  - inversion Hall as [|? ? Hv Hrest]; subst.
    destruct (jsMax2_bounds acc v Hacc Hv) as (Hn & Ha & Hb).
    destruct (IH (jsMax2 acc v) Hn Hrest) as (Hn' & Hle & Hall').
    split; [exact Hn'|].
    split; [eapply jsLe_trans; eassumption|].
    constructor; [eapply jsLe_trans; eassumption|exact Hall'].
Qed.

Lemma fold_min_bounds (values : list JSNumber) (acc : JSNumber) :
  acc ≠ NaN →
  Forall (fun v => v ≠ NaN) values →
  fold_left jsMin2 values acc ≠ NaN
  ∧ jsLe (fold_left jsMin2 values acc) acc
  ∧ Forall (fun v => jsLe (fold_left jsMin2 values acc) v) values.
Proof.
  revert acc. induction values as [|v rest IH]; intros acc Hacc Hall; simpl.
  - split; [exact Hacc|]. split; [apply jsLe_refl, Hacc|constructor].
  - inversion Hall as [|? ? Hv Hrest]; subst.
    destruct (jsMin2_bounds acc v Hacc Hv) as (Hn & Ha & Hb).
    destruct (IH (jsMin2 acc v) Hn Hrest) as (Hn' & Hle & Hall').
    split; [exact Hn'|].
    split; [eapply jsLe_trans; eassumption|].
    constructor; [eapply jsLe_trans; eassumption|exact Hall'].
Qed.

(** Validated values are numbers, none of them NaN. *)
Lemma numbersOf_validated (gs : list JSValue) :
  Forall isNumberNotNaN gs →
  ∃ values,
    numbersOf gs = Some values
    ∧ length values = length gs
    ∧ Forall (fun v => v ≠ NaN) values.
Proof.
  induction gs as [|g rest IH]; intros Hall.
  - exists []. repeat split; constructor.
  - inversion Hall as [|? ? (n & -> & Hn) Hrest]; subst.
    destruct (IH Hrest) as (values & Hnum & Hlen & Hok).
    exists (n :: values). simpl. rewrite Hnum.
    repeat split; [simpl; congruence|]. constructor; assumption.
Qed.

(** The statistics of validated data. *)
Lemma getStats_validated (this : Loader) (d : JSValue) :
  data this = Some d →
  wellFormed d →
  ∃ s cs,
    getStats this = StatsValue s
    ∧ getField "countries" d = VArray cs
    ∧ rowCount s = length cs
    ∧ (1 ≤ rowCount s)%nat
    ∧ maxValue s ≠ NaN
    ∧ minValue s ≠ NaN
    ∧ jsLe (minValue s) (maxValue s).
Proof.
  intros Hdata (props & cs & gs & -> & Hcs & Hgs & Hlen & Hpos & Hall).
  destruct (numbersOf_validated gs Hall) as (values & Hnum & Hvl & Hok).
  unfold getStats. rewrite Hdata. simpl. rewrite Hcs, Hgs, Hnum.
  eexists. exists cs. split; [reflexivity|]. simpl.
  split; [reflexivity|]. split; [reflexivity|]. split; [exact Hpos|].
  destruct (fold_max_bounds values NegInfinity) as (Hmax & _ & Hup);
    [discriminate|exact Hok|].
  destruct (fold_min_bounds values PosInfinity) as (Hmin & _ & Hlow);
    [discriminate|exact Hok|].
  split; [exact Hmax|]. split; [exact Hmin|].
  destruct values as [|v rest]; [simpl in Hvl; lia|].
  inversion Hup; subst. inversion Hlow; subst.
  eapply jsLe_trans; eassumption.
Qed.

Lemma toDouble_not_NaN (n : JSNumber) :
  n ≠ NaN → toDouble n ≠ NaN.
Proof.
  destruct n as [q| | |]; simpl; try congruence.
  intros _. destruct (Binary64.round q); discriminate.
Qed.

(** Adding a finite double to a number gives a number: an infinity meets
    no infinity of the other sign. *)
Lemma jsAdd_finite_not_NaN (acc v : JSNumber) (d : Q) :
  acc ≠ NaN → toDouble v = Finite d → jsAdd acc v ≠ NaN.
Proof.
  intros Hacc Hv. unfold jsAdd. rewrite Hv.
  pose proof (toDouble_not_NaN acc Hacc) as Hn.
  destruct (toDouble acc) as [p| | |]; try congruence; try discriminate.
  apply toDouble_not_NaN. discriminate.
Qed.

Lemma fold_add_not_NaN (values : list JSNumber) (acc : JSNumber) :
  acc ≠ NaN →
  Forall (fun v => ∃ d, toDouble v = Finite d) values →
  fold_left jsAdd values acc ≠ NaN.
Proof.
  revert acc. induction values as [|v rest IH]; intros acc Hacc Hall;
    cbn [fold_left].
  - exact Hacc.
  - inversion Hall as [|? ? [d Hd] Hrest]; subst.
    apply IH; [|exact Hrest].
    apply (jsAdd_finite_not_NaN acc v d); assumption.
Qed.

Lemma divideByLength_not_NaN (total : JSNumber) (n : nat) :
  total ≠ NaN → (1 ≤ n)%nat → divideByLength total n ≠ NaN.
Proof.
  intros Htotal Hn. unfold divideByLength.
  pose proof (toDouble_not_NaN total Htotal) as Hd.
  destruct (toDouble total) as [q| | |]; try congruence; try discriminate.
  destruct n as [|n]; [lia|].
  apply toDouble_not_NaN. discriminate.
Qed.

(** The values of an array of numbers with finite doubles. *)
Lemma numbersOf_finite (gs : list JSValue) :
  Forall (fun v => isFiniteDouble v = true) gs →
  ∃ values,
    numbersOf gs = Some values
    ∧ Forall (fun v => ∃ d, toDouble v = Finite d) values.
Proof.
  induction gs as [|g rest IH]; intros Hall.
  - exists []. split; [reflexivity|constructor].
  - inversion Hall as [|? ? Hg Hrest]; subst.
    destruct (IH Hrest) as (values & Hnum & Hfin).
    destruct g as [| | |n| | |]; try discriminate Hg.
    exists (n :: values). simpl. rewrite Hnum. split; [reflexivity|].
    constructor; [|exact Hfin].
    simpl in Hg. destruct (toDouble n) as [d| | |]; try discriminate Hg.
    eauto.
Qed.

End LoadedData.

(** X14: [loadFromFile] resolves exactly when the file could be read, its
    text parses, and the parsed value passes the validation; the loader
    then holds that value and the file's name, whatever it held before, and
    the promise resolves with the same value. *)
Theorem loadFromFile_resolves_iff
        (JSON_parse : string → option DataLoader.JSValue)
        (this this' : DataLoader.Loader) (file : DataLoader.File)
        (d : DataLoader.JSValue) :
  DataLoader.loadFromFile JSON_parse this file
  = (this', DataLoader.Resolved d)
  ↔ (∃ content,
        DataLoader.readAsText file = Some content
        ∧ JSON_parse content = Some d)
    ∧ DataLoader.wellFormed d
    ∧ DataLoader.getData this' = Some d
    ∧ DataLoader.getFileName this' = Some (DataLoader.name file).
Proof.
  unfold DataLoader.loadFromFile, DataLoader.getData, DataLoader.getFileName.
  split.
  - destruct (DataLoader.readAsText file) as [content|]; [|discriminate].
    destruct (JSON_parse content) as [d'|] eqn:Hp; [|discriminate].
    destruct (DataLoader.validateData d') eqn:Hv; [discriminate|].
    intros H. injection H as <- <-.
    apply validateData_None_iff in Hv. simpl. eauto 6.
  - intros ((content & Hr & Hp) & Hwf & Hd & Hf).
    rewrite Hr, Hp. apply validateData_None_iff in Hwf. rewrite Hwf.
    destruct this' as [d' f']. simpl in Hd, Hf. subst. reflexivity.
Qed.

(** X15: when [loadFromURL] resolves, the response was ok and its body
    passed the validation, the loader holds the body, and the stored file
    name is the part of the URL after its last slash: it contains no slash,
    the URL ends with it, and it is the whole URL when the URL has no
    slash. *)
Theorem loadFromURL_stores_last_segment
        (fetch : string → DataLoader.FetchResult)
        (this this' : DataLoader.Loader) (url : string)
        (d : DataLoader.JSValue) :
  DataLoader.loadFromURL fetch this url = (this', DataLoader.Resolved d) →
  (∃ status, fetch url = DataLoader.Response true status (Some d))
  ∧ DataLoader.wellFormed d
  ∧ DataLoader.getData this' = Some d
  ∧ ∃ pre segment,
      DataLoader.getFileName this' = Some segment
      ∧ url = (pre ++ segment)%string
      ∧ DataLoader.hasSlash segment = false
      ∧ (pre = EmptyString ∨ ∃ p, pre = (p ++ "/")%string)
      ∧ (DataLoader.hasSlash url = false → segment = url).
Proof.
  unfold DataLoader.loadFromURL, DataLoader.getData, DataLoader.getFileName.
  destruct (fetch url) as [|ok status json]; [discriminate|].
  destruct ok; simpl; [|discriminate].
  destruct json as [d'|]; [|discriminate].
  destruct (DataLoader.validateData d') eqn:Hv; [discriminate|].
  intros H. injection H as <- <-. simpl.
  apply validateData_None_iff in Hv.
  split; [eauto|]. split; [exact Hv|]. split; [reflexivity|].
  destruct (lastSegment_split EmptyString url eq_refl)
    as (Hno & pre & Hsplit & Hpre & Hnone).
  exists pre, (DataLoader.lastSegment EmptyString url).
  split; [reflexivity|]. split; [exact Hsplit|]. split; [exact Hno|].
  split; [exact Hpre|].
  intros Hu. specialize (Hnone Hu). subst pre. symmetry. exact Hsplit.
Qed.

Lemma loadFromURL_stores_last_segment_witness :
  let fetch := fun _ : string =>
    DataLoader.Response true 200 (Some DataLoader.sampleData) in
  let res :=
    DataLoader.loadFromURL fetch DataLoader.new
      "https://example.org/data/gdp.json" in
  res = (fst res, DataLoader.Resolved DataLoader.sampleData)
  ∧ DataLoader.getFileName (fst res) = Some "gdp.json"%string
  ∧ ∃ pre segment,
      DataLoader.getFileName (fst res) = Some segment
      ∧ "https://example.org/data/gdp.json"%string = (pre ++ segment)%string
      ∧ DataLoader.hasSlash segment = false.
Proof.
  intros fetch res. split; [reflexivity|]. split; [reflexivity|].
  destruct (loadFromURL_stores_last_segment fetch DataLoader.new (fst res)
              "https://example.org/data/gdp.json" DataLoader.sampleData
              eq_refl)
    as (_ & _ & _ & pre & segment & Hf & Hs & Hn & _).
  exists pre, segment. auto.
Defined.

(** X16: after a load that resolved, [getStats()] is not null: its row
    count is the number of rows of the loaded data and at least 1, its
    maximum and minimum are numbers other than NaN, and the minimum is at
    most the maximum. *)
Theorem getStats_after_load
        (JSON_parse : string → option DataLoader.JSValue)
        (this this' : DataLoader.Loader) (file : DataLoader.File)
        (d : DataLoader.JSValue) :
  DataLoader.loadFromFile JSON_parse this file
  = (this', DataLoader.Resolved d) →
  ∃ s cs,
    DataLoader.getStats this' = DataLoader.StatsValue s
    ∧ DataLoader.getField "countries" d = DataLoader.VArray cs
    ∧ DataLoader.rowCount s = length cs
    ∧ 1 ≤ DataLoader.rowCount s
    ∧ DataLoader.maxValue s ≠ DataLoader.NaN
    ∧ DataLoader.minValue s ≠ DataLoader.NaN
    ∧ DataLoader.jsLe (DataLoader.minValue s) (DataLoader.maxValue s).
Proof.
  intros Hload.
  destruct (loadFromFile_settles JSON_parse this file)
    as [(e & He)|(d' & Hd & Hv)]; [congruence|].
  rewrite Hd in Hload. injection Hload as <- <-.
  apply validateData_None_iff in Hv.
  apply (getStats_validated _ d'); [reflexivity|exact Hv].
Qed.

Lemma getStats_after_load_witness :
  let parse := fun _ : string => Some DataLoader.sampleData in
  let file :=
    {| DataLoader.name := "gdp.json";
       DataLoader.readAsText := Some "{}"%string |} in
  let res := DataLoader.loadFromFile parse DataLoader.new file in
  res = (fst res, DataLoader.Resolved DataLoader.sampleData)
  ∧ ∃ s cs,
      DataLoader.getStats (fst res) = DataLoader.StatsValue s
      ∧ DataLoader.getField "countries" DataLoader.sampleData
        = DataLoader.VArray cs
      ∧ DataLoader.rowCount s = length cs
      ∧ 1 ≤ DataLoader.rowCount s
      ∧ DataLoader.maxValue s ≠ DataLoader.NaN
      ∧ DataLoader.minValue s ≠ DataLoader.NaN
      ∧ DataLoader.jsLe (DataLoader.minValue s) (DataLoader.maxValue s).
Proof.
  intros parse file res. split; [reflexivity|].
  apply (getStats_after_load parse DataLoader.new (fst res) file
           DataLoader.sampleData).
  reflexivity.
Defined.

(** The average of the three values 0.1 is 0.10000000000000002, above
    their maximum 0.1: the sum 0.30000000000000004 and the quotient are
    rounded. *)
Lemma average_above_maximum :
  let this :=
    {| DataLoader.data := Some DataLoader.tenthsData;
       DataLoader.fileName := Some "tenths.json"%string |} in
  ∃ s,
    DataLoader.getStats this = DataLoader.StatsValue s
    ∧ DataLoader.maxValue s = DataLoader.Finite (1 # 10)
    ∧ DataLoader.avgValue s
      = DataLoader.Finite (7205759403792795 # 72057594037927936)
    ∧ DataLoader.toDouble (DataLoader.maxValue s)
      = DataLoader.Finite (3602879701896397 # 36028797018963968)
    ∧ ((3602879701896397 # 36028797018963968)
       < 7205759403792795 # 72057594037927936)%Q.
Proof.
  intros this. eexists. split; [reflexivity|].
  split; [vm_compute; reflexivity|]. split; [vm_compute; reflexivity|].
  split; vm_compute; reflexivity.
Qed.

(** X17: for stored data that passed the validation and whose values are
    all finite doubles, the average [getStats()] gives is a number, never
    NaN: the sum, rounded at every addition, can overflow to an infinity,
    but no infinity of the other sign is ever added to it.  (The average
    need not lie between the minimum and the maximum, see
    [average_above_maximum].) *)
Theorem getStats_average_is_a_number
        (this : DataLoader.Loader) (d : DataLoader.JSValue)
        (gs : list DataLoader.JSValue) :
  DataLoader.getData this = Some d →
  DataLoader.wellFormed d →
  DataLoader.getField "gdp" d = DataLoader.VArray gs →
  Forall (fun v => DataLoader.isFiniteDouble v = true) gs →
  ∃ s,
    DataLoader.getStats this = DataLoader.StatsValue s
    ∧ DataLoader.avgValue s ≠ DataLoader.NaN.
Proof.
  intros Hdata (props & cs & gs' & -> & Hcs & Hgs & Hlen & Hpos & _)
         Hfield Hfin.
  simpl in Hfield. rewrite Hgs in Hfield. injection Hfield as ->.
  destruct (numbersOf_finite gs Hfin) as (values & Hnum & Hvalues).
  unfold DataLoader.getData in Hdata.
  unfold DataLoader.getStats. rewrite Hdata. simpl.
  rewrite Hcs, Hgs, Hnum.
  eexists. split; [reflexivity|]. cbn [DataLoader.avgValue].
  apply divideByLength_not_NaN; [|lia].
  apply fold_add_not_NaN; [discriminate|exact Hvalues].
Qed.

Lemma getStats_average_is_a_number_witness :
  let this :=
    {| DataLoader.data := Some DataLoader.sampleData;
       DataLoader.fileName := Some "gdp.json"%string |} in
  ∃ s,
    DataLoader.getStats this = DataLoader.StatsValue s
    ∧ DataLoader.avgValue s ≠ DataLoader.NaN.
Proof.
  intros this.
  apply (getStats_average_is_a_number this DataLoader.sampleData
           [DataLoader.VNumber (DataLoader.Finite 10);
            DataLoader.VNumber (DataLoader.Finite 20)]).
  - reflexivity.
  - apply validateData_None_iff. reflexivity.
  - reflexivity.
  - repeat constructor; vm_compute; reflexivity.
Defined.

Section ValidationOrder.

Import DataLoader.

Lemma some_invalid_iff (gs : list JSValue) :
  (0 <? length (List.filter invalidValue gs))%nat = true
  ↔ ∃ v, In v gs ∧ ¬ isNumberNotNaN v.
Proof.
  split.
  - intros H. destruct (List.filter invalidValue gs) as [|v rest] eqn:Hf;
      [discriminate|].
    assert (Hin : In v (List.filter invalidValue gs))
      by (rewrite Hf; left; reflexivity).
    apply filter_In in Hin. destruct Hin as [Hin Hbad].
    exists v. split; [exact Hin|]. intros Hok.
    apply invalidValue_false_iff in Hok. congruence.
  - intros (v & Hin & Hbad).
    destruct (0 <? length (List.filter invalidValue gs))%nat eqn:H;
      [reflexivity|].
    apply no_invalid_iff in H. rewrite List.Forall_forall in H.
    exfalso. apply Hbad, H, Hin.
Qed.

End ValidationOrder.

(** X18: for an object whose [countries] and [gdp] are arrays, the
    validation reports the first failing check in a fixed order: arrays of
    different lengths give the length error, also when one of them is empty
    or a value is invalid; two empty arrays give the no-element error; and
    the invalid-values error is given exactly when the lengths are equal
    and not zero and some value is NaN or not a number. *)
Theorem validateData_error_order
        (props : list (string * DataLoader.JSValue))
        (cs gs : list DataLoader.JSValue) :
  DataLoader.lookupProperty "countries" props = DataLoader.VArray cs →
  DataLoader.lookupProperty "gdp" props = DataLoader.VArray gs →
  (length cs ≠ length gs ↔
   DataLoader.validateData (DataLoader.VObject props)
   = Some DataLoader.LengthMismatch)
  ∧ (length cs = 0 ∧ length gs = 0 ↔
     DataLoader.validateData (DataLoader.VObject props)
     = Some DataLoader.NoElements)
  ∧ (length cs = length gs ∧ length cs ≠ 0
     ∧ (∃ v, In v gs ∧ ¬ DataLoader.isNumberNotNaN v) ↔
     DataLoader.validateData (DataLoader.VObject props)
     = Some DataLoader.InvalidGdpValues).
Proof.
  intros Hcs Hgs. unfold DataLoader.validateData. simpl.
  rewrite Hcs, Hgs. simpl.
  pose proof (some_invalid_iff gs) as Hinv.
  destruct (Nat.eqb_spec (length cs) (length gs)) as [Hlen|Hlen]; simpl.
  - destruct (Nat.eqb_spec (length cs) 0) as [Hz|Hz].
    + split; [|split]; (split; intros H); try congruence; lia.
    + destruct (0 <? length (List.filter DataLoader.invalidValue gs))%nat.
      * split; [|split]; (split; intros H); try congruence; try lia.
        split; [exact Hlen|]. split; [exact Hz|]. apply Hinv. reflexivity.
      * split; [|split]; (split; intros H); try congruence; try lia.
        destruct H as (_ & _ & H). apply Hinv in H. discriminate H.
  - split; [|split]; (split; intros H); try congruence; lia.
Qed.

Lemma validateData_error_order_witness :
  DataLoader.validateData
    (DataLoader.VObject
       [("countries"%string, DataLoader.VArray []);
        ("gdp"%string, DataLoader.VArray [DataLoader.VString "x"])])
  = Some DataLoader.LengthMismatch.
Proof.
  apply (validateData_error_order
           [("countries"%string, DataLoader.VArray []);
            ("gdp"%string, DataLoader.VArray [DataLoader.VString "x"])]
           [] [DataLoader.VString "x"] eq_refl eq_refl).
  simpl. lia.
Defined.

(** X19: [loadExample] is [loadFromURL] on the bundled example: when it
    resolves, the loader holds the validated body under the file name
    video-data.json; when the response is not ok, the promise is rejected
    and the loader is unchanged, even if the body would be valid. *)
Theorem loadExample_outcomes
        (fetch : string → DataLoader.FetchResult)
        (this : DataLoader.Loader) :
  (∀ this' d,
      DataLoader.loadExample fetch this = (this', DataLoader.Resolved d) →
      DataLoader.getFileName this' = Some "video-data.json"%string
      ∧ DataLoader.getData this' = Some d
      ∧ DataLoader.wellFormed d)
  ∧ (∀ status body,
        fetch "assets/examples/video-data.json"
        = DataLoader.Response false status body →
        DataLoader.loadExample fetch this
        = (this,
           DataLoader.Rejected
             (DataLoader.DataLoadingError (DataLoader.HttpError status)))).
Proof.
  split.
  - intros this' d Hload. unfold DataLoader.loadExample in Hload.
    destruct (loadFromURL_settles fetch this "assets/examples/video-data.json")
      as [(e & He)|(d' & Hd & Hv)]; [congruence|].
    rewrite Hd in Hload. injection Hload as <- <-.
    apply validateData_None_iff in Hv.
    split; [reflexivity|]. split; [reflexivity|exact Hv].
  - intros status body Hf. unfold DataLoader.loadExample,
      DataLoader.loadFromURL. rewrite Hf. reflexivity.
Qed.

Lemma loadExample_outcomes_witness :
  let fetch := fun _ : string =>
    DataLoader.Response false 404 (Some DataLoader.sampleData) in
  let this :=
    {| DataLoader.data := Some DataLoader.sampleData;
       DataLoader.fileName := Some "old.json"%string |} in
  DataLoader.loadExample fetch this
  = (this,
     DataLoader.Rejected
       (DataLoader.DataLoadingError (DataLoader.HttpError 404))).
Proof.
  intros fetch this.
  apply (proj2 (loadExample_outcomes fetch this) 404%Z
           (Some DataLoader.sampleData)).
  reflexivity.
Defined.

(** ** ConfigManager: the stored configuration *)

Section StoredConfiguration.

Import DataLoader ConfigStore.

Lemma list_to_map_findProperty (props : list (string * JSValue))
      (key : string) :
  (list_to_map props : gmap string JSValue) !! key = findProperty key props.
Proof.
  induction props as [|[k v] rest IH]; simpl.
  - apply lookup_empty.
  - destruct (String.eqb_spec k key) as [->|Hne].
    + apply lookup_insert_eq.
    + rewrite lookup_insert_ne by exact Hne. exact IH.
Qed.

Lemma getValue_union (m config : gmap string JSValue) (key : string) :
  getValue key (m ∪ config)
  = match m !! key with
    | Some v => OwnValue v
    | None => getValue key config
    end.
Proof.
  unfold getValue. rewrite lookup_union.
  destruct (m !! key) as [v|]; destruct (config !! key) as [w|];
    reflexivity.
Qed.

End StoredConfiguration.

(** X20: for every key other than __proto__, [setValue(key, value)]
    followed by [getValue(key)] gives back the value, also when the key
    names a member inherited from Object.prototype, and the values read
    under all other keys are unchanged. *)
Theorem setValue_then_getValue
        (key : string) (value : DataLoader.JSValue)
        (config : gmap string DataLoader.JSValue) :
  key ≠ "__proto__"%string →
  ∃ config',
    ConfigStore.setValue key value config = Some config'
    ∧ ConfigStore.getValue key config' = ConfigStore.OwnValue value
    ∧ ∀ other,
        other ≠ key →
        ConfigStore.getValue other config'
        = ConfigStore.getValue other config.
Proof.
  intros Hkey. unfold ConfigStore.setValue.
  apply String.eqb_neq in Hkey. rewrite Hkey. simpl.
  eexists. split; [reflexivity|]. unfold ConfigStore.getValue. split.
  - rewrite lookup_insert_eq. reflexivity.
  - intros other Hne. rewrite lookup_insert_ne by congruence. reflexivity.
Qed.

Lemma setValue_then_getValue_witness :
  "toString"%string ≠ "__proto__"%string
  ∧ ConfigStore.getValue "toString" ConfigStore.getDefaultConfig
    = ConfigStore.InheritedMember "toString"
  ∧ ∃ config',
      ConfigStore.setValue "toString"
        (DataLoader.VNumber (DataLoader.Finite 8))
        ConfigStore.getDefaultConfig
      = Some config'
      ∧ ConfigStore.getValue "toString" config'
        = ConfigStore.OwnValue (DataLoader.VNumber (DataLoader.Finite 8))
      ∧ ∀ other,
          other ≠ "toString"%string →
          ConfigStore.getValue other config'
          = ConfigStore.getValue other ConfigStore.getDefaultConfig.
Proof.
  split; [discriminate|]. split; [reflexivity|].
  apply (setValue_then_getValue "toString"
           (DataLoader.VNumber (DataLoader.Finite 8))
           ConfigStore.getDefaultConfig).
  discriminate.
Defined.

(** X21: after [update(updates)], [getValue(key)] gives the value of the
    own property [key] of [updates] when it has one (for an array or a
    string: the element or character at that index), and otherwise what it
    gave before; updates that are null, undefined, numbers or booleans
    leave the configuration unchanged. *)
Theorem update_overrides
        (updates : DataLoader.JSValue)
        (config : gmap string DataLoader.JSValue) (key : string) :
  ConfigStore.getValue key (ConfigStore.update updates config)
  = match ConfigStore.findProperty key (ConfigStore.spreadEntries updates) with
    | Some v => ConfigStore.OwnValue v
    | None => ConfigStore.getValue key config
    end
  ∧ (ConfigStore.spreadEntries updates = [] →
     ConfigStore.update updates config = config).
Proof.
  unfold ConfigStore.update, ConfigStore.spreadMap. split.
  - rewrite getValue_union, list_to_map_findProperty. reflexivity.
  - intros ->. simpl. apply (left_id_L ∅ (∪)).
Qed.

(** X22: [importJSON] with text that does not parse throws and leaves the
    configuration unchanged; with text that parses, the new configuration
    is the defaults overridden by the imported properties: every key reads
    as the imported value if the imported object has it and as in the
    default configuration otherwise, so nothing of the previous
    configuration survives. *)
Theorem importJSON_merges_into_defaults
        (JSON_parse : string → option DataLoader.JSValue) (json : string)
        (config : gmap string DataLoader.JSValue) :
  (JSON_parse json = None →
   ConfigStore.importJSON JSON_parse json config = (config, true))
  ∧ (∀ imported,
        JSON_parse json = Some imported →
        ∃ config',
          ConfigStore.importJSON JSON_parse json config = (config', false)
          ∧ ∀ key,
              ConfigStore.getValue key config'
              = match ConfigStore.findProperty key
                        (ConfigStore.spreadEntries imported) with
                | Some v => ConfigStore.OwnValue v
                | None =>
                    ConfigStore.getValue key ConfigStore.getDefaultConfig
                end).
Proof.
  unfold ConfigStore.importJSON. split.
  - intros ->. reflexivity.
  - intros imported ->. eexists. split; [reflexivity|].
    intros key. unfold ConfigStore.spreadMap.
    rewrite getValue_union, list_to_map_findProperty. reflexivity.
Qed.

Lemma importJSON_merges_into_defaults_witness :
  let parse := fun _ : string =>
    Some (DataLoader.VObject
            [("fps"%string, DataLoader.VNumber (DataLoader.Finite 60))]) in
  let old :=
    <["custom" := DataLoader.VBool true]> ConfigStore.getDefaultConfig in
  ∃ config',
    ConfigStore.importJSON parse "{}" old = (config', false)
    ∧ ConfigStore.getValue "fps" config'
      = ConfigStore.OwnValue (DataLoader.VNumber (DataLoader.Finite 60))
    ∧ ConfigStore.getValue "resolution" config'
      = ConfigStore.OwnValue (DataLoader.VString "1080p")
    ∧ ConfigStore.getValue "custom" config' = ConfigStore.Undefined.
Proof.
  intros parse old.
  destruct (proj2 (importJSON_merges_into_defaults parse "{}" old) _ eq_refl)
    as (config' & Himport & Hread).
  exists config'. split; [exact Himport|].
  rewrite !Hread. repeat split; reflexivity.
Defined.

(** ** DebugLogger *)

Section LoggerLemmas.

Import DebugLogger.

Variable toFixed2 : Q → string.
Variable jsonClone : DataLoader.JSValue → DataLoader.JSValue.

Lemma log_enabled (lvl msg : string) (d : option DataLoader.JSValue)
      (clock : Clock) (this : Logger) :
  enabled this = true →
  ∃ entry,
    log toFixed2 jsonClone lvl msg d clock this
    = {| enabled := true; sessionId := sessionId this;
         logs := logs this ++ [entry]; frames := frames this;
         config := config this; data := data this;
         startTime := startTime this; metadata := metadata this |}
    ∧ level entry = lvl
    ∧ message entry = msg
    ∧ elapsed entry
      = (elapsedSince toFixed2 (startTime this) (now clock) "0.00"
         ++ "ms")%string.
Proof.
  intros Hon. unfold log. rewrite Hon. simpl.
  eexists. split; [reflexivity|]. repeat split.
Qed.

Lemma log_disabled (lvl msg : string) (d : option DataLoader.JSValue)
      (clock : Clock) (this : Logger) :
  enabled this = false →
  log toFixed2 jsonClone lvl msg d clock this = this.
Proof. intros Hoff. unfold log. rewrite Hoff. reflexivity. Qed.

Lemma totalFrameSize_snoc (l : list Frame) (f : Frame) :
  fold_left (fun sum g => (sum + size g)%Z) (l ++ [f]) 0%Z
  = (fold_left (fun sum g => (sum + size g)%Z) l 0 + size f)%Z.
Proof. rewrite fold_left_app. reflexivity. Qed.

(** One settled capture on an enabled logger. *)
Lemma captureFrame_enabled (canvas : Canvas) (frameName : string)
      (frameNumber : Z) (encoded : Encoded) (fc lc : Clock)
      (this : Logger) :
  enabled this = true →
  let after :=
    captureFrame toFixed2 jsonClone canvas frameName frameNumber encoded
      fc lc this in
  enabled after = true
  ∧ sessionId after = sessionId this
  ∧ startTime after = startTime this
  ∧ (∃ entry,
        logs after = logs this ++ [entry]
        ∧ level entry = match encoded with
                        | EncodedBlob _ => "RENDER"%string
                        | EncodeFailed _ => "ERROR"%string
                        end)
  ∧ frames after
    = frames this
      ++ match encoded with
         | EncodedBlob b =>
             [ {| number := frameNumber; name := frameName;
                  frameTimestamp := iso fc;
                  frameElapsed :=
                    elapsedSince toFixed2 (startTime this) (now fc) "0";
                  blob := b; size := VideoRecorder.size b;
                  dimensions :=
                    (canvasWidth canvas, canvasHeight canvas) |} ]
         | EncodeFailed _ => []
         end.
Proof.
  intros Hon after. subst after. unfold captureFrame. rewrite Hon. simpl.
  destruct encoded as [b|err].
  - match goal with
    | |- context [log _ _ ?l ?m ?d ?c ?t] =>
        destruct (log_enabled l m d c t) as (entry & -> & Hl & _)
    end; [reflexivity|].
    simpl. repeat split. eauto.
  - destruct (log_enabled "ERROR"
                ("Failed to capture frame #" ++ decimal frameNumber)
                (Some (DataLoader.VObject
                         [("error"%string, DataLoader.VString err)]))
                lc this Hon) as (entry & -> & Hl & _).
    simpl. rewrite app_nil_r. repeat split. eauto.
Qed.

Lemma captureFrame_disabled (canvas : Canvas) (frameName : string)
      (frameNumber : Z) (encoded : Encoded) (fc lc : Clock)
      (this : Logger) :
  enabled this = false →
  captureFrame toFixed2 jsonClone canvas frameName frameNumber encoded
    fc lc this = this.
Proof. intros Hoff. unfold captureFrame. rewrite Hoff. reflexivity. Qed.

End LoggerLemmas.

Section LoggerRuns.

Import DebugLogger.

Variable toFixed2 : Q → string.
Variable jsonClone : DataLoader.JSValue → DataLoader.JSValue.

Lemma captureAll_disabled (requests : list Capture) (this : Logger) :
  enabled this = false →
  captureAll toFixed2 jsonClone requests this = this.
Proof.
  intros Hoff. unfold captureAll.
  induction requests as [|c rest IH]; simpl; [reflexivity|].
  rewrite captureFrame_disabled by exact Hoff. exact IH.
Qed.

Lemma captureAll_enabled (requests : list Capture) (this : Logger) :
  enabled this = true →
  let after := captureAll toFixed2 jsonClone requests this in
  enabled after = true
  ∧ sessionId after = sessionId this
  ∧ map (fun f => (number f, blob f)) (frames after)
    = map (fun f => (number f, blob f)) (frames this)
      ++ encodedBlobs requests
  ∧ totalLogs after = (totalLogs this + length requests)%nat
  ∧ totalFrameSize after
    = (totalFrameSize this
       + VideoRecorder.totalSize (map snd (encodedBlobs requests)))%Z.
Proof.
  revert this. induction requests as [|c rest IH]; intros this Hon.
  - cbv zeta. change (captureAll toFixed2 jsonClone [] this) with this.
    split; [exact Hon|]. split; [reflexivity|].
    split; [symmetry; apply app_nil_r|].
    split; [cbn [length]; lia|].
    unfold encodedBlobs. cbn [flat_map map VideoRecorder.totalSize
                             fold_right]. lia.
  - change (captureAll toFixed2 jsonClone (c :: rest) this)
      with (captureAll toFixed2 jsonClone rest
              (captureFrame toFixed2 jsonClone (onCanvas c) (asName c)
                 (asNumber c) (outcome c) (frameClock c) (logClock c) this)).
    destruct (captureFrame_enabled toFixed2 jsonClone (onCanvas c) (asName c)
                (asNumber c) (outcome c) (frameClock c) (logClock c) this Hon)
      as (Hon1 & Hid1 & _ & (entry & Hlogs1 & _) & Hframes1).
    destruct (IH _ Hon1) as (Hon2 & Hid2 & Hfr2 & Hlg2 & Hsz2).
    cbv zeta. split; [exact Hon2|]. split; [congruence|].
    unfold totalLogs, totalFrameSize in *.
    rewrite Hfr2, Hlg2, Hsz2, Hlogs1, Hframes1.
    unfold encodedBlobs. cbn [flat_map]. fold (encodedBlobs rest).
    destruct (outcome c) as [b|err].
    + rewrite map_app, totalFrameSize_snoc, length_app.
      cbn [map app snd VideoRecorder.totalSize fold_right length size
           number blob].
      rewrite <- app_assoc. unfold VideoRecorder.totalSize.
      repeat split; try reflexivity; lia.
    + rewrite app_nil_r, length_app. cbn [app length].
      repeat split; try reflexivity; lia.
Qed.

Lemma find_number_absent (l : list Frame) (n : Z) :
  Forall (fun f => number f ≠ n) l →
  find (fun f => (number f =? n)%Z) l = None.
Proof.
  induction 1 as [|f rest Hf _ IH]; simpl; [reflexivity|].
  apply Z.eqb_neq in Hf. rewrite Hf. exact IH.
Qed.

End LoggerRuns.

(** X23: a disabled logger records nothing: [log] and [captureFrame], and
    so any series of capture requests, leave its logs, frames and every
    other field as they were. *)
Theorem disabled_logger_records_nothing
        (toFixed2 : Q → string)
        (jsonClone : DataLoader.JSValue → DataLoader.JSValue)
        (this : DebugLogger.Logger) (lvl msg : string)
        (d : option DataLoader.JSValue) (clock : DebugLogger.Clock)
        (requests : list DebugLogger.Capture) :
  DebugLogger.isEnabled this = false →
  DebugLogger.log toFixed2 jsonClone lvl msg d clock this = this
  ∧ DebugLogger.captureAll toFixed2 jsonClone requests this = this.
Proof.
  intros Hoff. split.
  - apply log_disabled, Hoff.
  - apply captureAll_disabled, Hoff.
Qed.

Lemma disabled_logger_records_nothing_witness :
  let this := DebugLogger.new false "test-2026-01-01T00-00-00" in
  DebugLogger.isEnabled this = false
  ∧ DebugLogger.log (fun _ => "1.00"%string) (fun v => v) "INFO" "Loading"
      None DebugLogger.sampleClock this = this
  ∧ DebugLogger.captureAll (fun _ => "1.00"%string) (fun v => v)
      [DebugLogger.sampleCapture 1
         (DebugLogger.EncodedBlob VideoRecorder.sampleChunk)] this
    = this.
Proof.
  intros this. split; [reflexivity|].
  apply (disabled_logger_records_nothing (fun _ => "1.00"%string)
           (fun v => v) this "INFO" "Loading" None DebugLogger.sampleClock
           [DebugLogger.sampleCapture 1
              (DebugLogger.EncodedBlob VideoRecorder.sampleChunk)]).
  reflexivity.
Defined.

(** X24: on an enabled logger, a series of capture requests adds one frame
    per request whose encoding succeeded, in request order, each with the
    requested number and the encoded blob, and adds one log entry per
    request, failed or not: a failed encoding drops that frame only.  The
    total frame size of the summary grows by the sizes of the added
    blobs. *)
Theorem captures_are_recorded_in_order
        (toFixed2 : Q → string)
        (jsonClone : DataLoader.JSValue → DataLoader.JSValue)
        (requests : list DebugLogger.Capture) (this : DebugLogger.Logger) :
  DebugLogger.isEnabled this = true →
  DebugLogger.isEnabled
    (DebugLogger.captureAll toFixed2 jsonClone requests this) = true
  ∧ map (fun f => (DebugLogger.number f, DebugLogger.blob f))
      (DebugLogger.getFrames
         (DebugLogger.captureAll toFixed2 jsonClone requests this))
    = map (fun f => (DebugLogger.number f, DebugLogger.blob f))
        (DebugLogger.getFrames this)
      ++ DebugLogger.encodedBlobs requests
  ∧ DebugLogger.totalLogs
      (DebugLogger.captureAll toFixed2 jsonClone requests this)
    = DebugLogger.totalLogs this + length requests
  ∧ DebugLogger.totalFrameSize
      (DebugLogger.captureAll toFixed2 jsonClone requests this)
    = (DebugLogger.totalFrameSize this
       + VideoRecorder.totalSize
           (map snd (DebugLogger.encodedBlobs requests)))%Z.
Proof.
  intros Hon.
  destruct (captureAll_enabled toFixed2 jsonClone requests this Hon)
    as (H1 & _ & H2 & H3 & H4).
  auto.
Qed.

Lemma captures_are_recorded_in_order_witness :
  let this := DebugLogger.new true "test-2026-01-01T00-00-00" in
  let requests :=
    [ DebugLogger.sampleCapture 1
        (DebugLogger.EncodedBlob VideoRecorder.sampleChunk);
      DebugLogger.sampleCapture 10 (DebugLogger.EncodeFailed "no blob");
      DebugLogger.sampleCapture 20
        (DebugLogger.EncodedBlob VideoRecorder.sampleChunk) ] in
  let after :=
    DebugLogger.captureAll (fun _ => "1.00"%string) (fun v => v)
      requests this in
  map (fun f => (DebugLogger.number f, DebugLogger.blob f))
    (DebugLogger.getFrames after)
  = [ (1%Z, VideoRecorder.sampleChunk); (20%Z, VideoRecorder.sampleChunk) ]
  ∧ DebugLogger.totalLogs after = 3
  ∧ DebugLogger.totalFrameSize after = 8%Z.
Proof.
  intros this requests after.
  destruct (captures_are_recorded_in_order (fun _ => "1.00"%string)
              (fun v => v) requests this eq_refl)
    as (_ & Hframes & Hlogs & Hsize).
  split; [exact Hframes|]. split; [exact Hlogs|exact Hsize].
Defined.

(** X25: [startSession] and [clear] both discard all frames and all
    earlier log entries; what is left in the log is the one entry the
    method writes itself when the logger is enabled (level SESSION or
    DEBUG) and nothing when it is disabled.  [startSession] sets the new
    session id and the start time; [clear] removes the start time, so the
    elapsed time of its entry is the literal 0.00ms, and keeps the session
    id. *)
Theorem session_reset
        (toFixed2 : Q → string)
        (jsonClone : DataLoader.JSValue → DataLoader.JSValue)
        (newId : string) (c1 c2 : DebugLogger.Clock)
        (this : DebugLogger.Logger) :
  let started :=
    DebugLogger.startSession toFixed2 jsonClone newId c1 c2 this in
  let cleared := DebugLogger.clear toFixed2 jsonClone c2 this in
  DebugLogger.getFrames started = []
  ∧ DebugLogger.sessionId started = newId
  ∧ DebugLogger.startTime started = Some (DebugLogger.now c1)
  ∧ map DebugLogger.level (DebugLogger.getLogs started)
    = (if DebugLogger.isEnabled this then ["SESSION"%string] else [])
  ∧ DebugLogger.getFrames cleared = []
  ∧ DebugLogger.sessionId cleared = DebugLogger.sessionId this
  ∧ DebugLogger.startTime cleared = None
  ∧ map (fun e => (DebugLogger.level e, DebugLogger.elapsed e))
      (DebugLogger.getLogs cleared)
    = (if DebugLogger.isEnabled this
       then [("DEBUG"%string, "0.00ms"%string)] else [])
  ∧ DebugLogger.isEnabled started = DebugLogger.isEnabled this
  ∧ DebugLogger.isEnabled cleared = DebugLogger.isEnabled this.
Proof.
  unfold DebugLogger.startSession, DebugLogger.clear, DebugLogger.log,
    DebugLogger.isEnabled, DebugLogger.getFrames, DebugLogger.getLogs.
  cbn [DebugLogger.enabled].
  destruct (DebugLogger.enabled this); simpl; repeat split; reflexivity.
Qed.

(** X26: on an enabled logger that holds no frame numbered n, after
    [captureFrame] has recorded a frame n, [downloadFrame(n)] hands out
    exactly the blob of that capture, under the name
    <sessionId>-frame-<n padded to four digits>.png, and logs nothing;
    [downloadFrame] of a number no frame carries hands out nothing and
    logs one warning. *)
Theorem downloadFrame_after_capture
        (toFixed2 : Q → string)
        (jsonClone : DataLoader.JSValue → DataLoader.JSValue)
        (canvas : DebugLogger.Canvas) (frameName : string) (n other : Z)
        (b : VideoRecorder.Blob) (fc lc dc : DebugLogger.Clock)
        (this : DebugLogger.Logger) :
  DebugLogger.isEnabled this = true →
  Forall (fun f => DebugLogger.number f ≠ n) (DebugLogger.getFrames this) →
  Forall (fun f => DebugLogger.number f ≠ other)
    (DebugLogger.getFrames this) →
  other ≠ n →
  let after :=
    DebugLogger.captureFrame toFixed2 jsonClone canvas frameName n
      (DebugLogger.EncodedBlob b) fc lc this in
  DebugLogger.downloadFrame toFixed2 jsonClone n dc after
  = (after,
     Some (b,
           (DebugLogger.sessionId this ++ "-frame-"
            ++ DebugLogger.padStart4 n ++ ".png")%string))
  ∧ snd (DebugLogger.downloadFrame toFixed2 jsonClone other dc after) = None
  ∧ DebugLogger.totalLogs
      (fst (DebugLogger.downloadFrame toFixed2 jsonClone other dc after))
    = DebugLogger.totalLogs after + 1.
Proof.
  intros Hon Habsent Hother Hne after.
  destruct (captureFrame_enabled toFixed2 jsonClone canvas frameName n
              (DebugLogger.EncodedBlob b) fc lc this Hon)
    as (Hon1 & Hid1 & _ & _ & Hframes1).
  fold after in Hon1, Hid1, Hframes1.
  unfold DebugLogger.downloadFrame. rewrite Hframes1, Hid1.
  rewrite !find_app_None by (apply find_number_absent; assumption).
  cbn [find DebugLogger.number DebugLogger.blob].
  rewrite Z.eqb_refl.
  assert (Hneq : (n =? other)%Z = false) by (apply Z.eqb_neq; congruence).
  rewrite Hneq. cbn [fst snd].
  split; [reflexivity|]. split; [reflexivity|].
  match goal with
  | |- context [DebugLogger.log _ _ ?l ?m ?d ?c ?t] =>
      destruct (log_enabled toFixed2 jsonClone l m d c t Hon1)
        as (entry & -> & _)
  end.
  unfold DebugLogger.totalLogs. cbn [DebugLogger.logs].
  rewrite length_app. reflexivity.
Qed.

Lemma downloadFrame_after_capture_witness :
  let this := DebugLogger.new true "test-2026-01-01T00-00-00" in
  let after :=
    DebugLogger.captureFrame (fun _ => "1.00"%string) (fun v => v)
      DebugLogger.sampleCanvas "frame-10" 10
      (DebugLogger.EncodedBlob VideoRecorder.sampleChunk)
      DebugLogger.sampleClock DebugLogger.sampleClock this in
  DebugLogger.downloadFrame (fun _ => "1.00"%string) (fun v => v) 10
    DebugLogger.sampleClock after
  = (after,
     Some (VideoRecorder.sampleChunk,
           "test-2026-01-01T00-00-00-frame-0010.png"%string)).
Proof.
  intros this after.
  assert (Hne : 11%Z ≠ 10%Z) by discriminate.
  exact (proj1 (downloadFrame_after_capture (fun _ => "1.00"%string)
                  (fun v => v) DebugLogger.sampleCanvas "frame-10" 10 11
                  VideoRecorder.sampleChunk DebugLogger.sampleClock
                  DebugLogger.sampleClock DebugLogger.sampleClock this
                  eq_refl (List.Forall_nil _) (List.Forall_nil _) Hne)).
Defined.

(** ** The application *)



(** X28: the live log view shows the last 50 entries of the log in their
    order, or the whole log when it has at most 50 entries: the log is the
    older entries followed by the shown ones. *)
Theorem live_log_view_shows_last_50 (logs : list DebugLogger.LogEntry) :
  length (App.recentLogs logs) = Nat.min 50 (length logs)
  ∧ (∃ older,
        logs = older ++ App.recentLogs logs
        ∧ length older = length logs - 50)
  ∧ (length logs ≤ 50 → App.recentLogs logs = logs).
Proof.
  unfold App.recentLogs. split; [rewrite length_drop; lia|]. split.
  - exists (take (length logs - 50) logs). split.
    + symmetry. apply take_drop.
    + rewrite length_take. lia.
  - intros Hle. replace (length logs - 50) with 0 by lia. reflexivity.
Qed.

(** ** Animator: the typewriter reveal *)

Section TypewriterReveal.

Import Animator.

Lemma substring_all (s : string) :
  String.substring 0 (String.length s) s = s.
Proof.
  induction s as [|c s IH]; [reflexivity|].
  cbn [String.length String.substring]. rewrite IH. reflexivity.
Qed.

Lemma substring_prefix (s : string) (m n : nat) :
  m ≤ n →
  String.prefix (String.substring 0 m s) (String.substring 0 n s) = true.
Proof.
  revert m n. induction s as [|c s IH]; intros m n Hmn.
  - destruct m, n; reflexivity.
  - destruct m as [|m]; [destruct n; reflexivity|].
    destruct n as [|n]; [lia|].
    cbn [String.substring String.prefix].
    destruct (ascii_dec c c); [|congruence]. apply IH. lia.
Qed.

End TypewriterReveal.

(** X29: in typewriter mode the redraws of the title tween reveal the
    title from the left: at progress 0 nothing is shown, at progress 1 the
    whole upper-cased title, and for progress p <= q what is shown at p is
    a prefix of what is shown at q. *)
Theorem typewriter_reveals_from_the_left
        (duration : Q) (title : string) (cw ch : Q)
        (rows : list Animator.ChartRow) (labelsOpacity p q : Q) :
  (0 <= p)%Q → (p <= q)%Q →
  ∃ tw call shown,
    Animator.titleTween
      (Animator.createHorizontalBarChartTimeline
         duration true title (map Animator.bar rows)) = Some tw
    ∧ Animator.onUpdate tw = Some call
    ∧ (∀ x,
          Animator.shownTitle
            (Animator.redrawChart true title cw ch rows
               (Animator.titleArgument true call (Animator.tweenValue tw x))
               (Animator.initialBarsState rows) labelsOpacity)
          = Some (shown x))
    ∧ shown 0%Q = EmptyString
    ∧ shown 1%Q = Animator.toUpperCase title
    ∧ String.prefix (shown p) (shown q) = true.
Proof.
  intros H0 Hpq.
  exists {| Animator.target := Animator.TitleElement;
            Animator.endValue :=
              inject_Z (Z.of_nat
                          (String.length (Animator.toUpperCase title)));
            Animator.tweenDuration := duration * (2 # 10);
            Animator.ease := Animator.EaseNone;
            Animator.onUpdate := Some Animator.PassTitleElement;
            Animator.startTime := 0 |}.
  exists Animator.PassTitleElement.
  exists (fun x =>
            String.substring 0
              (Z.to_nat
                 (Qfloor
                    (inject_Z
                       (Z.of_nat (String.length (Animator.toUpperCase title)))
                     * x)))
              (Animator.toUpperCase title)).
  split; [apply titleTween_typewriter|]. split; [reflexivity|].
  split; [|split; [|split]].
  - intros x. cbn [Animator.titleArgument].
    rewrite shownTitle_typewriter; [reflexivity|].
    unfold Animator.initialBarsState. rewrite length_map. lia.
  - rewrite (Qfloor_comp _ 0%Q) by ring.
    destruct (Animator.toUpperCase title); reflexivity.
  - rewrite (Qfloor_comp _
               (inject_Z (Z.of_nat
                            (String.length (Animator.toUpperCase title)))))
      by ring.
    rewrite Qfloor_Z, Nat2Z.id. apply substring_all.
  - apply substring_prefix. apply Z2Nat.inj_le.
    + rewrite <- (Qfloor_Z 0). apply Qfloor_resp_le.
      apply Qmult_le_0_compat; [|exact H0].
      change 0%Q with (inject_Z 0). rewrite <- Zle_Qle. lia.
    + rewrite <- (Qfloor_Z 0). apply Qfloor_resp_le.
      apply Qmult_le_0_compat; [|lra].
      change 0%Q with (inject_Z 0). rewrite <- Zle_Qle. lia.
    + apply Qfloor_resp_le.
      assert (HN : (0 <= inject_Z
                          (Z.of_nat
                             (String.length (Animator.toUpperCase title))))%Q).
      { change 0%Q with (inject_Z 0). rewrite <- Zle_Qle. lia. }
      nra.
Qed.

Lemma typewriter_reveals_from_the_left_witness :
  (0 <= 1 # 3)%Q ∧ (1 # 3 <= 2 # 3)%Q
  ∧ ∃ tw call shown,
      Animator.titleTween
        (Animator.createHorizontalBarChartTimeline
           5 true "gdp" (map Animator.bar Animator.sampleRows)) = Some tw
      ∧ Animator.onUpdate tw = Some call
      ∧ (∀ x,
            Animator.shownTitle
              (Animator.redrawChart true "gdp" 854 480 Animator.sampleRows
                 (Animator.titleArgument true call
                    (Animator.tweenValue tw x))
                 (Animator.initialBarsState Animator.sampleRows) 0)
            = Some (shown x))
      ∧ shown 0%Q = EmptyString
      ∧ shown 1%Q = Animator.toUpperCase "gdp"
      ∧ String.prefix (shown (1 # 3)%Q) (shown (2 # 3)%Q) = true.
Proof.
  split; [vm_compute; discriminate|]. split; [vm_compute; discriminate|].
  apply (typewriter_reveals_from_the_left 5 "gdp" 854 480
           Animator.sampleRows 0 (1 # 3) (2 # 3));
    vm_compute; discriminate.
Defined.
